(** * SceneManager.cpp: texture registry, material catalog and transform
      composition

    A shallow embedding of [7-1_FinalProjectMilestones/Source/SceneManager.cpp].

    - C++ [int] is [Z]; the values met here stay far from the 32-bit limits,
      except the conversion of a [GLuint] handle to [int] in [FindTextureID],
      which is written out ([int_of_GLuint]).
    - C++ [float] and glm's [float] vectors and matrices are taken in exact
      real arithmetic ([R]): rounding is left out of the model.
    - Methods of the class are computations in a state monad over the object
      and the devices it talks to (OpenGL context, image files, console);
      a run that leaves defined C++ behaviour (an array access outside
      [m_textureIDs], a call through a null [m_pShaderManager]) ends in
      [Undefined]. *)

From Stdlib Require Import ZArith String List Reals Lra Lia.
From stdpp Require Import base list.
Import ListNotations.
Local Open Scope Z_scope.

(** ** glm: vectors, matrices and the transformations of
       [glm/gtx/transform.hpp], in exact arithmetic *)
Module Glm.
Local Open Scope R_scope.

(** A C++ [float], in exact arithmetic. *)
Abbreviation float := R.

Record vec2 := Vec2 { x2 : float; y2 : float }.
Record vec3 := Vec3 { x3 : float; y3 : float; z3 : float }.
Record vec4 := Vec4 { x4 : float; y4 : float; z4 : float; w4 : float }.

(** A [mat4] is four columns: [m[c][r]] is row [r] of column [c]. *)
Record mat4 := Mat4 { col0 : vec4; col1 : vec4; col2 : vec4; col3 : vec4 }.

(** [v * s] and [a + b] on [vec4]. *)
Definition vec4_scale (v : vec4) (s : float) : vec4 :=
  Vec4 (x4 v * s) (y4 v * s) (z4 v * s) (w4 v * s).

Definition vec4_add (a b : vec4) : vec4 :=
  Vec4 (x4 a + x4 b) (y4 a + y4 b) (z4 a + z4 b) (w4 a + w4 b).

(** [mat4(1.0f)] *)
Definition mat4_identity : mat4 :=
  Mat4 (Vec4 1 0 0 0) (Vec4 0 1 0 0) (Vec4 0 0 1 0) (Vec4 0 0 0 1).

(** [m * v]: a linear combination of the columns of [m]. *)
Definition mat4_mul_vec4 (m : mat4) (v : vec4) : vec4 :=
  Vec4 (x4 (col0 m) * x4 v + x4 (col1 m) * y4 v + x4 (col2 m) * z4 v + x4 (col3 m) * w4 v)
       (y4 (col0 m) * x4 v + y4 (col1 m) * y4 v + y4 (col2 m) * z4 v + y4 (col3 m) * w4 v)
       (z4 (col0 m) * x4 v + z4 (col1 m) * y4 v + z4 (col2 m) * z4 v + z4 (col3 m) * w4 v)
       (w4 (col0 m) * x4 v + w4 (col1 m) * y4 v + w4 (col2 m) * z4 v + w4 (col3 m) * w4 v).

(** One column of [m1 * m2]:
    [SrcA0 * SrcB[0] + SrcA1 * SrcB[1] + SrcA2 * SrcB[2] + SrcA3 * SrcB[3]]. *)
Definition mat4_mul_col (m1 : mat4) (b : vec4) : vec4 :=
  vec4_add (vec4_add (vec4_add (vec4_scale (col0 m1) (x4 b))
                               (vec4_scale (col1 m1) (y4 b)))
                     (vec4_scale (col2 m1) (z4 b)))
           (vec4_scale (col3 m1) (w4 b)).

(** [m1 * m2] *)
Definition mat4_mul (m1 m2 : mat4) : mat4 :=
  Mat4 (mat4_mul_col m1 (col0 m2)) (mat4_mul_col m1 (col1 m2))
       (mat4_mul_col m1 (col2 m2)) (mat4_mul_col m1 (col3 m2)).

(** [glm::radians]: degrees times pi/180. *)
Definition radians (degrees : float) : float := degrees * (PI / 180).

Definition dot (a b : vec3) : float := x3 a * x3 b + y3 a * y3 b + z3 a * z3 b.

Definition inversesqrt (x : float) : float := 1 / sqrt x.

(** [glm::normalize(v)] is [v * inversesqrt(dot(v, v))]. *)
Definition normalize (v : vec3) : vec3 :=
  let k := inversesqrt (dot v v) in Vec3 (x3 v * k) (y3 v * k) (z3 v * k).

(** [glm::scale(m, v)] and [glm::scale(v) = scale(mat4(1), v)]. *)
Definition scale_m (m : mat4) (v : vec3) : mat4 :=
  Mat4 (vec4_scale (col0 m) (x3 v)) (vec4_scale (col1 m) (y3 v))
       (vec4_scale (col2 m) (z3 v)) (col3 m).

Definition scale (v : vec3) : mat4 := scale_m mat4_identity v.

(** [glm::translate(m, v)]: [Result[3] = m[0]*v[0] + m[1]*v[1] + m[2]*v[2] + m[3]]. *)
Definition translate_m (m : mat4) (v : vec3) : mat4 :=
  Mat4 (col0 m) (col1 m) (col2 m)
       (vec4_add (vec4_add (vec4_add (vec4_scale (col0 m) (x3 v))
                                     (vec4_scale (col1 m) (y3 v)))
                           (vec4_scale (col2 m) (z3 v)))
                 (col3 m)).

Definition translate (v : vec3) : mat4 := translate_m mat4_identity v.

(** [glm::rotate(m, angle, v)]: the axis is normalised, the 3x3 rotation is
    built from [c = cos angle], [s = sin angle] and [temp = (1 - c) * axis],
    and the first three columns of [m] are recombined with it. *)
Definition rotate_m (m : mat4) (angle : float) (v : vec3) : mat4 :=
  let c := cos angle in
  let s := sin angle in
  let axis := normalize v in
  let temp := Vec3 ((1 - c) * x3 axis) ((1 - c) * y3 axis) ((1 - c) * z3 axis) in
  let r00 := c + x3 temp * x3 axis in
  let r01 := x3 temp * y3 axis + s * z3 axis in
  let r02 := x3 temp * z3 axis - s * y3 axis in
  let r10 := y3 temp * x3 axis - s * z3 axis in
  let r11 := c + y3 temp * y3 axis in
  let r12 := y3 temp * z3 axis + s * x3 axis in
  let r20 := z3 temp * x3 axis + s * y3 axis in
  let r21 := z3 temp * y3 axis - s * x3 axis in
  let r22 := c + z3 temp * z3 axis in
  Mat4 (vec4_add (vec4_add (vec4_scale (col0 m) r00) (vec4_scale (col1 m) r01))
                 (vec4_scale (col2 m) r02))
       (vec4_add (vec4_add (vec4_scale (col0 m) r10) (vec4_scale (col1 m) r11))
                 (vec4_scale (col2 m) r12))
       (vec4_add (vec4_add (vec4_scale (col0 m) r20) (vec4_scale (col1 m) r21))
                 (vec4_scale (col2 m) r22))
       (col3 m).

Definition rotate (angle : float) (v : vec3) : mat4 := rotate_m mat4_identity angle v.

End Glm.

(** ** The devices the class talks to *)

(** A [GLuint] is an unsigned 32-bit value, kept as a [Z] in [0, 2^32). *)
Definition GLuint := Z.

(** The conversion of an unsigned 32-bit value to [int] (two's complement),
    as in [int textureID = m_textureIDs[index].ID]. *)
Definition int_of_GLuint (u : GLuint) : Z := (u + 2 ^ 31) mod 2 ^ 32 - 2 ^ 31.

Inductive GLenum :=
| GL_TEXTURE_2D | GL_TEXTURE_WRAP_S | GL_TEXTURE_WRAP_T | GL_REPEAT
| GL_TEXTURE_MIN_FILTER | GL_TEXTURE_MAG_FILTER | GL_LINEAR
| GL_RGB8 | GL_RGB | GL_RGBA8 | GL_RGBA | GL_UNSIGNED_BYTE
| GL_TEXTURE0_plus (i : Z).

(** What [stbi_load] hands back for a readable file. *)
Record stbi_image := {
  width : Z;
  height : Z;
  colorChannels : Z;
  pixels : list Byte.byte
}.

(** The OpenGL calls the class makes, as the context receives them. *)
Inductive GLcall :=
| GenTextures (n : Z) (name : GLuint)
| BindTexture (target : GLenum) (texture : GLuint)
| TexParameteri (target pname param : GLenum)
| TexImage2D (target : GLenum) (level : Z) (internalformat : GLenum)
             (w h border : Z) (format type : GLenum) (image : stbi_image)
| GenerateMipmap (target : GLenum)
| ActiveTexture (unit : GLenum).

(** The lines written to [std::cout]. *)
Inductive cout_line :=
| Successfully_loaded_image (filename : string) (w h channels : Z)
| Not_implemented_to_handle_image (channels : Z)
| Could_not_load_image (filename : string).

(** ** The shader sink: the uniform writes a [ShaderManager] has received *)
Inductive UniformWrite :=
| setMat4Value (name : string) (value : Glm.mat4)
| setIntValue (name : string) (value : Z)
| setVec4Value (name : string) (value : Glm.vec4)
| setSampler2DValue (name : string) (value : Z)
| setVec2Value (name : string) (value : Glm.vec2)
| setVec3Value (name : string) (value : Glm.vec3)
| setFloatValue (name : string) (value : Glm.float).

Definition ShaderManager := list UniformWrite.

(** ** The data of the class *)
Module TEXTURE_INFO.
Record t := Build { ID : GLuint; tag : string }.
End TEXTURE_INFO.

Module OBJECT_MATERIAL.
Record t := Build {
  ambientColor : Glm.vec3;
  ambientStrength : Glm.float;
  diffuseColor : Glm.vec3;
  specularColor : Glm.vec3;
  shininess : Glm.float;
  tag : string
}.
End OBJECT_MATERIAL.

(** Modelled from the spec: the extent of the array [m_textureIDs], declared
    in SceneManager.h (not at hand); the spec and the comments of
    [BindGLTextures] and [LoadSceneTextures] give 16 slots. *)
Definition MAX_TEXTURES : Z := 16.

(** The object ([m_...] fields; [m_basicMeshes] plays no part here) and the
    state of the devices around it.  [m_pShaderManager] is [None] for a null
    pointer.  [gl_supply] lists the texture names the driver returns, in
    order, [gl_names] those returned so far. *)
Record World := MkWorld {
  m_pShaderManager : option ShaderManager;
  m_textureIDs : list TEXTURE_INFO.t;
  m_loadedTextures : Z;
  m_objectMaterials : list OBJECT_MATERIAL.t;
  gl_supply : nat -> GLuint;
  gl_names : list GLuint;
  gl_calls : list GLcall;
  files : string -> option stbi_image;
  cout : list cout_line
}.

Definition set_pShaderManager (s : option ShaderManager) (w : World) : World :=
  MkWorld s (m_textureIDs w) (m_loadedTextures w) (m_objectMaterials w)
          (gl_supply w) (gl_names w) (gl_calls w) (files w) (cout w).

Definition set_textureIDs (a : list TEXTURE_INFO.t) (w : World) : World :=
  MkWorld (m_pShaderManager w) a (m_loadedTextures w) (m_objectMaterials w)
          (gl_supply w) (gl_names w) (gl_calls w) (files w) (cout w).

Definition set_loadedTextures (n : Z) (w : World) : World :=
  MkWorld (m_pShaderManager w) (m_textureIDs w) n (m_objectMaterials w)
          (gl_supply w) (gl_names w) (gl_calls w) (files w) (cout w).

Definition set_gl_names (l : list GLuint) (w : World) : World :=
  MkWorld (m_pShaderManager w) (m_textureIDs w) (m_loadedTextures w)
          (m_objectMaterials w) (gl_supply w) l (gl_calls w) (files w) (cout w).

Definition set_gl_calls (l : list GLcall) (w : World) : World :=
  MkWorld (m_pShaderManager w) (m_textureIDs w) (m_loadedTextures w)
          (m_objectMaterials w) (gl_supply w) (gl_names w) l (files w) (cout w).

Definition set_cout (l : list cout_line) (w : World) : World :=
  MkWorld (m_pShaderManager w) (m_textureIDs w) (m_loadedTextures w)
          (m_objectMaterials w) (gl_supply w) (gl_names w) (gl_calls w) (files w) l.

(** ** The monad of method bodies *)
Inductive outcome (A : Type) : Type :=
| Done (a : A)
| Undefined.
Arguments Done {A} a.
Arguments Undefined {A}.

Definition M (A : Type) : Type := World -> outcome (A * World).

Definition ret {A} (a : A) : M A := fun w => Done (a, w).

Definition bind {A B} (c : M A) (k : A -> M B) : M B :=
  fun w => match c w with
           | Done (a, w') => k a w'
           | Undefined => Undefined
           end.

Definition undefined {A} : M A := fun _ => Undefined.
Definition get : M World := fun w => Done (w, w).
Definition modify (f : World -> World) : M unit := fun w => Done (tt, f w).

Notation "x <- c1 ;; c2" := (bind c1 (fun x => c2))
  (at level 100, c1 at next level, right associativity).
Notation "c1 ;; c2" := (bind c1 (fun _ => c2))
  (at level 100, right associativity).

(** ** Primitive steps *)

(** [a[i]] for a C array kept as a list: no element outside its extent. *)
Definition array_get {T} (a : list T) (i : Z) : option T :=
  if 0 <=? i then a !! Z.to_nat i else None.

(** [m_textureIDs[i]] read; outside the array the behaviour is undefined. *)
Definition textureIDs_at (i : Z) : M TEXTURE_INFO.t :=
  fun w => match array_get (m_textureIDs w) i with
           | Some e => Done (e, w)
           | None => Undefined
           end.

(** [m_textureIDs[i] = f(m_textureIDs[i])], for the two field stores. *)
Definition textureIDs_update (i : Z) (f : TEXTURE_INFO.t -> TEXTURE_INFO.t) : M unit :=
  e <- textureIDs_at i ;;
  modify (fun w => set_textureIDs (<[Z.to_nat i := f e]> (m_textureIDs w)) w).

Definition store_ID (v : GLuint) (e : TEXTURE_INFO.t) : TEXTURE_INFO.t :=
  TEXTURE_INFO.Build v (TEXTURE_INFO.tag e).

Definition store_tag (s : string) (e : TEXTURE_INFO.t) : TEXTURE_INFO.t :=
  TEXTURE_INFO.Build (TEXTURE_INFO.ID e) s.

(** [stbi_load]: the decoded image of the file, or a null pointer. *)
Definition stbi_load (filename : string) : M (option stbi_image) :=
  w <- get ;; ret (files w filename).

Definition print (l : cout_line) : M unit :=
  modify (fun w => set_cout (cout w ++ [l]) w).

Definition gl_call (c : GLcall) : M unit :=
  modify (fun w => set_gl_calls (gl_calls w ++ [c]) w).

(** [glGenTextures(1, &name)]: the driver returns the next name of its supply. *)
Definition glGenTextures1 : M GLuint :=
  w <- get ;;
  let name := gl_supply w (length (gl_names w)) in
  modify (set_gl_names (gl_names w ++ [name])) ;;
  gl_call (GenTextures 1 name) ;;
  ret name.

(** A call [m_pShaderManager->set...Value(...)]: through a null pointer the
    behaviour is undefined. *)
Definition sink_write (u : UniformWrite) : M unit :=
  fun w => match m_pShaderManager w with
           | Some sm => Done (tt, set_pShaderManager (Some (sm ++ [u])) w)
           | None => Undefined
           end.

(** [NULL != m_pShaderManager] *)
Definition pShaderManager_not_null : M bool :=
  w <- get ;; ret (match m_pShaderManager w with Some _ => true | None => false end).

(** [a.compare(b)] of [std::string], up to the sign of the result. *)
Definition std_compare (a b : string) : Z :=
  match String.compare a b with Eq => 0 | Lt => -1 | Gt => 1 end.

(** [for (int i = from; i < from + n; i++) body(i)], [n] being the number of
    iterations left. *)
Fixpoint for_loop (n : nat) (i : Z) (body : Z -> M unit) : M unit :=
  match n with
  | O => ret tt
  | S n' => body i ;; for_loop n' (i + 1) body
  end.

Definition g_ModelName : string := "model"%string.
Definition g_ColorValueName : string := "objectColor"%string.
Definition g_TextureValueName : string := "objectTexture"%string.
Definition g_UseTextureName : string := "bUseTexture"%string.
Definition g_UseLightingName : string := "bUseLighting"%string.

(** ** The methods of [SceneManager] *)

(** Lines 95-105 of [CreateGLTexture]: the upload in the format that the
    channel count selects; [false] stands for leaving through the
    [return false] of the last branch. *)
Definition upload_image (img : stbi_image) : M bool :=
  if colorChannels img =? 3 then
    gl_call (TexImage2D GL_TEXTURE_2D 0 GL_RGB8 (width img) (height img) 0
                        GL_RGB GL_UNSIGNED_BYTE img) ;;
    ret true
  else if colorChannels img =? 4 then
    gl_call (TexImage2D GL_TEXTURE_2D 0 GL_RGBA8 (width img) (height img) 0
                        GL_RGBA GL_UNSIGNED_BYTE img) ;;
    ret true
  else
    print (Not_implemented_to_handle_image (colorChannels img)) ;;
    ret false.

(** Lines 115-117 of [CreateGLTexture]: the two stores into slot
    [m_loadedTextures] and the increment. *)
Definition register_texture (textureID : GLuint) (tag : string) : M unit :=
  w <- get ;;
  textureIDs_update (m_loadedTextures w) (store_ID textureID) ;;
  textureIDs_update (m_loadedTextures w) (store_tag tag) ;;
  modify (set_loadedTextures (m_loadedTextures w + 1)).

(** [CreateGLTexture], lines 62-126.  The [return false] of the unsupported
    channel count comes after [glGenTextures] and before the registration;
    the image is the one [stbi_load] returns with the vertical flip set. *)
Definition CreateGLTexture (filename : string) (tag : string) : M bool :=
  image <- stbi_load filename ;;
  match image with
  | Some img =>
      print (Successfully_loaded_image filename (width img) (height img) (colorChannels img)) ;;
      textureID <- glGenTextures1 ;;
      gl_call (BindTexture GL_TEXTURE_2D textureID) ;;
      gl_call (TexParameteri GL_TEXTURE_2D GL_TEXTURE_WRAP_S GL_REPEAT) ;;
      gl_call (TexParameteri GL_TEXTURE_2D GL_TEXTURE_WRAP_T GL_REPEAT) ;;
      gl_call (TexParameteri GL_TEXTURE_2D GL_TEXTURE_MIN_FILTER GL_LINEAR) ;;
      gl_call (TexParameteri GL_TEXTURE_2D GL_TEXTURE_MAG_FILTER GL_LINEAR) ;;
      supported <- upload_image img ;;
      if supported : bool then
        gl_call (GenerateMipmap GL_TEXTURE_2D) ;;
        gl_call (BindTexture GL_TEXTURE_2D 0) ;;
        register_texture textureID tag ;;
        ret true
      else ret false
  | None =>
      print (Could_not_load_image filename) ;;
      ret false
  end.

(** The body of the loop of [BindGLTextures], lines 138-140. *)
Definition BindGLTextures_body (i : Z) : M unit :=
  gl_call (ActiveTexture (GL_TEXTURE0_plus i)) ;;
  e <- textureIDs_at i ;;
  gl_call (BindTexture GL_TEXTURE_2D (TEXTURE_INFO.ID e)).

(** [BindGLTextures], lines 134-142. *)
Definition BindGLTextures : M unit :=
  w <- get ;;
  for_loop (Z.to_nat (m_loadedTextures w)) 0 BindGLTextures_body.

(** The body of the loop of [DestroyGLTextures], line 154:
    [glGenTextures(1, &m_textureIDs[i].ID)]. *)
Definition DestroyGLTextures_body (i : Z) : M unit :=
  name <- glGenTextures1 ;;
  textureIDs_update i (store_ID name).

(** [DestroyGLTextures], lines 150-156: [m_loadedTextures] is not written. *)
Definition DestroyGLTextures : M unit :=
  w <- get ;;
  for_loop (Z.to_nat (m_loadedTextures w)) 0 DestroyGLTextures_body.

(** The loop of [FindTextureID], lines 170-179, by the number [n] of
    iterations left, [m_loadedTextures - index]: it stops at the first entry
    whose tag compares equal, and at [index = m_loadedTextures] the result is
    still the initial [-1]. *)
Fixpoint FindTextureID_loop (n : nat) (tag : string) (index : Z) : M Z :=
  match n with
  | O => ret (-1)
  | S n' =>
      e <- textureIDs_at index ;;
      if std_compare (TEXTURE_INFO.tag e) tag =? 0
      then ret (int_of_GLuint (TEXTURE_INFO.ID e))
      else FindTextureID_loop n' tag (index + 1)
  end.

Definition FindTextureID (tag : string) : M Z :=
  w <- get ;; FindTextureID_loop (Z.to_nat (m_loadedTextures w)) tag 0.

(** The loop of [FindTextureSlot], lines 196-205. *)
Fixpoint FindTextureSlot_loop (n : nat) (tag : string) (index : Z) : M Z :=
  match n with
  | O => ret (-1)
  | S n' =>
      e <- textureIDs_at index ;;
      if std_compare (TEXTURE_INFO.tag e) tag =? 0
      then ret index
      else FindTextureSlot_loop n' tag (index + 1)
  end.

Definition FindTextureSlot (tag : string) : M Z :=
  w <- get ;; FindTextureSlot_loop (Z.to_nat (m_loadedTextures w)) tag 0.

(** The five assignments of lines 230-234; the tag of [material] is kept. *)
Definition copy_material (src material : OBJECT_MATERIAL.t) : OBJECT_MATERIAL.t :=
  OBJECT_MATERIAL.Build
    (OBJECT_MATERIAL.ambientColor src)
    (OBJECT_MATERIAL.ambientStrength src)
    (OBJECT_MATERIAL.diffuseColor src)
    (OBJECT_MATERIAL.specularColor src)
    (OBJECT_MATERIAL.shininess src)
    (OBJECT_MATERIAL.tag material).

(** The loop of [FindMaterial], lines 225-240, by the number of iterations
    left; it returns the contents of the reference [material] at its end. *)
Fixpoint FindMaterial_loop (n : nat) (tag : string) (index : Z)
    (material : OBJECT_MATERIAL.t) : M OBJECT_MATERIAL.t :=
  match n with
  | O => ret material
  | S n' =>
      w <- get ;;
      match array_get (m_objectMaterials w) index with
      | Some e =>
          if std_compare (OBJECT_MATERIAL.tag e) tag =? 0
          then ret (copy_material e material)
          else FindMaterial_loop n' tag (index + 1) material
      | None => undefined
      end
  end.

(** [FindMaterial], lines 216-243: the result and the final contents of the
    reference parameter [material].  The last statement is [return(true)]. *)
Definition FindMaterial (tag : string) (material : OBJECT_MATERIAL.t)
    : M (bool * OBJECT_MATERIAL.t) :=
  w <- get ;;
  if Z.of_nat (length (m_objectMaterials w)) =? 0 then ret (false, material)
  else
    material' <- FindMaterial_loop (length (m_objectMaterials w)) tag 0 material ;;
    ret (true, material').

(** [glm::vec3(1.0f, 0.0f, 0.0f)] and the two other axes of lines 269-271. *)
Definition vec3_X : Glm.vec3 := Glm.Vec3 1%R 0%R 0%R.
Definition vec3_Y : Glm.vec3 := Glm.Vec3 0%R 1%R 0%R.
Definition vec3_Z : Glm.vec3 := Glm.Vec3 0%R 0%R 1%R.

(** The matrix of line 275. *)
Definition modelView (scaleXYZ : Glm.vec3)
    (XrotationDegrees YrotationDegrees ZrotationDegrees : Glm.float)
    (positionXYZ : Glm.vec3) : Glm.mat4 :=
  let scale := Glm.scale scaleXYZ in
  let rotationX := Glm.rotate (Glm.radians XrotationDegrees) vec3_X in
  let rotationY := Glm.rotate (Glm.radians YrotationDegrees) vec3_Y in
  let rotationZ := Glm.rotate (Glm.radians ZrotationDegrees) vec3_Z in
  let translation := Glm.translate positionXYZ in
  Glm.mat4_mul (Glm.mat4_mul (Glm.mat4_mul (Glm.mat4_mul translation rotationX)
                                           rotationY) rotationZ) scale.

(** [SetTransformations], lines 251-281. *)
Definition SetTransformations (scaleXYZ : Glm.vec3)
    (XrotationDegrees YrotationDegrees ZrotationDegrees : Glm.float)
    (positionXYZ : Glm.vec3) : M unit :=
  let m := modelView scaleXYZ XrotationDegrees YrotationDegrees ZrotationDegrees
                     positionXYZ in
  bound <- pShaderManager_not_null ;;
  if bound : bool then sink_write (setMat4Value g_ModelName m) else ret tt.

(** [SetShaderColor], lines 289-308; [false] is passed as the [int] 0. *)
Definition SetShaderColor (redColorValue greenColorValue blueColorValue alphaValue : Glm.float)
    : M unit :=
  let currentColor := Glm.Vec4 redColorValue greenColorValue blueColorValue alphaValue in
  bound <- pShaderManager_not_null ;;
  if bound : bool then
    sink_write (setIntValue g_UseTextureName 0) ;;
    sink_write (setVec4Value g_ColorValueName currentColor)
  else ret tt.

(** [SetShaderTexture], lines 316-327. *)
Definition SetShaderTexture (textureTag : string) : M unit :=
  bound <- pShaderManager_not_null ;;
  if bound : bool then
    sink_write (setIntValue g_UseTextureName 1) ;;
    textureID <- FindTextureSlot textureTag ;;
    sink_write (setSampler2DValue g_TextureValueName textureID)
  else ret tt.

(** [SetTextureUVScale], lines 335-341. *)
Definition SetTextureUVScale (u v : Glm.float) : M unit :=
  bound <- pShaderManager_not_null ;;
  if bound : bool then sink_write (setVec2Value "UVscale" (Glm.Vec2 u v)) else ret tt.

(** [SetShaderMaterial], lines 349-367.  The local [material] is declared
    without an initialiser: its first contents are the argument [material].
    No test of [m_pShaderManager] guards the five writes. *)
Definition SetShaderMaterial (materialTag : string) (material : OBJECT_MATERIAL.t) : M unit :=
  w <- get ;;
  if Z.of_nat (length (m_objectMaterials w)) >? 0 then
    r <- FindMaterial materialTag material ;;
    if fst r : bool then
      sink_write (setVec3Value "material.ambientColor" (OBJECT_MATERIAL.ambientColor (snd r))) ;;
      sink_write (setFloatValue "material.ambientStrength" (OBJECT_MATERIAL.ambientStrength (snd r))) ;;
      sink_write (setVec3Value "material.diffuseColor" (OBJECT_MATERIAL.diffuseColor (snd r))) ;;
      sink_write (setVec3Value "material.specularColor" (OBJECT_MATERIAL.specularColor (snd r))) ;;
      sink_write (setFloatValue "material.shininess" (OBJECT_MATERIAL.shininess (snd r)))
    else ret tt
  else ret tt.

(** ** The composition as the specification words it *)
Module Spec.
Import Glm.
Local Open Scope R_scope.

(** A matrix written row by row, as on paper. *)
Definition mat4_of_rows (r0 r1 r2 r3 : vec4) : mat4 :=
  Mat4 (Vec4 (x4 r0) (x4 r1) (x4 r2) (x4 r3))
       (Vec4 (y4 r0) (y4 r1) (y4 r2) (y4 r3))
       (Vec4 (z4 r0) (z4 r1) (z4 r2) (z4 r3))
       (Vec4 (w4 r0) (w4 r1) (w4 r2) (w4 r3)).

Definition row0 (m : mat4) : vec4 := Vec4 (x4 (col0 m)) (x4 (col1 m)) (x4 (col2 m)) (x4 (col3 m)).
Definition row1 (m : mat4) : vec4 := Vec4 (y4 (col0 m)) (y4 (col1 m)) (y4 (col2 m)) (y4 (col3 m)).
Definition row2 (m : mat4) : vec4 := Vec4 (z4 (col0 m)) (z4 (col1 m)) (z4 (col2 m)) (z4 (col3 m)).
Definition row3 (m : mat4) : vec4 := Vec4 (w4 (col0 m)) (w4 (col1 m)) (w4 (col2 m)) (w4 (col3 m)).

Definition dot4 (a b : vec4) : R := x4 a * x4 b + y4 a * y4 b + z4 a * z4 b + w4 a * w4 b.

(** The matrix product [A · B], rows of [A] against columns of [B]. *)
Definition product (A B : mat4) : mat4 :=
  mat4_of_rows
    (Vec4 (dot4 (row0 A) (col0 B)) (dot4 (row0 A) (col1 B)) (dot4 (row0 A) (col2 B)) (dot4 (row0 A) (col3 B)))
    (Vec4 (dot4 (row1 A) (col0 B)) (dot4 (row1 A) (col1 B)) (dot4 (row1 A) (col2 B)) (dot4 (row1 A) (col3 B)))
    (Vec4 (dot4 (row2 A) (col0 B)) (dot4 (row2 A) (col1 B)) (dot4 (row2 A) (col2 B)) (dot4 (row2 A) (col3 B)))
    (Vec4 (dot4 (row3 A) (col0 B)) (dot4 (row3 A) (col1 B)) (dot4 (row3 A) (col2 B)) (dot4 (row3 A) (col3 B))).

Definition Translate (p : vec3) : mat4 :=
  mat4_of_rows (Vec4 1 0 0 (x3 p)) (Vec4 0 1 0 (y3 p)) (Vec4 0 0 1 (z3 p)) (Vec4 0 0 0 1).

Definition Scale (s : vec3) : mat4 :=
  mat4_of_rows (Vec4 (x3 s) 0 0 0) (Vec4 0 (y3 s) 0 0) (Vec4 0 0 (z3 s) 0) (Vec4 0 0 0 1).

(** Rotations by [a] radians about the world axes. *)
Definition RotateX (a : R) : mat4 :=
  mat4_of_rows (Vec4 1 0 0 0) (Vec4 0 (cos a) (- sin a) 0) (Vec4 0 (sin a) (cos a) 0) (Vec4 0 0 0 1).

Definition RotateY (a : R) : mat4 :=
  mat4_of_rows (Vec4 (cos a) 0 (sin a) 0) (Vec4 0 1 0 0) (Vec4 (- sin a) 0 (cos a) 0) (Vec4 0 0 0 1).

Definition RotateZ (a : R) : mat4 :=
  mat4_of_rows (Vec4 (cos a) (- sin a) 0 0) (Vec4 (sin a) (cos a) 0 0) (Vec4 0 0 1 0) (Vec4 0 0 0 1).

Definition deg_to_rad (d : R) : R := d * PI / 180.

(** [M = Translate(position) · RotateX(rotX) · RotateY(rotY) · RotateZ(rotZ) · Scale(scale)],
    the products taken from the left. *)
Definition Compose (scale : vec3) (rotX rotY rotZ : R) (position : vec3) : mat4 :=
  product
    (product
       (product (product (Translate position) (RotateX (deg_to_rad rotX)))
                (RotateY (deg_to_rad rotY)))
       (RotateZ (deg_to_rad rotZ)))
    (Scale scale).

(** A matrix applied to a point: [M · (x, y, z, 1)], the [w] dropped. *)
Definition apply (m : mat4) (p : vec3) : vec3 :=
  let v := mat4_mul_vec4 m (Vec4 (x3 p) (y3 p) (z3 p) 1) in
  Vec3 (x4 v) (y4 v) (z4 v).

(** Two points agree within [eps] in every coordinate. *)
Definition within (eps : R) (p q : vec3) : Prop :=
  Rabs (x3 p - x3 q) <= eps /\ Rabs (y3 p - y3 q) <= eps /\ Rabs (z3 p - z3 q) <= eps.

End Spec.

(** ** Well-formed registries *)

(** The array has its 16 slots and the count is within them. *)
Definition registry_ok (w : World) : Prop :=
  Z.of_nat (length (m_textureIDs w)) = MAX_TEXTURES /\
  0 <= m_loadedTextures w <= MAX_TEXTURES.

(** Entry [e] is registered at index [i]. *)
Definition registered (w : World) (i : Z) (e : TEXTURE_INFO.t) : Prop :=
  0 <= i < m_loadedTextures w /\ array_get (m_textureIDs w) i = Some e.

(** No registered entry bears [tag]. *)
Definition unregistered (w : World) (tag : string) : Prop :=
  forall i e, registered w i e -> TEXTURE_INFO.tag e <> tag.

(** Every registered handle is representable as a non-negative [int]. *)
Definition handles_fit_int (w : World) : Prop :=
  forall i e, registered w i e -> 0 <= TEXTURE_INFO.ID e < 2 ^ 31.

(** [img] has one of the two channel counts [CreateGLTexture] handles. *)
Definition supported_channels (img : stbi_image) : Prop :=
  colorChannels img = 3 \/ colorChannels img = 4.

(** ** Sample states *)

Definition rgb_image : stbi_image :=
  {| width := 1; height := 1; colorChannels := 3; pixels := [Byte.xff; Byte.x00; Byte.x00] |}.

Definition rgba_image : stbi_image :=
  {| width := 1; height := 1; colorChannels := 4;
     pixels := [Byte.xff; Byte.x00; Byte.x00; Byte.xff] |}.

Definition gray_image : stbi_image :=
  {| width := 1; height := 1; colorChannels := 1; pixels := [Byte.x80] |}.

(** Three readable files; every other name fails to decode. *)
Definition sample_files (filename : string) : option stbi_image :=
  if String.eqb filename "rgb.jpg" then Some rgb_image
  else if String.eqb filename "rgba.png" then Some rgba_image
  else if String.eqb filename "gray.png" then Some gray_image
  else None.

(** A driver handing out the names 1, 2, 3, ... *)
Definition counting_supply (n : nat) : GLuint := Z.of_nat (S n).

Definition blank_slot : TEXTURE_INFO.t := TEXTURE_INFO.Build 0 "".

(** A scene manager with a bound sink and nothing loaded. *)
Definition fresh_world : World :=
  {| m_pShaderManager := Some [];
     m_textureIDs := repeat blank_slot 16;
     m_loadedTextures := 0;
     m_objectMaterials := [];
     gl_supply := counting_supply;
     gl_names := [];
     gl_calls := [];
     files := sample_files;
     cout := [] |}.

(** One texture registered, as after one successful load. *)
Definition one_texture_world : World :=
  {| m_pShaderManager := Some [];
     m_textureIDs := TEXTURE_INFO.Build 1 "a" :: repeat blank_slot 15;
     m_loadedTextures := 1;
     m_objectMaterials := [];
     gl_supply := counting_supply;
     gl_names := [1];
     gl_calls := [];
     files := sample_files;
     cout := [] |}.

(** All 16 slots registered, with the handles 1 to 16. *)
Definition full_world : World :=
  {| m_pShaderManager := Some [];
     m_textureIDs := map (fun i => TEXTURE_INFO.Build (Z.of_nat i) "t") (seq 1 16);
     m_loadedTextures := 16;
     m_objectMaterials := [];
     gl_supply := counting_supply;
     gl_names := map Z.of_nat (seq 1 16);
     gl_calls := [];
     files := sample_files;
     cout := [] |}.

(** One texture registered under the largest [GLuint]. *)
Definition max_handle_world : World :=
  {| m_pShaderManager := Some [];
     m_textureIDs := TEXTURE_INFO.Build 4294967295 "a" :: repeat blank_slot 15;
     m_loadedTextures := 1;
     m_objectMaterials := [];
     gl_supply := counting_supply;
     gl_names := [4294967295];
     gl_calls := [];
     files := sample_files;
     cout := [] |}.

(** The first material of [DefineObjectMaterials], lines 387-393. *)
Definition metalMaterial : OBJECT_MATERIAL.t :=
  {| OBJECT_MATERIAL.ambientColor := Glm.Vec3 (2 / 10)%R (2 / 10)%R (2 / 10)%R;
     OBJECT_MATERIAL.ambientStrength := (3 / 10)%R;
     OBJECT_MATERIAL.diffuseColor := Glm.Vec3 (2 / 10)%R (2 / 10)%R (2 / 10)%R;
     OBJECT_MATERIAL.specularColor := Glm.Vec3 (5 / 10)%R (5 / 10)%R (5 / 10)%R;
     OBJECT_MATERIAL.shininess := 10%R;
     OBJECT_MATERIAL.tag := "metalMaterial" |}.

(** Some contents for a material record before a lookup fills it. *)
Definition stale_material : OBJECT_MATERIAL.t :=
  {| OBJECT_MATERIAL.ambientColor := Glm.Vec3 7%R 7%R 7%R;
     OBJECT_MATERIAL.ambientStrength := 7%R;
     OBJECT_MATERIAL.diffuseColor := Glm.Vec3 7%R 7%R 7%R;
     OBJECT_MATERIAL.specularColor := Glm.Vec3 7%R 7%R 7%R;
     OBJECT_MATERIAL.shininess := 7%R;
     OBJECT_MATERIAL.tag := "" |}.

(** A catalog of one material. *)
Definition metal_world : World :=
  {| m_pShaderManager := Some [];
     m_textureIDs := repeat blank_slot 16;
     m_loadedTextures := 0;
     m_objectMaterials := [metalMaterial];
     gl_supply := counting_supply;
     gl_names := [];
     gl_calls := [];
     files := sample_files;
     cout := [] |}.

(** The same catalog, the shader sink unbound. *)
Definition unbound_world : World := set_pShaderManager None metal_world.


(** ** The scene set-up methods *)

Definition set_objectMaterials (l : list OBJECT_MATERIAL.t) (w : World) : World :=
  MkWorld (m_pShaderManager w) (m_textureIDs w) (m_loadedTextures w) l
          (gl_supply w) (gl_names w) (gl_calls w) (files w) (cout w).

(** [m_objectMaterials.push_back(m)] *)
Definition push_back (m : OBJECT_MATERIAL.t) : M unit :=
  modify (fun w => set_objectMaterials (m_objectMaterials w ++ [m]) w).

(** The other eight materials of [DefineObjectMaterials], lines 399-490. *)
Definition woodMaterial : OBJECT_MATERIAL.t :=
  {| OBJECT_MATERIAL.ambientColor := Glm.Vec3 (1 / 10)%R (1 / 10)%R (1 / 10)%R;
     OBJECT_MATERIAL.ambientStrength := (2 / 10)%R;
     OBJECT_MATERIAL.diffuseColor := Glm.Vec3 (2 / 10)%R (2 / 10)%R (2 / 10)%R;
     OBJECT_MATERIAL.specularColor := Glm.Vec3 (1 / 10)%R (1 / 10)%R (1 / 10)%R;
     OBJECT_MATERIAL.shininess := (3 / 10)%R;
     OBJECT_MATERIAL.tag := "woodMaterial"%string |}.

Definition plasticMaterial : OBJECT_MATERIAL.t :=
  {| OBJECT_MATERIAL.ambientColor := Glm.Vec3 0%R 0%R (3 / 10)%R;
     OBJECT_MATERIAL.ambientStrength := (4 / 10)%R;
     OBJECT_MATERIAL.diffuseColor := Glm.Vec3 0%R 0%R (8 / 10)%R;
     OBJECT_MATERIAL.specularColor := Glm.Vec3 (5 / 10)%R (5 / 10)%R (5 / 10)%R;
     OBJECT_MATERIAL.shininess := 6%R;
     OBJECT_MATERIAL.tag := "plasticMaterial"%string |}.

Definition cardMaterial : OBJECT_MATERIAL.t :=
  {| OBJECT_MATERIAL.ambientColor := Glm.Vec3 (2 / 10)%R (2 / 10)%R (2 / 10)%R;
     OBJECT_MATERIAL.ambientStrength := (4 / 10)%R;
     OBJECT_MATERIAL.diffuseColor := Glm.Vec3 (3 / 10)%R (3 / 10)%R (3 / 10)%R;
     OBJECT_MATERIAL.specularColor := Glm.Vec3 (1 / 10)%R (1 / 10)%R (1 / 10)%R;
     OBJECT_MATERIAL.shininess := (1 / 10)%R;
     OBJECT_MATERIAL.tag := "cardMaterial"%string |}.

Definition fabricMaterial : OBJECT_MATERIAL.t :=
  {| OBJECT_MATERIAL.ambientColor := Glm.Vec3 (2 / 10)%R (2 / 10)%R (2 / 10)%R;
     OBJECT_MATERIAL.ambientStrength := (3 / 10)%R;
     OBJECT_MATERIAL.diffuseColor := Glm.Vec3 (3 / 10)%R (3 / 10)%R (2 / 10)%R;
     OBJECT_MATERIAL.specularColor := Glm.Vec3 (1 / 10)%R (1 / 10)%R (1 / 10)%R;
     OBJECT_MATERIAL.shininess := 0%R;
     OBJECT_MATERIAL.tag := "fabricMaterial"%string |}.

Definition glossyPencilMaterial : OBJECT_MATERIAL.t :=
  {| OBJECT_MATERIAL.ambientColor := Glm.Vec3 (3 / 10)%R (2 / 10)%R 0%R;
     OBJECT_MATERIAL.ambientStrength := (5 / 10)%R;
     OBJECT_MATERIAL.diffuseColor := Glm.Vec3 (2 / 10)%R (2 / 10)%R (1 / 10)%R;
     OBJECT_MATERIAL.specularColor := Glm.Vec3 (3 / 10)%R (3 / 10)%R (3 / 10)%R;
     OBJECT_MATERIAL.shininess := 2%R;
     OBJECT_MATERIAL.tag := "glossyPencilMaterial"%string |}.

Definition pencilLeadMaterial : OBJECT_MATERIAL.t :=
  {| OBJECT_MATERIAL.ambientColor := Glm.Vec3 (1 / 10)%R (1 / 10)%R (1 / 10)%R;
     OBJECT_MATERIAL.ambientStrength := (2 / 10)%R;
     OBJECT_MATERIAL.diffuseColor := Glm.Vec3 (2 / 10)%R (2 / 10)%R (2 / 10)%R;
     OBJECT_MATERIAL.specularColor := Glm.Vec3 0%R 0%R 0%R;
     OBJECT_MATERIAL.shininess := 0%R;
     OBJECT_MATERIAL.tag := "pencilLeadMaterial"%string |}.

Definition pinkEraserMaterial : OBJECT_MATERIAL.t :=
  {| OBJECT_MATERIAL.ambientColor := Glm.Vec3 (5 / 10)%R (2 / 10)%R (3 / 10)%R;
     OBJECT_MATERIAL.ambientStrength := (3 / 10)%R;
     OBJECT_MATERIAL.diffuseColor := Glm.Vec3 (3 / 10)%R (15 / 100)%R (1 / 10)%R;
     OBJECT_MATERIAL.specularColor := Glm.Vec3 (2 / 10)%R (2 / 10)%R (2 / 10)%R;
     OBJECT_MATERIAL.shininess := 2%R;
     OBJECT_MATERIAL.tag := "pinkEraserMaterial"%string |}.

Definition marbleMaterial : OBJECT_MATERIAL.t :=
  {| OBJECT_MATERIAL.ambientColor := Glm.Vec3 (1 / 10)%R (3 / 10)%R (1 / 10)%R;
     OBJECT_MATERIAL.ambientStrength := (4 / 10)%R;
     OBJECT_MATERIAL.diffuseColor := Glm.Vec3 (1 / 10)%R (3 / 10)%R (1 / 10)%R;
     OBJECT_MATERIAL.specularColor := Glm.Vec3 (5 / 10)%R (5 / 10)%R (5 / 10)%R;
     OBJECT_MATERIAL.shininess := 6%R;
     OBJECT_MATERIAL.tag := "marbleMaterial"%string |}.

(** [DefineObjectMaterials], lines 383-494: nine records filled field by
    field and pushed in this order. *)
Definition DefineObjectMaterials : M unit :=
  push_back metalMaterial ;;
  push_back woodMaterial ;;
  push_back plasticMaterial ;;
  push_back cardMaterial ;;
  push_back fabricMaterial ;;
  push_back glossyPencilMaterial ;;
  push_back pencilLeadMaterial ;;
  push_back pinkEraserMaterial ;;
  push_back marbleMaterial.

(** The nine materials in the order of the pushes. *)
Definition defined_materials : list OBJECT_MATERIAL.t :=
  [metalMaterial; woodMaterial; plasticMaterial; cardMaterial; fabricMaterial;
   glossyPencilMaterial; pencilLeadMaterial; pinkEraserMaterial; marbleMaterial].

(** [LoadSceneTextures], lines 537-572: ten loads, their results assigned to
    [bReturn] and not read, then the binding of the units. *)
Definition LoadSceneTextures : M unit :=
  CreateGLTexture "Textures/Eevee_playmat_texture.png" "playmat" ;;
  CreateGLTexture "Textures/Wood_texture.jpg" "wood" ;;
  CreateGLTexture "Textures/Pencil_cylinder_texture.png" "pencilCylinder" ;;
  CreateGLTexture "Textures/Metal_grate_texture.jpg" "metal" ;;
  CreateGLTexture "Textures/Plains_texture.png" "plains" ;;
  CreateGLTexture "Textures/Plastic_texture.jpg" "plastic" ;;
  CreateGLTexture "Textures/Lead_texture.jpg" "lead" ;;
  CreateGLTexture "Textures/Layered_cards_texture.png" "deck" ;;
  CreateGLTexture "Textures/Rubber_texture.jpg" "rubber" ;;
  CreateGLTexture "Textures/Marble_texture.jpg" "marble" ;;
  BindGLTextures.

(** The files and tags of [LoadSceneTextures], in the order of the loads. *)
Definition scene_textures : list (string * string) :=
  [("Textures/Eevee_playmat_texture.png", "playmat");
   ("Textures/Wood_texture.jpg", "wood");
   ("Textures/Pencil_cylinder_texture.png", "pencilCylinder");
   ("Textures/Metal_grate_texture.jpg", "metal");
   ("Textures/Plains_texture.png", "plains");
   ("Textures/Plastic_texture.jpg", "plastic");
   ("Textures/Lead_texture.jpg", "lead");
   ("Textures/Layered_cards_texture.png", "deck");
   ("Textures/Rubber_texture.jpg", "rubber");
   ("Textures/Marble_texture.jpg", "marble")]%string.

(** ** Words for the statements about the registry and the sink *)

(** The tags of the registered entries, in slot order. *)
Definition registered_tags (w : World) : list string :=
  map TEXTURE_INFO.tag (take (Z.to_nat (m_loadedTextures w)) (m_textureIDs w)).

(** The position of the first occurrence of [tag] in [l], counted from [i];
    [-1] when there is none. *)
Fixpoint index_of (tag : string) (l : list string) (i : Z) : Z :=
  match l with
  | [] => -1
  | t :: l' => if String.eqb t tag then i else index_of tag l' (i + 1)
  end.

(** The five uniform writes that carry a material, in the order of lines
    360-364. *)
Definition material_uniforms (m : OBJECT_MATERIAL.t) : list UniformWrite :=
  [setVec3Value "material.ambientColor" (OBJECT_MATERIAL.ambientColor m);
   setFloatValue "material.ambientStrength" (OBJECT_MATERIAL.ambientStrength m);
   setVec3Value "material.diffuseColor" (OBJECT_MATERIAL.diffuseColor m);
   setVec3Value "material.specularColor" (OBJECT_MATERIAL.specularColor m);
   setFloatValue "material.shininess" (OBJECT_MATERIAL.shininess m)].

(** The calls of [BindGLTextures] for the entries [l], the first of them on
    unit [i]. *)
Fixpoint unit_bindings (l : list TEXTURE_INFO.t) (i : Z) : list GLcall :=
  match l with
  | [] => []
  | e :: l' =>
      ActiveTexture (GL_TEXTURE0_plus i)
      :: BindTexture GL_TEXTURE_2D (TEXTURE_INFO.ID e)
      :: unit_bindings l' (i + 1)
  end.

(** The first entry of a catalog that bears [tag]. *)
Fixpoint first_material (tag : string) (l : list OBJECT_MATERIAL.t)
    : option OBJECT_MATERIAL.t :=
  match l with
  | [] => None
  | e :: l' =>
      if String.eqb (OBJECT_MATERIAL.tag e) tag then Some e else first_material tag l'
  end.

(** The square of the distance between two points. *)
Definition dist2 (p q : Glm.vec3) : R :=
  ((Glm.x3 p - Glm.x3 q) * (Glm.x3 p - Glm.x3 q)
   + (Glm.y3 p - Glm.y3 q) * (Glm.y3 p - Glm.y3 q)
   + (Glm.z3 p - Glm.z3 q) * (Glm.z3 p - Glm.z3 q))%R.

(** The loads of the list [l], one after the other, and then [k]: the shape
    of [LoadSceneTextures]. *)
Fixpoint load_then {A} (l : list (string * string)) (k : M A) : M A :=
  match l with
  | [] => k
  | (filename, tag) :: l' => CreateGLTexture filename tag ;; load_then l' k
  end.

(** Every file of the list decodes to an image of 3 or 4 channels. *)
Definition files_decode (w : World) (l : list (string * string)) : Prop :=
  forall f t, (f, t) ∈ l -> exists img, files w f = Some img /\ supported_channels img.

(** Every file of [LoadSceneTextures] decodes to an image of 3 or 4
    channels. *)
Definition scene_files_decode (w : World) : Prop := files_decode w scene_textures.

(** A file system on which every name decodes to the 3-channel sample. *)
Definition all_rgb_files (filename : string) : option stbi_image := Some rgb_image.

(** A scene manager with nothing loaded, every texture file readable. *)
Definition scene_world : World :=
  {| m_pShaderManager := Some [];
     m_textureIDs := repeat blank_slot 16;
     m_loadedTextures := 0;
     m_objectMaterials := [];
     gl_supply := counting_supply;
     gl_names := [];
     gl_calls := [];
     files := all_rgb_files;
     cout := [] |}.

(** Seven textures registered, every texture file readable. *)
Definition seven_world : World :=
  {| m_pShaderManager := Some [];
     m_textureIDs := map (fun i => TEXTURE_INFO.Build (Z.of_nat i) "t") (seq 1 7)
                     ++ repeat blank_slot 9;
     m_loadedTextures := 7;
     m_objectMaterials := [];
     gl_supply := counting_supply;
     gl_names := map Z.of_nat (seq 1 7);
     gl_calls := [];
     files := all_rgb_files;
     cout := [] |}.

(** Two textures registered under the same tag. *)
Definition shadowed_world : World :=
  {| m_pShaderManager := Some [];
     m_textureIDs := TEXTURE_INFO.Build 1 "a" :: TEXTURE_INFO.Build 2 "b"
                     :: TEXTURE_INFO.Build 3 "a" :: repeat blank_slot 13;
     m_loadedTextures := 3;
     m_objectMaterials := [metalMaterial; woodMaterial];
     gl_supply := counting_supply;
     gl_names := [1; 2; 3];
     gl_calls := [];
     files := sample_files;
     cout := [] |}.

(** ** The mesh library and the render methods *)

(** The six meshes of [ShapeMeshes] that the scene draws. *)
Inductive MeshKind :=
| PlaneMesh | CylinderMesh | TaperedCylinderMesh | ConeMesh | BoxMesh | Pyramid3Mesh.

(** A draw call as [m_basicMeshes] receives it: the mesh, and the uniform
    writes that the sink holds at that moment ([None] without a sink). *)
Record DrawCall := MkDraw { mesh : MeshKind; uniforms_at_draw : option ShaderManager }.

(** The object behind [m_basicMeshes]: the draw calls it has received. *)
Definition ShapeMeshes := list DrawCall.

(** [m_basicMeshes->Draw...Mesh()] *)
Definition DrawMesh (k : MeshKind) (meshes : ShapeMeshes) : M ShapeMeshes :=
  w <- get ;; ret (meshes ++ [MkDraw k (m_pShaderManager w)]).

(** [RenderPencil], lines 625-827: the play mat and the five parts of the
    pencil.  The assignments to the locals are folded into the calls that
    read them; [junk k] gives the first contents of the uninitialised local
    of the [k]-th call of [SetShaderMaterial]. *)
Definition RenderPencil (junk : nat -> OBJECT_MATERIAL.t) (meshes : ShapeMeshes) : M ShapeMeshes :=
  SetTransformations (Glm.Vec3 15%R 1%R 8%R) 0%R 0%R 0%R (Glm.Vec3 0%R 0%R 0%R) ;;
  SetShaderTexture "playmat" ;;
  SetTextureUVScale 1%R 1%R ;;
  SetShaderMaterial "fabricMaterial" (junk 0%nat) ;;
  meshes <- DrawMesh PlaneMesh meshes ;;
  SetTransformations (Glm.Vec3 (15 / 100)%R 7%R (15 / 100)%R) 90%R 0%R 70%R (Glm.Vec3 12%R (15 / 100)%R 4%R) ;;
  SetShaderTexture "pencilCylinder" ;;
  SetTextureUVScale 1%R 1%R ;;
  SetShaderMaterial "glossyPencilMaterial" (junk 1%nat) ;;
  meshes <- DrawMesh CylinderMesh meshes ;;
  SetTransformations (Glm.Vec3 (155 / 1000)%R (35 / 100)%R (155 / 1000)%R) 90%R 0%R 70%R (Glm.Vec3 (56 / 10)%R (15 / 100)%R (633 / 100)%R) ;;
  SetShaderTexture "metal" ;;
  SetTextureUVScale (7 / 10)%R (7 / 10)%R ;;
  SetShaderMaterial "metalMaterial" (junk 2%nat) ;;
  meshes <- DrawMesh CylinderMesh meshes ;;
  SetTransformations (Glm.Vec3 (15 / 100)%R (5 / 10)%R (15 / 100)%R) 90%R 0%R 70%R (Glm.Vec3 (56 / 10)%R (15 / 100)%R (633 / 100)%R) ;;
  SetShaderTexture "rubber" ;;
  SetShaderMaterial "pinkEraserMaterial" (junk 3%nat) ;;
  meshes <- DrawMesh CylinderMesh meshes ;;
  SetTransformations (Glm.Vec3 (15 / 100)%R (42 / 100)%R (15 / 100)%R) 90%R 0%R (- 110)%R (Glm.Vec3 12%R (15 / 100)%R 4%R) ;;
  SetShaderTexture "wood" ;;
  SetTextureUVScale 1%R 1%R ;;
  SetShaderMaterial "woodMaterial" (junk 4%nat) ;;
  meshes <- DrawMesh TaperedCylinderMesh meshes ;;
  SetTransformations (Glm.Vec3 (145 / 1000)%R (75 / 100)%R (145 / 1000)%R) 90%R 0%R (- 110)%R (Glm.Vec3 12%R (15 / 100)%R 4%R) ;;
  SetShaderTexture "lead" ;;
  SetShaderMaterial "pencilLeadMaterial" (junk 5%nat) ;;
  DrawMesh ConeMesh meshes.

(** [RenderCards], lines 836-1072: the deck, its top and the five cards. *)
Definition RenderCards (junk : nat -> OBJECT_MATERIAL.t) (meshes : ShapeMeshes) : M ShapeMeshes :=
  SetTransformations (Glm.Vec3 (35 / 10)%R 2%R (49 / 10)%R) 0%R 5%R 0%R (Glm.Vec3 (- 10)%R 1%R (27 / 10)%R) ;;
  SetShaderTexture "deck" ;;
  SetTextureUVScale 1%R 1%R ;;
  SetShaderMaterial "plasticMaterial" (junk 0%nat) ;;
  meshes <- DrawMesh BoxMesh meshes ;;
  SetTransformations (Glm.Vec3 (35 / 10)%R (2 / 100)%R (49 / 10)%R) 0%R 5%R 0%R (Glm.Vec3 (- 10)%R (201 / 100)%R (27 / 10)%R) ;;
  SetShaderTexture "plastic" ;;
  SetTextureUVScale 1%R 1%R ;;
  SetShaderMaterial "plasticMaterial" (junk 1%nat) ;;
  meshes <- DrawMesh BoxMesh meshes ;;
  SetTransformations (Glm.Vec3 (175 / 100)%R 0%R (245 / 100)%R) 0%R 20%R 0%R (Glm.Vec3 (- (15 / 10))%R (5 / 100)%R 3%R) ;;
  SetShaderTexture "plains" ;;
  SetTextureUVScale 1%R 1%R ;;
  SetShaderMaterial "cardMaterial" (junk 2%nat) ;;
  meshes <- DrawMesh PlaneMesh meshes ;;
  SetTransformations (Glm.Vec3 (175 / 100)%R 0%R (245 / 100)%R) 0%R (- 10)%R 0%R (Glm.Vec3 (- (25 / 100))%R (2 / 100)%R 3%R) ;;
  SetShaderTexture "plastic" ;;
  SetTextureUVScale 1%R 1%R ;;
  SetShaderMaterial "plasticMaterial" (junk 3%nat) ;;
  meshes <- DrawMesh PlaneMesh meshes ;;
  SetTransformations (Glm.Vec3 (175 / 100)%R 0%R (245 / 100)%R) 0%R (- 20)%R 0%R (Glm.Vec3 (3 / 10)%R (1 / 100)%R (325 / 100)%R) ;;
  SetShaderTexture "plastic" ;;
  SetTextureUVScale 1%R 1%R ;;
  SetShaderMaterial "plasticMaterial" (junk 4%nat) ;;
  meshes <- DrawMesh PlaneMesh meshes ;;
  SetTransformations (Glm.Vec3 (175 / 100)%R 0%R (245 / 100)%R) 0%R (- 22)%R 0%R (Glm.Vec3 (3 / 10)%R (5 / 1000)%R (33 / 10)%R) ;;
  SetShaderTexture "plastic" ;;
  SetTextureUVScale 1%R 1%R ;;
  SetShaderMaterial "plasticMaterial" (junk 5%nat) ;;
  meshes <- DrawMesh PlaneMesh meshes ;;
  SetTransformations (Glm.Vec3 (175 / 100)%R 0%R (245 / 100)%R) 0%R (- 22)%R 0%R (Glm.Vec3 (3 / 10)%R (5 / 1000)%R (33 / 10)%R) ;;
  SetShaderTexture "plastic" ;;
  SetTextureUVScale 1%R 1%R ;;
  SetShaderMaterial "plasticMaterial" (junk 6%nat) ;;
  DrawMesh PlaneMesh meshes.

(** [RenderDice], lines 1081-1156: the two dice. *)
Definition RenderDice (junk : nat -> OBJECT_MATERIAL.t) (meshes : ShapeMeshes) : M ShapeMeshes :=
  SetTransformations (Glm.Vec3 (8 / 10)%R (8 / 10)%R (8 / 10)%R) 0%R (- 30)%R 0%R (Glm.Vec3 (- (31 / 10))%R (4 / 10)%R (- (64 / 100))%R) ;;
  SetShaderTexture "marble" ;;
  SetTextureUVScale (11 / 10)%R (11 / 10)%R ;;
  SetShaderMaterial "marbleMaterial" (junk 0%nat) ;;
  meshes <- DrawMesh Pyramid3Mesh meshes ;;
  SetTransformations (Glm.Vec3 (8 / 10)%R (8 / 10)%R (8 / 10)%R) 0%R (- 45)%R 0%R (Glm.Vec3 (- (14 / 10))%R (4 / 10)%R (- (15 / 10))%R) ;;
  SetShaderTexture "marble" ;;
  SetTextureUVScale 1%R 1%R ;;
  SetShaderMaterial "marbleMaterial" (junk 1%nat) ;;
  DrawMesh BoxMesh meshes.

(** [RenderScene], lines 612-617; [junk i] is the [junk] of its [i]-th
    method. *)
Definition RenderScene (junk : nat -> nat -> OBJECT_MATERIAL.t) (meshes : ShapeMeshes)
    : M ShapeMeshes :=
  meshes <- RenderPencil (junk 0%nat) meshes ;;
  meshes <- RenderCards (junk 1%nat) meshes ;;
  RenderDice (junk 2%nat) meshes.

(** ** Words for the statements about rendering *)

(** What [SetShaderMaterial] writes to a sink: nothing on an empty catalog,
    else the five uniforms of the first entry that bears the tag, or of the
    local record as it was when no entry does. *)
Definition shader_material_writes (tag : string) (junk : OBJECT_MATERIAL.t)
    (catalog : list OBJECT_MATERIAL.t) : list UniformWrite :=
  match catalog with
  | [] => []
  | _ :: _ =>
      material_uniforms (match first_material tag catalog with
                         | Some e => copy_material e junk
                         | None => junk
                         end)
  end.

(** What the calls before a draw write to a sink, in the state [w]: the
    model matrix, the texture flag and the slot of the tag, the UV scale
    when the object sets one, and the material. *)
Definition object_writes (w : World) (s : Glm.vec3) (rx ry rz : R) (p : Glm.vec3)
    (tex : string) (uv : option Glm.vec2) (mat : string) (junk : OBJECT_MATERIAL.t)
    : list UniformWrite :=
  [setMat4Value "model" (modelView s rx ry rz p);
   setIntValue "bUseTexture" 1;
   setSampler2DValue "objectTexture" (index_of tex (registered_tags w) 0)]
  ++ match uv with Some v => [setVec2Value "UVscale" v] | None => [] end
  ++ shader_material_writes mat junk (m_objectMaterials w).

(** ** The scene as a table of placements *)

(** What the render methods set before one draw: the arguments of
    [SetTransformations], the tag of [SetShaderTexture], the arguments of
    [SetTextureUVScale] when it is called, the tag of [SetShaderMaterial],
    and the mesh drawn. *)
Record Placement := MkPlacement {
  p_scale : Glm.vec3;
  p_rotX : R;
  p_rotY : R;
  p_rotZ : R;
  p_position : Glm.vec3;
  p_texture : string;
  p_uv : option Glm.vec2;
  p_material : string;
  p_mesh : MeshKind
}.

(** The objects of [RenderPencil], in the order of its draws. *)
Definition pencil_placements : list Placement :=
  [
   MkPlacement (Glm.Vec3 15%R 1%R 8%R) 0%R 0%R 0%R
     (Glm.Vec3 0%R 0%R 0%R)
     "playmat" (Some (Glm.Vec2 1%R 1%R)) "fabricMaterial" PlaneMesh;
   MkPlacement (Glm.Vec3 (15 / 100)%R 7%R (15 / 100)%R) 90%R 0%R 70%R
     (Glm.Vec3 12%R (15 / 100)%R 4%R)
     "pencilCylinder" (Some (Glm.Vec2 1%R 1%R)) "glossyPencilMaterial" CylinderMesh;
   MkPlacement (Glm.Vec3 (155 / 1000)%R (35 / 100)%R (155 / 1000)%R) 90%R 0%R 70%R
     (Glm.Vec3 (56 / 10)%R (15 / 100)%R (633 / 100)%R)
     "metal" (Some (Glm.Vec2 (7 / 10)%R (7 / 10)%R)) "metalMaterial" CylinderMesh;
   MkPlacement (Glm.Vec3 (15 / 100)%R (5 / 10)%R (15 / 100)%R) 90%R 0%R 70%R
     (Glm.Vec3 (56 / 10)%R (15 / 100)%R (633 / 100)%R)
     "rubber" None "pinkEraserMaterial" CylinderMesh;
   MkPlacement (Glm.Vec3 (15 / 100)%R (42 / 100)%R (15 / 100)%R) 90%R 0%R (- 110)%R
     (Glm.Vec3 12%R (15 / 100)%R 4%R)
     "wood" (Some (Glm.Vec2 1%R 1%R)) "woodMaterial" TaperedCylinderMesh;
   MkPlacement (Glm.Vec3 (145 / 1000)%R (75 / 100)%R (145 / 1000)%R) 90%R 0%R (- 110)%R
     (Glm.Vec3 12%R (15 / 100)%R 4%R)
     "lead" None "pencilLeadMaterial" ConeMesh
  ].

(** The objects of [RenderCards], in the order of its draws. *)
Definition cards_placements : list Placement :=
  [
   MkPlacement (Glm.Vec3 (35 / 10)%R 2%R (49 / 10)%R) 0%R 5%R 0%R
     (Glm.Vec3 (- 10)%R 1%R (27 / 10)%R)
     "deck" (Some (Glm.Vec2 1%R 1%R)) "plasticMaterial" BoxMesh;
   MkPlacement (Glm.Vec3 (35 / 10)%R (2 / 100)%R (49 / 10)%R) 0%R 5%R 0%R
     (Glm.Vec3 (- 10)%R (201 / 100)%R (27 / 10)%R)
     "plastic" (Some (Glm.Vec2 1%R 1%R)) "plasticMaterial" BoxMesh;
   MkPlacement (Glm.Vec3 (175 / 100)%R 0%R (245 / 100)%R) 0%R 20%R 0%R
     (Glm.Vec3 (- (15 / 10))%R (5 / 100)%R 3%R)
     "plains" (Some (Glm.Vec2 1%R 1%R)) "cardMaterial" PlaneMesh;
   MkPlacement (Glm.Vec3 (175 / 100)%R 0%R (245 / 100)%R) 0%R (- 10)%R 0%R
     (Glm.Vec3 (- (25 / 100))%R (2 / 100)%R 3%R)
     "plastic" (Some (Glm.Vec2 1%R 1%R)) "plasticMaterial" PlaneMesh;
   MkPlacement (Glm.Vec3 (175 / 100)%R 0%R (245 / 100)%R) 0%R (- 20)%R 0%R
     (Glm.Vec3 (3 / 10)%R (1 / 100)%R (325 / 100)%R)
     "plastic" (Some (Glm.Vec2 1%R 1%R)) "plasticMaterial" PlaneMesh;
   MkPlacement (Glm.Vec3 (175 / 100)%R 0%R (245 / 100)%R) 0%R (- 22)%R 0%R
     (Glm.Vec3 (3 / 10)%R (5 / 1000)%R (33 / 10)%R)
     "plastic" (Some (Glm.Vec2 1%R 1%R)) "plasticMaterial" PlaneMesh;
   MkPlacement (Glm.Vec3 (175 / 100)%R 0%R (245 / 100)%R) 0%R (- 22)%R 0%R
     (Glm.Vec3 (3 / 10)%R (5 / 1000)%R (33 / 10)%R)
     "plastic" (Some (Glm.Vec2 1%R 1%R)) "plasticMaterial" PlaneMesh
  ].

(** The objects of [RenderDice], in the order of its draws. *)
Definition dice_placements : list Placement :=
  [
   MkPlacement (Glm.Vec3 (8 / 10)%R (8 / 10)%R (8 / 10)%R) 0%R (- 30)%R 0%R
     (Glm.Vec3 (- (31 / 10))%R (4 / 10)%R (- (64 / 100))%R)
     "marble" (Some (Glm.Vec2 (11 / 10)%R (11 / 10)%R)) "marbleMaterial" Pyramid3Mesh;
   MkPlacement (Glm.Vec3 (8 / 10)%R (8 / 10)%R (8 / 10)%R) 0%R (- 45)%R 0%R
     (Glm.Vec3 (- (14 / 10))%R (4 / 10)%R (- (15 / 10))%R)
     "marble" (Some (Glm.Vec2 1%R 1%R)) "marbleMaterial" BoxMesh
  ].

(** The uniform writes of one placement in the state [w]. *)
Definition placement_writes (w : World) (junk : OBJECT_MATERIAL.t) (pl : Placement)
    : list UniformWrite :=
  object_writes w (p_scale pl) (p_rotX pl) (p_rotY pl) (p_rotZ pl) (p_position pl)
    (p_texture pl) (p_uv pl) (p_material pl) junk.

(** The placements rendered in turn on a sink that holds [sm]: the writes
    the sink holds at the end, and the draw calls made, each with the writes
    it is rendered with.  The [k]-th placement uses [junk k]. *)
Fixpoint placements_trace (w : World) (sm : ShaderManager) (junk : nat -> OBJECT_MATERIAL.t)
    (k : nat) (pls : list Placement) : ShaderManager * list DrawCall :=
  match pls with
  | [] => (sm, [])
  | pl :: rest =>
      let sm' := sm ++ placement_writes w (junk k) pl in
      let r := placements_trace w sm' junk (S k) rest in
      (fst r, MkDraw (p_mesh pl) (Some sm') :: snd r)
  end.

(** The three tables rendered in turn, as [RenderScene] calls its methods. *)
Definition scene_trace (w : World) (sm : ShaderManager) (junk : nat -> nat -> OBJECT_MATERIAL.t)
    : ShaderManager * list DrawCall :=
  let r1 := placements_trace w sm (junk 0%nat) 0 pencil_placements in
  let r2 := placements_trace w (fst r1) (junk 1%nat) 0 cards_placements in
  let r3 := placements_trace w (fst r2) (junk 2%nat) 0 dice_placements in
  (fst r3, snd r1 ++ snd r2 ++ snd r3).

(** The fifteen placements of the scene. *)
Definition scene_placements : list Placement :=
  pencil_placements ++ cards_placements ++ dice_placements.

(** The values written to a sampler, oldest first. *)
Fixpoint sampler_writes (sm : list UniformWrite) : list Z :=
  match sm with
  | [] => []
  | setSampler2DValue _ v :: sm' => v :: sampler_writes sm'
  | _ :: sm' => sampler_writes sm'
  end.

(** The value of the uniform "UVscale" after the writes [sm]: that of the
    last write to it, if any. *)
Fixpoint UVscale_of (sm : list UniformWrite) (current : option Glm.vec2) : option Glm.vec2 :=
  match sm with
  | [] => current
  | setVec2Value name v :: sm' =>
      UVscale_of sm' (if String.eqb name "UVscale" then Some v else current)
  | _ :: sm' => UVscale_of sm' current
  end.

(** The "UVscale" that a draw call is rendered with. *)
Definition UVscale_at (d : DrawCall) : option Glm.vec2 :=
  match uniforms_at_draw d with
  | Some sm => UVscale_of sm None
  | None => None
  end.

(** The registry after a complete [LoadSceneTextures] and the catalog after
    [DefineObjectMaterials], both from empty. *)
Definition scene_prepared (w : World) : Prop :=
  registry_ok w /\
  registered_tags w = map snd scene_textures /\
  m_objectMaterials w = defined_materials.

(** A prepared scene: ten textures with the handles 1 to 10, nine
    materials. *)
Definition prepared_world : World :=
  {| m_pShaderManager := Some [];
     m_textureIDs :=
       imap (fun i ft => TEXTURE_INFO.Build (Z.of_nat (S i)) (snd ft)) scene_textures
       ++ repeat blank_slot 6;
     m_loadedTextures := 10;
     m_objectMaterials := defined_materials;
     gl_supply := counting_supply;
     gl_names := map Z.of_nat (seq 1 10);
     gl_calls := [];
     files := all_rgb_files;
     cout := [] |}.

(** ** Loads that register and loads that do not *)

(** The load of [filename] registers an entry in the state [w]: the file
    decodes and the image has 3 or 4 channels. *)
Definition loadable (w : World) (filename : string) : bool :=
  match files w filename with
  | Some img => (colorChannels img =? 3) || (colorChannels img =? 4)
  | None => false
  end.

(** A file system on which the wood texture is missing. *)
Definition no_wood_files (filename : string) : option stbi_image :=
  if String.eqb filename "Textures/Wood_texture.jpg" then None else Some rgb_image.

(** A scene manager with nothing loaded and the wood texture missing. *)
Definition no_wood_world : World :=
  {| m_pShaderManager := Some [];
     m_textureIDs := repeat blank_slot 16;
     m_loadedTextures := 0;
     m_objectMaterials := [];
     gl_supply := counting_supply;
     gl_names := [];
     gl_calls := [];
     files := no_wood_files;
     cout := [] |}.

(** ** The lights *)

(** [SetupSceneLights], lines 503-527.  No test of [m_pShaderManager]
    guards the thirteen writes.  [setBoolValue] is the record that the call
    of that name leaves in the sink; the three-float form of
    [setVec3Value] is recorded as the vector of the three. *)
Definition SetupSceneLights (setBoolValue : string -> bool -> UniformWrite) : M unit :=
  sink_write (setBoolValue g_UseLightingName true) ;;
  sink_write (setVec3Value "lightSources[0].position" (Glm.Vec3 (- 30)%R 14%R (- 2)%R)) ;;
  sink_write (setVec3Value "lightSources[0].ambientColor"
                (Glm.Vec3 (3 / 10)%R (3 / 10)%R (4 / 10)%R)) ;;
  sink_write (setVec3Value "lightSources[0].diffuseColor"
                (Glm.Vec3 (6 / 10)%R (5 / 10)%R (4 / 10)%R)) ;;
  sink_write (setVec3Value "lightSources[0].specularColor"
                (Glm.Vec3 (2 / 10)%R (2 / 10)%R (2 / 10)%R)) ;;
  sink_write (setFloatValue "lightSources[0].focalStrength" 32%R) ;;
  sink_write (setFloatValue "lightSources[0].specularIntensity" (4 / 10)%R) ;;
  sink_write (setVec3Value "lightSources[1].position" (Glm.Vec3 3%R 20%R (- 26)%R)) ;;
  sink_write (setVec3Value "lightSources[1].ambientColor"
                (Glm.Vec3 (3 / 10)%R (3 / 10)%R (3 / 10)%R)) ;;
  sink_write (setVec3Value "lightSources[1].diffuseColor"
                (Glm.Vec3 (6 / 10)%R (55 / 100)%R (4 / 10)%R)) ;;
  sink_write (setVec3Value "lightSources[1].specularColor"
                (Glm.Vec3 (6 / 10)%R (6 / 10)%R (6 / 10)%R)) ;;
  sink_write (setFloatValue "lightSources[1].focalStrength" 32%R) ;;
  sink_write (setFloatValue "lightSources[1].specularIntensity" (6 / 10)%R).

(** ** Basic facts: the monad, strings, arrays *)

Lemma bind_Done {A B} (c : M A) (k : A -> M B) w a w' :
  c w = Done (a, w') -> bind c k w = k a w'.
Proof. intros H. unfold bind. now rewrite H. Qed.

Lemma bind_Undefined {A B} (c : M A) (k : A -> M B) w :
  c w = Undefined -> bind c k w = Undefined.
Proof. intros H. unfold bind. now rewrite H. Qed.

Lemma string_compare_refl (s : string) : String.compare s s = Eq.
Proof.
  pose proof (String.compare_antisym s s) as H.
  destruct (String.compare s s); simpl in H; congruence.
Qed.

(** [a.compare(b) == 0] says that the two strings are equal. *)
Lemma std_compare_eq (a b : string) : (std_compare a b =? 0) = true <-> a = b.
Proof.
  unfold std_compare. split.
  - destruct (String.compare a b) eqn:E; simpl; try discriminate.
    intros _. now apply String.compare_eq_iff.
  - intros ->. now rewrite string_compare_refl.
Qed.

Lemma std_compare_neq (a b : string) : (std_compare a b =? 0) = false <-> a <> b.
Proof.
  rewrite <- std_compare_eq. destruct (std_compare a b =? 0); split; congruence.
Qed.

Lemma array_get_Some_range {T} (a : list T) (i : Z) (e : T) :
  array_get a i = Some e -> 0 <= i < Z.of_nat (length a).
Proof.
  unfold array_get. destruct (0 <=? i) eqn:E; [|discriminate].
  intros H. apply lookup_lt_Some in H. lia.
Qed.

Lemma array_get_in_range {T} (a : list T) (i : Z) :
  0 <= i < Z.of_nat (length a) -> exists e, array_get a i = Some e.
Proof.
  intros H. unfold array_get.
  destruct (0 <=? i) eqn:E; [|lia].
  destruct (a !! Z.to_nat i) eqn:L; [eauto|].
  apply lookup_ge_None in L. lia.
Qed.

Lemma array_get_out_of_range {T} (a : list T) (i : Z) :
  Z.of_nat (length a) <= i -> array_get a i = None.
Proof.
  intros H. unfold array_get.
  destruct (0 <=? i); [|reflexivity].
  apply lookup_ge_None. lia.
Qed.

Lemma array_get_insert_eq {T} (a : list T) (i : Z) (x : T) :
  0 <= i < Z.of_nat (length a) -> array_get (<[Z.to_nat i := x]> a) i = Some x.
Proof.
  intros H. unfold array_get.
  destruct (0 <=? i) eqn:E; [|lia].
  apply list_lookup_insert_eq. lia.
Qed.

Lemma array_get_insert_ne {T} (a : list T) (i j : Z) (x : T) :
  0 <= i -> i <> j -> array_get (<[Z.to_nat i := x]> a) j = array_get a j.
Proof.
  intros Hi Hne. unfold array_get.
  destruct (0 <=? j) eqn:E; [|reflexivity].
  apply list_lookup_insert_ne. lia.
Qed.

(** ** The two texture lookups *)

(** Both loops, run over the slots [index .. index + n - 1] of an array that
    has them, end without touching the state: either no slot bears the tag
    and both return [-1], or both stop at the first slot [r] that bears it,
    one with [r], the other with its handle converted to [int]. *)
Lemma find_loops_spec (tag : string) (w : World) (n : nat) :
  forall index : Z,
    0 <= index ->
    index + Z.of_nat n <= Z.of_nat (length (m_textureIDs w)) ->
    exists r id,
      FindTextureSlot_loop n tag index w = Done (r, w) /\
      FindTextureID_loop n tag index w = Done (id, w) /\
      ((r = -1 /\ id = -1 /\
        forall j e, index <= j < index + Z.of_nat n ->
                    array_get (m_textureIDs w) j = Some e -> TEXTURE_INFO.tag e <> tag)
       \/
       (index <= r < index + Z.of_nat n /\
        exists e, array_get (m_textureIDs w) r = Some e /\
                  TEXTURE_INFO.tag e = tag /\
                  id = int_of_GLuint (TEXTURE_INFO.ID e) /\
                  forall j e', index <= j < r ->
                               array_get (m_textureIDs w) j = Some e' ->
                               TEXTURE_INFO.tag e' <> tag)).
Proof.
  induction n as [|n IH]; intros index H0 Hlen.
  - exists (-1), (-1). simpl. repeat split; try reflexivity.
    left. repeat split; try reflexivity. intros j e Hj. lia.
  - destruct (array_get_in_range (m_textureIDs w) index) as [e He]; [lia|].
    assert (Hat : textureIDs_at index w = Done (e, w)).
    { unfold textureIDs_at. now rewrite He. }
    cbn [FindTextureSlot_loop FindTextureID_loop].
    rewrite !(bind_Done _ _ _ _ _ Hat).
    destruct (std_compare (TEXTURE_INFO.tag e) tag =? 0) eqn:C.
    + apply std_compare_eq in C.
      exists index, (int_of_GLuint (TEXTURE_INFO.ID e)).
      repeat split; try reflexivity.
      right. split; [lia|]. exists e. repeat split; auto.
      intros j e' Hj. lia.
    + apply std_compare_neq in C.
      destruct (IH (index + 1)) as (r & id & Hs & Hi & Hcases); [lia|lia|].
      exists r, id. repeat split; auto.
      destruct Hcases as [(-> & -> & Hnone) | (Hr & e1 & He1 & Ht1 & Hid & Hbefore)].
      * left. repeat split; try reflexivity.
        intros j e' Hj Hje.
        destruct (Z.eq_dec j index) as [->|Hne].
        -- congruence.
        -- apply (Hnone j e'); [lia|assumption].
      * right. split; [lia|]. exists e1. repeat split; auto.
        intros j e' Hj Hje.
        destruct (Z.eq_dec j index) as [->|Hne].
        -- congruence.
        -- apply (Hbefore j e'); [lia|assumption].
Qed.

Lemma int_of_GLuint_small (u : GLuint) : 0 <= u < 2 ^ 31 -> int_of_GLuint u = u.
Proof.
  intros H. unfold int_of_GLuint.
  rewrite Z.mod_small; lia.
Qed.

(** [FindTextureSlot] and [FindTextureID] on a well-formed registry. *)
Lemma find_spec (w : World) (tag : string) :
  registry_ok w ->
  exists r id,
    FindTextureSlot tag w = Done (r, w) /\
    FindTextureID tag w = Done (id, w) /\
    ((r = -1 /\ id = -1 /\ unregistered w tag)
     \/
     (exists e, registered w r e /\
                TEXTURE_INFO.tag e = tag /\
                id = int_of_GLuint (TEXTURE_INFO.ID e) /\
                forall j e', 0 <= j < r ->
                             array_get (m_textureIDs w) j = Some e' ->
                             TEXTURE_INFO.tag e' <> tag)).
Proof.
  intros [Hlen Hcount]. unfold MAX_TEXTURES in *.
  destruct (find_loops_spec tag w (Z.to_nat (m_loadedTextures w)) 0)
    as (r & id & Hs & Hi & Hcases); [lia|lia|].
  exists r, id. split; [exact Hs|]. split; [exact Hi|].
  destruct Hcases as [(-> & -> & Hnone) | (Hr & e & He & Ht & Hid & Hbefore)].
  - left. repeat split; try reflexivity.
    intros j e [Hj He]. apply (Hnone j e); [lia|assumption].
  - right. exists e. repeat split; auto; lia.
Qed.

(** ** Running the primitive steps *)

Lemma get_run (w : World) : get w = Done (w, w).
Proof. reflexivity. Qed.

Lemma ret_run {A} (a : A) (w : World) : ret a w = Done (a, w).
Proof. reflexivity. Qed.

Lemma modify_run (f : World -> World) (w : World) : modify f w = Done (tt, f w).
Proof. reflexivity. Qed.

Lemma print_run (l : cout_line) (w : World) :
  print l w = Done (tt, set_cout (cout w ++ [l]) w).
Proof. reflexivity. Qed.

Lemma gl_call_run (c : GLcall) (w : World) :
  gl_call c w = Done (tt, set_gl_calls (gl_calls w ++ [c]) w).
Proof. reflexivity. Qed.

Lemma stbi_load_run (filename : string) (w : World) :
  stbi_load filename w = Done (files w filename, w).
Proof. reflexivity. Qed.

Lemma glGenTextures1_run (w : World) :
  glGenTextures1 w
  = Done (gl_supply w (length (gl_names w)),
          set_gl_calls (gl_calls w ++ [GenTextures 1 (gl_supply w (length (gl_names w)))])
            (set_gl_names (gl_names w ++ [gl_supply w (length (gl_names w))]) w)).
Proof. reflexivity. Qed.

Lemma pShaderManager_not_null_run (w : World) :
  pShaderManager_not_null w
  = Done (match m_pShaderManager w with Some _ => true | None => false end, w).
Proof. reflexivity. Qed.

Lemma textureIDs_at_run (i : Z) (w : World) (e : TEXTURE_INFO.t) :
  array_get (m_textureIDs w) i = Some e -> textureIDs_at i w = Done (e, w).
Proof. intros H. unfold textureIDs_at. now rewrite H. Qed.

Lemma textureIDs_at_outside (i : Z) (w : World) :
  array_get (m_textureIDs w) i = None -> textureIDs_at i w = Undefined.
Proof. intros H. unfold textureIDs_at. now rewrite H. Qed.

Lemma textureIDs_update_run (i : Z) (f : TEXTURE_INFO.t -> TEXTURE_INFO.t)
    (w : World) (e : TEXTURE_INFO.t) :
  array_get (m_textureIDs w) i = Some e ->
  textureIDs_update i f w
  = Done (tt, set_textureIDs (<[Z.to_nat i := f e]> (m_textureIDs w)) w).
Proof.
  intros H. unfold textureIDs_update.
  rewrite (bind_Done _ _ _ _ _ (textureIDs_at_run _ _ _ H)). reflexivity.
Qed.

Lemma textureIDs_update_outside (i : Z) (f : TEXTURE_INFO.t -> TEXTURE_INFO.t) (w : World) :
  array_get (m_textureIDs w) i = None -> textureIDs_update i f w = Undefined.
Proof.
  intros H. unfold textureIDs_update.
  now rewrite (bind_Undefined _ _ _ (textureIDs_at_outside _ _ H)).
Qed.

(** One step of symbolic execution: the first computation of a [bind] is a
    primitive whose run is known. *)
Ltac step :=
  first
    [ rewrite (bind_Done _ _ _ _ _ (get_run _))
    | rewrite (bind_Done _ _ _ _ _ (ret_run _ _))
    | rewrite (bind_Done _ _ _ _ _ (modify_run _ _))
    | rewrite (bind_Done _ _ _ _ _ (print_run _ _))
    | rewrite (bind_Done _ _ _ _ _ (gl_call_run _ _))
    | rewrite (bind_Done _ _ _ _ _ (stbi_load_run _ _))
    | rewrite (bind_Done _ _ _ _ _ (glGenTextures1_run _))
    | rewrite (bind_Done _ _ _ _ _ (pShaderManager_not_null_run _)) ];
  cbv beta.

(** Fields of an updated state. *)
Ltac fields :=
  cbn [m_pShaderManager m_textureIDs m_loadedTextures m_objectMaterials
       gl_supply gl_names gl_calls files cout
       set_pShaderManager set_textureIDs set_loadedTextures set_gl_names
       set_gl_calls set_cout].

Ltac fields_in H :=
  cbn [m_pShaderManager m_textureIDs m_loadedTextures m_objectMaterials
       gl_supply gl_names gl_calls files cout
       set_pShaderManager set_textureIDs set_loadedTextures set_gl_names
       set_gl_calls set_cout] in H.

(** ** Loading textures *)

Lemma CreateGLTexture_decode_failure (w : World) (filename tag : string) :
  files w filename = None ->
  CreateGLTexture filename tag w
  = Done (false, set_cout (cout w ++ [Could_not_load_image filename]) w).
Proof.
  intros H. unfold CreateGLTexture. step. rewrite H. step. reflexivity.
Qed.

Lemma upload_image_supported (img : stbi_image) (w : World) :
  supported_channels img ->
  exists c, upload_image img w = Done (true, set_gl_calls (gl_calls w ++ [c]) w).
Proof.
  intros [H|H]; unfold upload_image; rewrite H; cbn [Z.eqb Pos.eqb];
    step; eexists; reflexivity.
Qed.

Lemma upload_image_unsupported (img : stbi_image) (w : World) :
  colorChannels img <> 3 -> colorChannels img <> 4 ->
  upload_image img w
  = Done (false, set_cout (cout w ++ [Not_implemented_to_handle_image (colorChannels img)]) w).
Proof.
  intros H3 H4. apply Z.eqb_neq in H3, H4.
  unfold upload_image. rewrite H3, H4. step. reflexivity.
Qed.

Lemma register_texture_run (textureID : GLuint) (tag : string) (w : World) (e : TEXTURE_INFO.t) :
  array_get (m_textureIDs w) (m_loadedTextures w) = Some e ->
  register_texture textureID tag w
  = Done (tt, set_loadedTextures (m_loadedTextures w + 1)
                (set_textureIDs (<[Z.to_nat (m_loadedTextures w) :=
                                   TEXTURE_INFO.Build textureID tag]> (m_textureIDs w)) w)).
Proof.
  intros H. pose proof (array_get_Some_range _ _ _ H) as Hr.
  unfold register_texture. step.
  rewrite (bind_Done _ _ _ _ _ (textureIDs_update_run _ _ _ _ H)).
  erewrite bind_Done.
  2:{ apply textureIDs_update_run. fields. apply array_get_insert_eq. exact Hr. }
  fields. rewrite list_insert_insert_eq. reflexivity.
Qed.

Lemma register_texture_outside (textureID : GLuint) (tag : string) (w : World) :
  array_get (m_textureIDs w) (m_loadedTextures w) = None ->
  register_texture textureID tag w = Undefined.
Proof.
  intros H. unfold register_texture. step.
  now rewrite (bind_Undefined _ _ _ (textureIDs_update_outside _ _ _ H)).
Qed.

Lemma CreateGLTexture_unsupported (w : World) (filename tag : string) (img : stbi_image) :
  files w filename = Some img ->
  colorChannels img <> 3 -> colorChannels img <> 4 ->
  exists w',
    CreateGLTexture filename tag w = Done (false, w') /\
    m_textureIDs w' = m_textureIDs w /\
    m_loadedTextures w' = m_loadedTextures w /\
    gl_names w' = gl_names w ++ [gl_supply w (length (gl_names w))].
Proof.
  intros H H3 H4.
  unfold CreateGLTexture. step. rewrite H. do 7 step.
  rewrite (bind_Done _ _ _ _ _ (upload_image_unsupported _ _ H3 H4)). cbv beta iota.
  eexists. split; [reflexivity|]. fields. repeat split.
Qed.

(** A decoded image with 3 or 4 channels: the entry goes to slot
    [m_loadedTextures] when the array has that slot; when it has not, the
    store is outside the array. *)
Lemma CreateGLTexture_supported (w : World) (filename tag : string) (img : stbi_image) :
  files w filename = Some img ->
  supported_channels img ->
  match array_get (m_textureIDs w) (m_loadedTextures w) with
  | Some _ =>
      exists w',
        CreateGLTexture filename tag w = Done (true, w') /\
        m_textureIDs w'
        = <[Z.to_nat (m_loadedTextures w) :=
              TEXTURE_INFO.Build (gl_supply w (length (gl_names w))) tag]> (m_textureIDs w) /\
        m_loadedTextures w' = m_loadedTextures w + 1 /\
        gl_names w' = gl_names w ++ [gl_supply w (length (gl_names w))] /\
        files w' = files w /\
        gl_supply w' = gl_supply w /\
        m_pShaderManager w' = m_pShaderManager w /\
        m_objectMaterials w' = m_objectMaterials w
  | None => CreateGLTexture filename tag w = Undefined
  end.
Proof.
  intros H Hc.
  destruct (array_get (m_textureIDs w) (m_loadedTextures w)) as [e|] eqn:Hget;
    unfold CreateGLTexture; step; rewrite H; do 7 step;
    match goal with
    | |- context [bind (upload_image img) _ ?w1] =>
        destruct (upload_image_supported img w1 Hc) as [c Hup]
    end;
    rewrite (bind_Done _ _ _ _ _ Hup); cbv beta iota; do 2 step.
  - match goal with
    | |- context [bind (register_texture _ _) _ ?w1] =>
        rewrite (bind_Done _ _ _ _ _ (register_texture_run _ _ w1 e Hget))
    end.
    rewrite ret_run. eexists. split; [reflexivity|]. fields. repeat split.
  - match goal with
    | |- context [bind (register_texture _ _) _ ?w1] =>
        rewrite (bind_Undefined _ _ _ (register_texture_outside _ _ w1 Hget))
    end.
    reflexivity.
Qed.

(** Whatever a load returns, the slots below the old count keep their
    entries. *)
Lemma CreateGLTexture_keeps_entries (w w' : World) (filename tag : string) (b : bool) :
  CreateGLTexture filename tag w = Done (b, w') ->
  forall i, 0 <= i < m_loadedTextures w ->
            array_get (m_textureIDs w') i = array_get (m_textureIDs w) i.
Proof.
  intros Hrun i Hi.
  destruct (files w filename) as [img|] eqn:Hf.
  - assert (Hcases : supported_channels img \/
                      (colorChannels img <> 3 /\ colorChannels img <> 4))
      by (unfold supported_channels; lia).
    destruct Hcases as [Hs|[H3 H4]].
    + pose proof (CreateGLTexture_supported w filename tag img Hf Hs) as Hok.
      destruct (array_get (m_textureIDs w) (m_loadedTextures w)) as [e|] eqn:Hget.
      * destruct Hok as (w1 & Hr & Hids & _).
        rewrite Hr in Hrun. injection Hrun as _ <-. rewrite Hids.
        apply array_get_insert_ne; lia.
      * rewrite Hok in Hrun. discriminate.
    + destruct (CreateGLTexture_unsupported w filename tag img Hf H3 H4)
        as (w1 & Hr & Hids & _).
      rewrite Hr in Hrun. injection Hrun as _ <-. now rewrite Hids.
  - rewrite (CreateGLTexture_decode_failure w filename tag Hf) in Hrun.
    injection Hrun as _ <-. reflexivity.
Qed.

(** ** The two loops over the registered slots *)

Lemma BindGLTextures_loop (n : nat) :
  forall (i : Z) (w : World),
    0 <= i ->
    i + Z.of_nat n <= Z.of_nat (length (m_textureIDs w)) ->
    exists w',
      for_loop n i BindGLTextures_body w = Done (tt, w') /\
      m_textureIDs w' = m_textureIDs w /\
      m_loadedTextures w' = m_loadedTextures w.
Proof.
  induction n as [|n IH]; intros i w Hi Hlen.
  - exists w. repeat split.
  - destruct (array_get_in_range (m_textureIDs w) i) as [e He]; [lia|].
    cbn [for_loop]. unfold BindGLTextures_body at 1.
    assert (Hbody : (gl_call (ActiveTexture (GL_TEXTURE0_plus i)) ;;
                     e0 <- textureIDs_at i ;;
                     gl_call (BindTexture GL_TEXTURE_2D (TEXTURE_INFO.ID e0))) w
                    = Done (tt, set_gl_calls
                                  ((gl_calls w ++ [ActiveTexture (GL_TEXTURE0_plus i)])
                                   ++ [BindTexture GL_TEXTURE_2D (TEXTURE_INFO.ID e)]) w)).
    { step.
      match goal with
      | |- context [bind (textureIDs_at i) _ ?w1] =>
          rewrite (bind_Done _ _ _ _ _ (textureIDs_at_run i w1 e He))
      end.
      rewrite gl_call_run. reflexivity. }
    rewrite (bind_Done _ _ _ _ _ Hbody).
    match goal with
    | |- context [for_loop n (i + 1) _ ?w1] =>
        destruct (IH (i + 1) w1) as (w' & Hrun & Hids & Hcount); [lia|fields; lia|]
    end.
    exists w'. split; [exact Hrun|]. split; [exact Hids|exact Hcount].
Qed.

Lemma BindGLTextures_keeps_registry (w : World) :
  registry_ok w ->
  exists w',
    BindGLTextures w = Done (tt, w') /\
    m_textureIDs w' = m_textureIDs w /\
    m_loadedTextures w' = m_loadedTextures w.
Proof.
  intros [Hlen Hcount]. unfold MAX_TEXTURES in *.
  unfold BindGLTextures. step.
  apply BindGLTextures_loop; lia.
Qed.

Lemma DestroyGLTextures_loop (n : nat) :
  forall (i : Z) (w : World),
    0 <= i ->
    i + Z.of_nat n <= Z.of_nat (length (m_textureIDs w)) ->
    exists w' new,
      for_loop n i DestroyGLTextures_body w = Done (tt, w') /\
      m_loadedTextures w' = m_loadedTextures w /\
      length (m_textureIDs w') = length (m_textureIDs w) /\
      map TEXTURE_INFO.tag (m_textureIDs w') = map TEXTURE_INFO.tag (m_textureIDs w) /\
      gl_names w' = gl_names w ++ new /\
      length new = n /\
      gl_calls w' = gl_calls w ++ map (GenTextures 1) new.
Proof.
  induction n as [|n IH]; intros i w Hi Hlen.
  - exists w, []. rewrite !app_nil_r. repeat split.
  - destruct (array_get_in_range (m_textureIDs w) i) as [e He]; [lia|].
    cbn [for_loop]. unfold DestroyGLTextures_body at 1. 
    set (name := gl_supply w (length (gl_names w))).
    assert (Hbody : (name0 <- glGenTextures1 ;; textureIDs_update i (store_ID name0)) w
                    = Done (tt, set_textureIDs (<[Z.to_nat i := store_ID name e]> (m_textureIDs w))
                                  (set_gl_calls (gl_calls w ++ [GenTextures 1 name])
                                     (set_gl_names (gl_names w ++ [name]) w)))).
    { step.
      match goal with
      | |- textureIDs_update i _ ?w1 = _ =>
          rewrite (textureIDs_update_run i _ w1 e He)
      end.
      reflexivity. }
    rewrite (bind_Done _ _ _ _ _ Hbody).
    match goal with
    | |- context [for_loop n (i + 1) _ ?w1] =>
        destruct (IH (i + 1) w1)
          as (w' & new & Hrun & Hcount & Hl & Htags & Hnames & Hnew & Hcalls);
          [lia|fields; rewrite length_insert; lia|]
    end.
    fields_in Hcount. fields_in Hl. fields_in Htags. fields_in Hnames. fields_in Hcalls.
    exists w', (name :: new). split; [exact Hrun|].
    split; [exact Hcount|].
    split; [now rewrite Hl, length_insert|].
    split.
    { rewrite Htags. rewrite list_fmap_insert. cbn [store_ID TEXTURE_INFO.tag].
      apply list_insert_id. rewrite list_lookup_fmap.
      unfold array_get in He. destruct (0 <=? i); [|discriminate].
      now rewrite He. }
    split; [now rewrite Hnames, <- app_assoc|].
    split; [cbn; now rewrite Hnew|].
    rewrite Hcalls, <- app_assoc. reflexivity.
Qed.

(** ** glm against the matrices of the specification *)
Section GlmFacts.
Import Glm.
Local Open Scope R_scope.

Ltac unfold_glm :=
  unfold scale, translate, rotate, Spec.Translate, Spec.Scale, Spec.RotateX,
    Spec.RotateY, Spec.RotateZ, Spec.apply;
  unfold mat4_mul, scale_m, translate_m, rotate_m, Spec.product;
  unfold mat4_mul_col, mat4_mul_vec4, vec4_add, vec4_scale, mat4_identity,
    Spec.dot4, Spec.row0, Spec.row1, Spec.row2, Spec.row3, Spec.mat4_of_rows;
  cbn [x2 y2 x3 y3 z3 x4 y4 z4 w4 col0 col1 col2 col3].

Lemma Vec3_eq (a b c a' b' c' : R) :
  a = a' -> b = b' -> c = c' -> Vec3 a b c = Vec3 a' b' c'.
Proof. now intros -> -> ->. Qed.

Lemma Vec4_eq (a b c d a' b' c' d' : R) :
  a = a' -> b = b' -> c = c' -> d = d' -> Vec4 a b c d = Vec4 a' b' c' d'.
Proof. now intros -> -> -> ->. Qed.

Lemma Mat4_eq (a b c d a' b' c' d' : vec4) :
  a = a' -> b = b' -> c = c' -> d = d' -> Mat4 a b c d = Mat4 a' b' c' d'.
Proof. now intros -> -> -> ->. Qed.

(** Equal matrices or vectors, entry by entry. *)
Ltac entrywise :=
  repeat first [apply Mat4_eq | apply Vec4_eq | apply Vec3_eq].

Lemma mat4_mul_is_product (A B : mat4) : mat4_mul A B = Spec.product A B.
Proof.
  destruct A as [[? ? ? ?] [? ? ? ?] [? ? ? ?] [? ? ? ?]].
  destruct B as [[? ? ? ?] [? ? ? ?] [? ? ? ?] [? ? ? ?]].
  unfold_glm. entrywise; reflexivity.
Qed.

Lemma scale_is_Scale (v : vec3) : scale v = Spec.Scale v.
Proof. destruct v. unfold_glm. entrywise; ring. Qed.

Lemma translate_is_Translate (v : vec3) : translate v = Spec.Translate v.
Proof. destruct v. unfold_glm. entrywise; ring. Qed.

Lemma radians_is_deg_to_rad (d : R) : radians d = Spec.deg_to_rad d.
Proof. unfold radians, Spec.deg_to_rad. field. Qed.

(** The three axes are already of length one. *)
Lemma normalize_X : normalize vec3_X = vec3_X.
Proof.
  unfold normalize, inversesqrt, dot, vec3_X. cbn [x3 y3 z3].
  replace (1 * 1 + 0 * 0 + 0 * 0) with 1 by ring. rewrite sqrt_1.
  entrywise; field.
Qed.

Lemma normalize_Y : normalize vec3_Y = vec3_Y.
Proof.
  unfold normalize, inversesqrt, dot, vec3_Y. cbn [x3 y3 z3].
  replace (0 * 0 + 1 * 1 + 0 * 0) with 1 by ring. rewrite sqrt_1.
  entrywise; field.
Qed.

Lemma normalize_Z : normalize vec3_Z = vec3_Z.
Proof.
  unfold normalize, inversesqrt, dot, vec3_Z. cbn [x3 y3 z3].
  replace (0 * 0 + 0 * 0 + 1 * 1) with 1 by ring. rewrite sqrt_1.
  entrywise; field.
Qed.

Lemma rotate_X (a : R) : rotate a vec3_X = Spec.RotateX a.
Proof.
  unfold rotate, rotate_m. rewrite normalize_X. unfold vec3_X.
  unfold_glm. entrywise; ring.
Qed.

Lemma rotate_Y (a : R) : rotate a vec3_Y = Spec.RotateY a.
Proof.
  unfold rotate, rotate_m. rewrite normalize_Y. unfold vec3_Y.
  unfold_glm. entrywise; ring.
Qed.

Lemma rotate_Z (a : R) : rotate a vec3_Z = Spec.RotateZ a.
Proof.
  unfold rotate, rotate_m. rewrite normalize_Z. unfold vec3_Z.
  unfold_glm. entrywise; ring.
Qed.

(** The matrix of line 275 is the composition of the specification. *)
Lemma modelView_is_Compose (s : vec3) (rx ry rz : R) (p : vec3) :
  modelView s rx ry rz p = Spec.Compose s rx ry rz p.
Proof.
  unfold modelView, Spec.Compose.
  rewrite !mat4_mul_is_product.
  now rewrite scale_is_Scale, translate_is_Translate, rotate_X, rotate_Y, rotate_Z,
    !radians_is_deg_to_rad.
Qed.

(** Products of affine matrices act on points by composition. *)
Lemma apply_product (A B : mat4) (p : vec3) :
  Spec.row3 A = Vec4 0 0 0 1 -> Spec.row3 B = Vec4 0 0 0 1 ->
  Spec.apply (Spec.product A B) p = Spec.apply A (Spec.apply B p).
Proof.
  destruct A as [[? ? ? ?] [? ? ? ?] [? ? ? ?] [? ? ? ?]].
  destruct B as [[? ? ? ?] [? ? ? ?] [? ? ? ?] [? ? ? ?]].
  destruct p. unfold Spec.row3. cbn [x4 y4 z4 w4 col0 col1 col2 col3].
  intros [= -> -> -> ->] [= -> -> -> ->].
  unfold_glm. entrywise; ring.
Qed.

Lemma row3_product (A B : mat4) :
  Spec.row3 A = Vec4 0 0 0 1 -> Spec.row3 B = Vec4 0 0 0 1 ->
  Spec.row3 (Spec.product A B) = Vec4 0 0 0 1.
Proof.
  destruct A as [[? ? ? ?] [? ? ? ?] [? ? ? ?] [? ? ? ?]].
  destruct B as [[? ? ? ?] [? ? ? ?] [? ? ? ?] [? ? ? ?]].
  unfold Spec.row3. cbn [x4 y4 z4 w4 col0 col1 col2 col3].
  intros [= -> -> -> ->] [= -> -> -> ->].
  unfold_glm. entrywise; ring.
Qed.

(** The composed matrix acts on a point as the five maps in turn: the scale
    first, then the rotations about Z, Y and X, then the translation. *)
Lemma Compose_apply (s : vec3) (rx ry rz : R) (t p : vec3) :
  Spec.apply (Spec.Compose s rx ry rz t) p
  = Spec.apply (Spec.Translate t)
      (Spec.apply (Spec.RotateX (Spec.deg_to_rad rx))
         (Spec.apply (Spec.RotateY (Spec.deg_to_rad ry))
            (Spec.apply (Spec.RotateZ (Spec.deg_to_rad rz))
               (Spec.apply (Spec.Scale s) p)))).
Proof.
  unfold Spec.Compose.
  assert (HT : Spec.row3 (Spec.Translate t) = Vec4 0 0 0 1) by reflexivity.
  assert (HX : Spec.row3 (Spec.RotateX (Spec.deg_to_rad rx)) = Vec4 0 0 0 1) by reflexivity.
  assert (HY : Spec.row3 (Spec.RotateY (Spec.deg_to_rad ry)) = Vec4 0 0 0 1) by reflexivity.
  assert (HZ : Spec.row3 (Spec.RotateZ (Spec.deg_to_rad rz)) = Vec4 0 0 0 1) by reflexivity.
  assert (HS : Spec.row3 (Spec.Scale s) = Vec4 0 0 0 1) by reflexivity.
  rewrite !apply_product; auto using row3_product.
Qed.

(** The five maps on points. *)
Lemma apply_Scale (s p : vec3) :
  Spec.apply (Spec.Scale s) p = Vec3 (x3 s * x3 p) (y3 s * y3 p) (z3 s * z3 p).
Proof. destruct s, p. unfold_glm. entrywise; ring. Qed.

Lemma apply_RotateX (a : R) (p : vec3) :
  Spec.apply (Spec.RotateX a) p
  = Vec3 (x3 p) (cos a * y3 p - sin a * z3 p) (sin a * y3 p + cos a * z3 p).
Proof. destruct p. unfold_glm. entrywise; ring. Qed.

Lemma apply_RotateY (a : R) (p : vec3) :
  Spec.apply (Spec.RotateY a) p
  = Vec3 (cos a * x3 p + sin a * z3 p) (y3 p) (cos a * z3 p - sin a * x3 p).
Proof. destruct p. unfold_glm. entrywise; ring. Qed.

Lemma apply_RotateZ (a : R) (p : vec3) :
  Spec.apply (Spec.RotateZ a) p
  = Vec3 (cos a * x3 p - sin a * y3 p) (sin a * x3 p + cos a * y3 p) (z3 p).
Proof. destruct p. unfold_glm. entrywise; ring. Qed.

Lemma apply_Translate (t p : vec3) :
  Spec.apply (Spec.Translate t) p = Vec3 (x3 p + x3 t) (y3 p + y3 t) (z3 p + z3 t).
Proof. destruct t, p. unfold_glm. entrywise; ring. Qed.

End GlmFacts.

(** ** The material catalog *)

(** The loop of [FindMaterial] over entries none of which bears the tag
    leaves [material] as it was. *)
Lemma FindMaterial_loop_miss (tag : string) (material : OBJECT_MATERIAL.t) (w : World) (n : nat) :
  forall index : Z,
    0 <= index ->
    index + Z.of_nat n <= Z.of_nat (length (m_objectMaterials w)) ->
    (forall e, e ∈ m_objectMaterials w -> OBJECT_MATERIAL.tag e <> tag) ->
    FindMaterial_loop n tag index material w = Done (material, w).
Proof.
  induction n as [|n IH]; intros index H0 Hlen Hmiss.
  - reflexivity.
  - destruct (array_get_in_range (m_objectMaterials w) index) as [e He]; [lia|].
    cbn [FindMaterial_loop]. step. rewrite He.
    assert (Hin : e ∈ m_objectMaterials w).
    { unfold array_get in He. destruct (0 <=? index); [|discriminate].
      eapply list_elem_of_lookup_2. exact He. }
    apply Hmiss in Hin. apply std_compare_neq in Hin. rewrite Hin.
    apply IH; [lia|lia|exact Hmiss].
Qed.

(** The loop always ends, whatever the catalog holds. *)
Lemma FindMaterial_loop_total (tag : string) (w : World) (n : nat) :
  forall (index : Z) (material : OBJECT_MATERIAL.t),
    0 <= index ->
    index + Z.of_nat n <= Z.of_nat (length (m_objectMaterials w)) ->
    exists material', FindMaterial_loop n tag index material w = Done (material', w).
Proof.
  induction n as [|n IH]; intros index material H0 Hlen.
  - exists material. reflexivity.
  - destruct (array_get_in_range (m_objectMaterials w) index) as [e He]; [lia|].
    cbn [FindMaterial_loop]. step. rewrite He.
    destruct (std_compare (OBJECT_MATERIAL.tag e) tag =? 0).
    + eexists. reflexivity.
    + apply IH; lia.
Qed.

Lemma FindMaterial_empty (tag : string) (material : OBJECT_MATERIAL.t) (w : World) :
  m_objectMaterials w = [] ->
  FindMaterial tag material w = Done ((false, material), w).
Proof.
  intros H. unfold FindMaterial. step. rewrite H. reflexivity.
Qed.

(** On a catalog with entries the result is [true], found or not. *)
Lemma FindMaterial_nonempty (tag : string) (material : OBJECT_MATERIAL.t) (w : World) :
  m_objectMaterials w <> [] ->
  exists material', FindMaterial tag material w = Done ((true, material'), w).
Proof.
  intros H. unfold FindMaterial. step.
  destruct (m_objectMaterials w) as [|e l] eqn:E; [congruence|].
  replace (Z.of_nat (length (e :: l)) =? 0) with false
    by (symmetry; apply Z.eqb_neq; cbn [length]; lia).
  destruct (FindMaterial_loop_total tag w (length (e :: l)) 0 material)
    as [m' Hm']; [lia|rewrite E; lia|].
  exists m'. rewrite (bind_Done _ _ _ _ _ Hm'). reflexivity.
Qed.

(** ** The shader bridge with and without a sink *)

Lemma sink_write_unbound (u : UniformWrite) (w : World) :
  m_pShaderManager w = None -> sink_write u w = Undefined.
Proof. intros H. unfold sink_write. now rewrite H. Qed.

Lemma sink_write_bound (u : UniformWrite) (w : World) (sm : ShaderManager) :
  m_pShaderManager w = Some sm ->
  sink_write u w = Done (tt, set_pShaderManager (Some (sm ++ [u])) w).
Proof. intros H. unfold sink_write. now rewrite H. Qed.

Lemma SetShaderMaterial_unbound (materialTag : string) (material : OBJECT_MATERIAL.t) (w : World) :
  m_pShaderManager w = None ->
  m_objectMaterials w <> [] ->
  SetShaderMaterial materialTag material w = Undefined.
Proof.
  intros Hnull Hne.
  destruct (FindMaterial_nonempty materialTag material w Hne) as [m' Hm'].
  unfold SetShaderMaterial. step.
  replace (Z.of_nat (length (m_objectMaterials w)) >? 0) with true.
  2:{ symmetry. apply Z.gtb_lt. destruct (m_objectMaterials w); [congruence|cbn [length]; lia]. }
  rewrite (bind_Done _ _ _ _ _ Hm'). cbn [fst snd].
  now rewrite (bind_Undefined _ _ _ (sink_write_unbound _ _ Hnull)).
Qed.

Lemma SetShaderMaterial_empty (materialTag : string) (material : OBJECT_MATERIAL.t) (w : World) :
  m_objectMaterials w = [] ->
  SetShaderMaterial materialTag material w = Done (tt, w).
Proof.
  intros H. unfold SetShaderMaterial. step. rewrite H. reflexivity.
Qed.

(** ** A load below capacity *)

(** With a free slot left, the load of a decodable image with 3 or 4
    channels fills slot [m_loadedTextures] with the new handle and the tag,
    touches no other slot and counts one more entry. *)
Lemma CreateGLTexture_appends (w : World) (filename tag : string) (img : stbi_image) :
  registry_ok w ->
  m_loadedTextures w < MAX_TEXTURES ->
  files w filename = Some img ->
  supported_channels img ->
  exists w',
    CreateGLTexture filename tag w = Done (true, w') /\
    registry_ok w' /\
    m_loadedTextures w' = m_loadedTextures w + 1 /\
    array_get (m_textureIDs w') (m_loadedTextures w)
    = Some (TEXTURE_INFO.Build (gl_supply w (length (gl_names w))) tag) /\
    (forall i, i <> m_loadedTextures w ->
               array_get (m_textureIDs w') i = array_get (m_textureIDs w) i) /\
    files w' = files w.
Proof.
  intros [Hlen Hcount] Hlt Hf Hs. unfold MAX_TEXTURES in *.
  pose proof (CreateGLTexture_supported w filename tag img Hf Hs) as Hok.
  destruct (array_get_in_range (m_textureIDs w) (m_loadedTextures w)) as [e He]; [lia|].
  rewrite He in Hok.
  destruct Hok as (w' & Hrun & Hids & Hn & _ & Hfiles & _).
  exists w'. split; [exact Hrun|].
  split.
  { unfold registry_ok, MAX_TEXTURES. rewrite Hids, length_insert, Hn. lia. }
  split; [exact Hn|].
  split; [rewrite Hids; apply array_get_insert_eq; lia|].
  split; [|exact Hfiles].
  intros i Hi. rewrite Hids. apply array_get_insert_ne; lia.
Qed.

(** With all 16 slots taken the same load is not turned away: its store
    goes to [m_textureIDs[16]]. *)
Lemma CreateGLTexture_beyond_capacity (w : World) (filename tag : string) (img : stbi_image) :
  registry_ok w ->
  m_loadedTextures w = MAX_TEXTURES ->
  files w filename = Some img ->
  supported_channels img ->
  CreateGLTexture filename tag w = Undefined.
Proof.
  intros [Hlen Hcount] Hfull Hf Hs.
  pose proof (CreateGLTexture_supported w filename tag img Hf Hs) as Hok.
  rewrite array_get_out_of_range in Hok by lia.
  exact Hok.
Qed.

(** Three loads under the tags "a", "b", "a" into an empty registry, the
    binding of the units, and the lookup of "a". *)
Lemma load_a_b_a (w : World) (f1 f2 f3 : string) (i1 i2 i3 : stbi_image) :
  registry_ok w ->
  m_loadedTextures w = 0 ->
  files w f1 = Some i1 -> supported_channels i1 ->
  files w f2 = Some i2 -> supported_channels i2 ->
  files w f3 = Some i3 -> supported_channels i3 ->
  exists w',
    (CreateGLTexture f1 "a" ;; CreateGLTexture f2 "b" ;; CreateGLTexture f3 "a" ;;
     BindGLTextures ;; FindTextureSlot "a") w = Done (0, w') /\
    m_loadedTextures w' = 3.
Proof.
  intros Hok H0 Hf1 Hs1 Hf2 Hs2 Hf3 Hs3. unfold MAX_TEXTURES in *.
  destruct (CreateGLTexture_appends w f1 "a" i1 Hok) as
    (w1 & Hr1 & Hok1 & Hn1 & Hslot1 & Hkeep1 & Hfiles1);
    [unfold MAX_TEXTURES; lia|assumption|assumption|].
  rewrite <- Hfiles1 in Hf2, Hf3.
  destruct (CreateGLTexture_appends w1 f2 "b" i2 Hok1) as
    (w2 & Hr2 & Hok2 & Hn2 & Hslot2 & Hkeep2 & Hfiles2);
    [unfold MAX_TEXTURES; lia|assumption|assumption|].
  rewrite <- Hfiles2 in Hf3.
  destruct (CreateGLTexture_appends w2 f3 "a" i3 Hok2) as
    (w3 & Hr3 & Hok3 & Hn3 & Hslot3 & Hkeep3 & Hfiles3);
    [unfold MAX_TEXTURES; lia|assumption|assumption|].
  destruct (BindGLTextures_keeps_registry w3 Hok3) as (w4 & Hr4 & Hids4 & Hn4).
  assert (Hok4 : registry_ok w4).
  { unfold registry_ok. rewrite Hids4, Hn4. exact Hok3. }
  assert (Hfirst : array_get (m_textureIDs w4) 0
                   = Some (TEXTURE_INFO.Build (gl_supply w (length (gl_names w))) "a")).
  { rewrite Hids4, Hkeep3, Hkeep2 by lia. rewrite <- H0. exact Hslot1. }
  destruct (find_spec w4 "a" Hok4) as (r & id & Hslot & _ & Hcases).
  rewrite (bind_Done _ _ _ _ _ Hr1), (bind_Done _ _ _ _ _ Hr2),
    (bind_Done _ _ _ _ _ Hr3), (bind_Done _ _ _ _ _ Hr4), Hslot.
  assert (Hr : r = 0).
  { destruct Hcases as [(_ & _ & Hun) | (e & [Hrange He] & _ & _ & Hbefore)].
    - exfalso. eapply (Hun 0); [split; [lia|exact Hfirst]|reflexivity].
    - destruct (Z.eq_dec r 0) as [|Hne]; [assumption|].
      exfalso. eapply (Hbefore 0); [lia|exact Hfirst|reflexivity]. }
  subst r. exists w4. split; [reflexivity|lia].
Qed.

(** ** Runs on the sample states *)

(** One registered texture, then [DestroyGLTextures]: the count is still 1,
    slot 0 holds a new handle, and the names 1 and 2 are both in use. *)
Example DestroyGLTextures_one_texture :
  exists w',
    DestroyGLTextures one_texture_world = Done (tt, w') /\
    m_loadedTextures w' = 1 /\
    array_get (m_textureIDs w') 0 = Some (TEXTURE_INFO.Build 2 "a") /\
    gl_names w' = [1; 2] /\
    gl_calls w' = [GenTextures 1 2].
Proof. eexists. split; [vm_compute; reflexivity|]. repeat split. Qed.

(** A catalog of one material and a tag it does not hold. *)
Example FindMaterial_missing :
  FindMaterial "missing" stale_material metal_world
  = Done ((true, stale_material), metal_world).
Proof. reflexivity. Qed.

(** The same catalog and its own tag: the five fields are copied, the tag
    of the output record is not. *)
Example FindMaterial_metal :
  FindMaterial "metalMaterial" stale_material metal_world
  = Done ((true, copy_material metalMaterial stale_material), metal_world).
Proof. reflexivity. Qed.

(** An empty catalog. *)
Example FindMaterial_on_empty_catalog :
  FindMaterial "metalMaterial" stale_material fresh_world
  = Done ((false, stale_material), fresh_world).
Proof. reflexivity. Qed.

(** An image of one channel: a texture name is generated, nothing is
    registered. *)
Example CreateGLTexture_gray :
  exists w',
    CreateGLTexture "gray.png" "g" fresh_world = Done (false, w') /\
    m_loadedTextures w' = 0 /\
    m_textureIDs w' = m_textureIDs fresh_world /\
    gl_names w' = [1] /\
    cout w' = [Successfully_loaded_image "gray.png" 1 1 1;
               Not_implemented_to_handle_image 1].
Proof. eexists. split; [vm_compute; reflexivity|]. repeat split. Qed.

(** * The claims *)

(** C1 (code defect): on a catalog that has entries, none of them bearing
    the tag, [FindMaterial] leaves the caller's record as it was, and its
    result is [true], the constant of its last [return], not [false]. *)
Theorem FindMaterial_unmatched_tag (w : World) (tag : string) (material : OBJECT_MATERIAL.t) :
  m_objectMaterials w <> [] ->
  (forall e, e ∈ m_objectMaterials w -> OBJECT_MATERIAL.tag e <> tag) ->
  FindMaterial tag material w = Done ((true, material), w).
Proof.
  intros Hne Hmiss. unfold FindMaterial. step.
  destruct (m_objectMaterials w) as [|e l] eqn:E; [congruence|].
  replace (Z.of_nat (length (e :: l)) =? 0) with false
    by (symmetry; apply Z.eqb_neq; cbn [length]; lia).
  rewrite (bind_Done _ _ _ _ _
             (FindMaterial_loop_miss tag material w (length (e :: l)) 0
                ltac:(lia) ltac:(rewrite E; lia) ltac:(rewrite E; exact Hmiss))).
  reflexivity.
Qed.

Lemma FindMaterial_unmatched_tag_witness :
  m_objectMaterials metal_world <> [] /\
  (forall e, e ∈ m_objectMaterials metal_world -> OBJECT_MATERIAL.tag e <> "missing"%string) /\
  FindMaterial "missing" stale_material metal_world = Done ((true, stale_material), metal_world).
Proof.
  assert (H1 : m_objectMaterials metal_world <> []) by discriminate.
  assert (H2 : forall e, e ∈ m_objectMaterials metal_world ->
                         OBJECT_MATERIAL.tag e <> "missing"%string).
  { intros e He. apply list_elem_of_singleton in He. subst e. discriminate. }
  split; [exact H1|]. split; [exact H2|].
  exact (FindMaterial_unmatched_tag metal_world "missing" stale_material H1 H2).
Defined.

(** C2 (code defect): [DestroyGLTextures] ends with the registry as full as
    before: [m_loadedTextures] and the tags are unchanged, and the only
    OpenGL calls it makes are [glGenTextures], one per registered slot, so
    that every texture name in use stays in use and new ones are added. *)
Theorem DestroyGLTextures_frees_nothing (w : World) :
  registry_ok w ->
  exists w' new,
    DestroyGLTextures w = Done (tt, w') /\
    m_loadedTextures w' = m_loadedTextures w /\
    map TEXTURE_INFO.tag (m_textureIDs w') = map TEXTURE_INFO.tag (m_textureIDs w) /\
    gl_names w' = gl_names w ++ new /\
    Z.of_nat (length new) = m_loadedTextures w /\
    gl_calls w' = gl_calls w ++ map (GenTextures 1) new.
Proof.
  intros [Hlen Hcount]. unfold MAX_TEXTURES in *.
  unfold DestroyGLTextures. step.
  destruct (DestroyGLTextures_loop (Z.to_nat (m_loadedTextures w)) 0 w)
    as (w' & new & Hrun & Hn & _ & Htags & Hnames & Hnew & Hcalls); [lia|lia|].
  exists w', new. repeat split; auto. lia.
Qed.

Lemma DestroyGLTextures_frees_nothing_witness :
  registry_ok one_texture_world /\
  exists w' new,
    DestroyGLTextures one_texture_world = Done (tt, w') /\
    m_loadedTextures w' = m_loadedTextures one_texture_world /\
    map TEXTURE_INFO.tag (m_textureIDs w')
    = map TEXTURE_INFO.tag (m_textureIDs one_texture_world) /\
    gl_names w' = gl_names one_texture_world ++ new /\
    Z.of_nat (length new) = m_loadedTextures one_texture_world /\
    gl_calls w' = gl_calls one_texture_world ++ map (GenTextures 1) new.
Proof.
  assert (H : registry_ok one_texture_world).
  { unfold registry_ok, MAX_TEXTURES. cbn. lia. }
  split; [exact H|]. exact (DestroyGLTextures_frees_nothing one_texture_world H).
Defined.

(** C3 (code defect): with the sink unbound, [SetTransformations],
    [SetShaderColor], [SetShaderTexture] and [SetTextureUVScale] write
    nothing and return; [SetShaderMaterial] does so only on an empty
    catalog, and on a catalog with entries it calls through the null
    pointer. *)
Theorem unbound_sink_operations (w : World) :
  m_pShaderManager w = None ->
  (forall s rx ry rz p, SetTransformations s rx ry rz p w = Done (tt, w)) /\
  (forall r g b a, SetShaderColor r g b a w = Done (tt, w)) /\
  (forall t, SetShaderTexture t w = Done (tt, w)) /\
  (forall u v, SetTextureUVScale u v w = Done (tt, w)) /\
  (forall t m, m_objectMaterials w = [] -> SetShaderMaterial t m w = Done (tt, w)) /\
  (forall t m, m_objectMaterials w <> [] -> SetShaderMaterial t m w = Undefined).
Proof.
  intros Hnull.
  repeat split; intros.
  - unfold SetTransformations. step. now rewrite Hnull.
  - unfold SetShaderColor. step. now rewrite Hnull.
  - unfold SetShaderTexture. step. now rewrite Hnull.
  - unfold SetTextureUVScale. step. now rewrite Hnull.
  - now apply SetShaderMaterial_empty.
  - now apply SetShaderMaterial_unbound.
Qed.

Lemma unbound_sink_operations_witness :
  m_pShaderManager unbound_world = None /\
  SetTextureUVScale 1%R 1%R unbound_world = Done (tt, unbound_world) /\
  SetShaderMaterial "metalMaterial" stale_material unbound_world = Undefined.
Proof.
  assert (H : m_pShaderManager unbound_world = None) by reflexivity.
  destruct (unbound_sink_operations unbound_world H) as (_ & _ & _ & Huv & _ & Hmat).
  split; [exact H|]. split; [apply Huv|]. apply Hmat. discriminate.
Defined.

(** C4 (as amended): [CreateGLTexture] makes no capacity check.  With fewer
    than 16 entries the load of a decodable image with 3 or 4 channels
    succeeds, fills slot [m_loadedTextures] and leaves a well-formed
    registry, so at most 16 entries; with 16 entries the same load is not
    rejected: it goes on to store into [m_textureIDs[16]], outside the
    array. *)
Theorem CreateGLTexture_capacity (w : World) (filename tag : string) (img : stbi_image) :
  registry_ok w ->
  files w filename = Some img ->
  supported_channels img ->
  (m_loadedTextures w < MAX_TEXTURES ->
   exists w',
     CreateGLTexture filename tag w = Done (true, w') /\
     m_loadedTextures w' = m_loadedTextures w + 1 /\
     m_loadedTextures w' <= MAX_TEXTURES /\
     registry_ok w' /\
     array_get (m_textureIDs w') (m_loadedTextures w)
     = Some (TEXTURE_INFO.Build (gl_supply w (length (gl_names w))) tag)) /\
  (m_loadedTextures w = MAX_TEXTURES ->
   CreateGLTexture filename tag w = Undefined).
Proof.
  intros Hok Hf Hs. split.
  - intros Hlt.
    destruct (CreateGLTexture_appends w filename tag img Hok Hlt Hf Hs)
      as (w' & Hrun & Hok' & Hn & Hslot & _).
    exists w'. repeat split; auto; apply Hok'.
  - intros Hfull. now apply (CreateGLTexture_beyond_capacity w filename tag img).
Qed.

Lemma CreateGLTexture_capacity_witness :
  registry_ok fresh_world /\
  files fresh_world "rgb.jpg" = Some rgb_image /\
  supported_channels rgb_image /\
  m_loadedTextures fresh_world < MAX_TEXTURES /\
  exists w',
    CreateGLTexture "rgb.jpg" "a" fresh_world = Done (true, w') /\
    m_loadedTextures w' = m_loadedTextures fresh_world + 1 /\
    m_loadedTextures w' <= MAX_TEXTURES /\
    registry_ok w' /\
    array_get (m_textureIDs w') (m_loadedTextures fresh_world)
    = Some (TEXTURE_INFO.Build (gl_supply fresh_world (length (gl_names fresh_world))) "a").
Proof.
  assert (Hok : registry_ok fresh_world).
  { unfold registry_ok, MAX_TEXTURES. cbn. lia. }
  assert (Hf : files fresh_world "rgb.jpg" = Some rgb_image) by reflexivity.
  assert (Hs : supported_channels rgb_image) by (left; reflexivity).
  assert (Hlt : m_loadedTextures fresh_world < MAX_TEXTURES) by reflexivity.
  repeat (split; [assumption|]).
  exact (proj1 (CreateGLTexture_capacity fresh_world "rgb.jpg" "a" rgb_image Hok Hf Hs) Hlt).
Defined.

(** C4, the claim as stated fails: a registry holding 16 entries, a
    decodable 3-channel image, and the load is not rejected. *)
Lemma full_registry_load_not_rejected :
  registry_ok full_world /\
  m_loadedTextures full_world = MAX_TEXTURES /\
  files full_world "rgb.jpg" = Some rgb_image /\
  CreateGLTexture "rgb.jpg" "extra" full_world = Undefined /\
  ~ (exists w', CreateGLTexture "rgb.jpg" "extra" full_world = Done (false, w')).
Proof.
  assert (Hok : registry_ok full_world).
  { unfold registry_ok, MAX_TEXTURES. cbn. lia. }
  assert (Hrun : CreateGLTexture "rgb.jpg" "extra" full_world = Undefined).
  { apply (CreateGLTexture_beyond_capacity full_world "rgb.jpg" "extra" rgb_image);
      [exact Hok|reflexivity|reflexivity|left; reflexivity]. }
  split; [exact Hok|]. split; [reflexivity|]. split; [reflexivity|].
  split; [exact Hrun|].
  intros [w' Hw']. rewrite Hrun in Hw'. discriminate.
Qed.

(** C5: with the sink bound, [SetTransformations] makes exactly one uniform
    write, of the matrix
    [Translate(position) · RotateX(rotX) · RotateY(rotY) · RotateZ(rotZ) · Scale(scale)]
    (angles taken from degrees to radians, rotations about the world axes,
    arithmetic exact) under the name "model". *)
Theorem SetTransformations_pushes_composition
    (w : World) (sm : ShaderManager) (s : Glm.vec3) (rx ry rz : R) (p : Glm.vec3) :
  m_pShaderManager w = Some sm ->
  SetTransformations s rx ry rz p w
  = Done (tt, set_pShaderManager
                (Some (sm ++ [setMat4Value "model" (Spec.Compose s rx ry rz p)])) w).
Proof.
  intros Hsm. unfold SetTransformations. step. rewrite Hsm.
  rewrite (sink_write_bound _ _ sm Hsm), modelView_is_Compose. reflexivity.
Qed.

Lemma SetTransformations_pushes_composition_witness :
  m_pShaderManager fresh_world = Some [] /\
  SetTransformations (Glm.Vec3 1 2 1) 0 90 0 (Glm.Vec3 1 0 0) fresh_world
  = Done (tt, set_pShaderManager
                (Some ([] ++ [setMat4Value "model"
                                (Spec.Compose (Glm.Vec3 1 2 1) 0 90 0 (Glm.Vec3 1 0 0))]))
                fresh_world).
Proof.
  assert (H : m_pShaderManager fresh_world = Some []) by reflexivity.
  split; [exact H|].
  exact (SetTransformations_pushes_composition fresh_world []
           (Glm.Vec3 1 2 1) 0%R 90%R 0%R (Glm.Vec3 1 0 0) H).
Defined.

(** ** The worked example of the composition *)

(** Scale (1,2,1), rotation of 90 degrees about Y, position (1,0,0): the
    point (1,0,0) is kept by the scale, turned to (0,0,-1) and moved to
    (1,0,-1). *)
Lemma modelView_example :
  Spec.apply (modelView (Glm.Vec3 1 2 1) 0 90 0 (Glm.Vec3 1 0 0)) (Glm.Vec3 1 0 0)
  = Glm.Vec3 1 0 (-1).
Proof.
  rewrite modelView_is_Compose, Compose_apply.
  unfold Spec.deg_to_rad.
  replace (0 * PI / 180)%R with 0%R by field.
  replace (90 * PI / 180)%R with (PI / 2)%R by field.
  rewrite apply_Scale. cbn [Glm.x3 Glm.y3 Glm.z3].
  rewrite apply_RotateZ, cos_0, sin_0. cbn [Glm.x3 Glm.y3 Glm.z3].
  rewrite apply_RotateY, cos_PI2, sin_PI2. cbn [Glm.x3 Glm.y3 Glm.z3].
  rewrite apply_RotateX, cos_0, sin_0. cbn [Glm.x3 Glm.y3 Glm.z3].
  rewrite apply_Translate. cbn [Glm.x3 Glm.y3 Glm.z3].
  apply Vec3_eq; ring.
Qed.

(** C6 (as amended): for scale (1,2,1), rotations (0, 90, 0) degrees and
    position (1,0,0), the matrix that [SetTransformations] pushes takes the
    point (1,0,0) to (1,0,-1). *)
Theorem SetTransformations_example_point :
  exists M,
    SetTransformations (Glm.Vec3 1 2 1) 0 90 0 (Glm.Vec3 1 0 0) fresh_world
    = Done (tt, set_pShaderManager (Some [setMat4Value "model" M]) fresh_world) /\
    Spec.apply M (Glm.Vec3 1 0 0) = Glm.Vec3 1 0 (-1).
Proof.
  exists (modelView (Glm.Vec3 1 2 1) 0 90 0 (Glm.Vec3 1 0 0)).
  split; [reflexivity|apply modelView_example].
Qed.

(** C6, the claim as stated fails: the image of (1,0,0) is not within one
    half of (1,0,-2) in the third coordinate, let alone within a rounding
    tolerance. *)
Lemma example_point_is_not_1_0_minus_2 :
  ~ Spec.within (1 / 2)
      (Spec.apply (modelView (Glm.Vec3 1 2 1) 0 90 0 (Glm.Vec3 1 0 0)) (Glm.Vec3 1 0 0))
      (Glm.Vec3 1 0 (-2)).
Proof.
  rewrite modelView_example. unfold Spec.within. cbn [Glm.x3 Glm.y3 Glm.z3].
  intros (_ & _ & Hz).
  replace (-1 - -2)%R with 1%R in Hz by ring.
  rewrite Rabs_R1 in Hz. lra.
Qed.

(** C7: when the decode fails, and when it succeeds with a channel count
    other than 3 and 4, [CreateGLTexture] returns [false] and the registry
    is as before: same count, same array of entries. *)
Theorem CreateGLTexture_failure_keeps_registry (w : World) (filename tag : string) :
  files w filename = None \/
  (exists img, files w filename = Some img /\
               colorChannels img <> 3 /\ colorChannels img <> 4) ->
  exists w',
    CreateGLTexture filename tag w = Done (false, w') /\
    m_loadedTextures w' = m_loadedTextures w /\
    m_textureIDs w' = m_textureIDs w.
Proof.
  intros [Hnone | (img & Hf & H3 & H4)].
  - rewrite (CreateGLTexture_decode_failure w filename tag Hnone).
    eexists. split; [reflexivity|]. split; reflexivity.
  - destruct (CreateGLTexture_unsupported w filename tag img Hf H3 H4)
      as (w' & Hrun & Hids & Hn & _).
    exists w'. auto.
Qed.

Lemma CreateGLTexture_failure_keeps_registry_witness :
  (files one_texture_world "gray.png" = None \/
   (exists img, files one_texture_world "gray.png" = Some img /\
                colorChannels img <> 3 /\ colorChannels img <> 4)) /\
  exists w',
    CreateGLTexture "gray.png" "g" one_texture_world = Done (false, w') /\
    m_loadedTextures w' = m_loadedTextures one_texture_world /\
    m_textureIDs w' = m_textureIDs one_texture_world.
Proof.
  assert (H : files one_texture_world "gray.png" = None \/
              (exists img, files one_texture_world "gray.png" = Some img /\
                           colorChannels img <> 3 /\ colorChannels img <> 4)).
  { right. exists gray_image. split; [reflexivity|]. split; discriminate. }
  split; [exact H|].
  exact (CreateGLTexture_failure_keeps_registry one_texture_world "gray.png" "g" H).
Defined.

(** C8: for a tag that no registered entry bears, [FindTextureID] and
    [FindTextureSlot] both return [-1], and both leave the state as it
    was. *)
Theorem lookups_of_unregistered_tag (w : World) (tag : string) :
  registry_ok w ->
  unregistered w tag ->
  FindTextureID tag w = Done (-1, w) /\ FindTextureSlot tag w = Done (-1, w).
Proof.
  intros Hok Hun.
  destruct (find_spec w tag Hok) as (r & id & Hs & Hi & Hcases).
  destruct Hcases as [(-> & -> & _) | (e & Hreg & Ht & _)].
  - split; assumption.
  - exfalso. exact (Hun r e Hreg Ht).
Qed.

Lemma lookups_of_unregistered_tag_witness :
  registry_ok one_texture_world /\
  unregistered one_texture_world "b" /\
  FindTextureID "b" one_texture_world = Done (-1, one_texture_world) /\
  FindTextureSlot "b" one_texture_world = Done (-1, one_texture_world).
Proof.
  assert (Hok : registry_ok one_texture_world).
  { unfold registry_ok, MAX_TEXTURES. cbn. lia. }
  assert (Hun : unregistered one_texture_world "b").
  { intros i e [Hi He]. cbn in Hi. assert (i = 0) by lia. subst i.
    cbn in He. injection He as <-. discriminate. }
  split; [exact Hok|]. split; [exact Hun|].
  exact (lookups_of_unregistered_tag one_texture_world "b" Hok Hun).
Defined.

(** C9: when some registered entry bears the tag, [FindTextureSlot] returns
    the smallest index that bears it; a load, whatever it returns, leaves
    every entry below the old count as it was; and after the loads "a",
    "b", "a" into an empty registry and the binding of the units,
    [FindTextureSlot "a"] is 0 and the registry counts 3 entries. *)
Theorem first_match_wins (w : World) :
  registry_ok w ->
  (forall tag i e,
      registered w i e -> TEXTURE_INFO.tag e = tag ->
      exists k e',
        FindTextureSlot tag w = Done (k, w) /\
        0 <= k <= i /\
        registered w k e' /\ TEXTURE_INFO.tag e' = tag /\
        forall j e'', 0 <= j < k -> array_get (m_textureIDs w) j = Some e'' ->
                      TEXTURE_INFO.tag e'' <> tag) /\
  (forall filename tag b w',
      CreateGLTexture filename tag w = Done (b, w') ->
      forall i, 0 <= i < m_loadedTextures w ->
                array_get (m_textureIDs w') i = array_get (m_textureIDs w) i) /\
  (forall f1 f2 f3 i1 i2 i3,
      m_loadedTextures w = 0 ->
      files w f1 = Some i1 -> supported_channels i1 ->
      files w f2 = Some i2 -> supported_channels i2 ->
      files w f3 = Some i3 -> supported_channels i3 ->
      exists w',
        (CreateGLTexture f1 "a" ;; CreateGLTexture f2 "b" ;; CreateGLTexture f3 "a" ;;
         BindGLTextures ;; FindTextureSlot "a") w = Done (0, w') /\
        m_loadedTextures w' = 3).
Proof.
  intros Hok. split; [|split].
  - intros tag i e Hreg Htag.
    destruct (find_spec w tag Hok) as (r & id & Hs & _ & Hcases).
    destruct Hcases as [(_ & _ & Hun) | (e' & Hreg' & Ht' & _ & Hbefore)].
    + exfalso. exact (Hun i e Hreg Htag).
    + exists r, e'. split; [exact Hs|].
      split.
      { destruct Hreg as [Hi He], Hreg' as [Hr He'].
        split; [lia|].
        destruct (Z_le_gt_dec r i) as [|Hgt]; [assumption|].
        exfalso. apply (Hbefore i e); [lia|exact He|exact Htag]. }
      split; [exact Hreg'|]. split; [exact Ht'|exact Hbefore].
  - intros filename tag b w' Hrun. exact (CreateGLTexture_keeps_entries w w' filename tag b Hrun).
  - intros f1 f2 f3 i1 i2 i3. now apply load_a_b_a.
Qed.

Lemma first_match_wins_witness :
  registry_ok fresh_world /\
  exists w',
    (CreateGLTexture "rgb.jpg" "a" ;; CreateGLTexture "rgba.png" "b" ;;
     CreateGLTexture "rgb.jpg" "a" ;; BindGLTextures ;; FindTextureSlot "a") fresh_world
    = Done (0, w') /\
    m_loadedTextures w' = 3.
Proof.
  assert (Hok : registry_ok fresh_world).
  { unfold registry_ok, MAX_TEXTURES. cbn. lia. }
  split; [exact Hok|].
  refine (proj2 (proj2 (first_match_wins fresh_world Hok))
            "rgb.jpg" "rgba.png" "rgb.jpg" rgb_image rgba_image rgb_image
            _ _ _ _ _ _ _)%string.
  - reflexivity.
  - reflexivity.
  - left; reflexivity.
  - reflexivity.
  - right; reflexivity.
  - reflexivity.
  - left; reflexivity.
Defined.

(** C10 (as amended): on a well-formed registry both lookups end without
    touching the state and agree on the first entry that bears the tag:
    either no entry bears it and both return [-1], or [FindTextureSlot]
    returns the index of the first entry that bears it (no registered entry
    at a smaller index does) and [FindTextureID] the handle stored at that
    index, converted from unsigned 32 bits to [int], which is the handle
    itself when that is below 2^31.  So when every registered handle is
    below 2^31, [FindTextureID] returns [-1] exactly when [FindTextureSlot]
    does. *)
Theorem lookups_agree (w : World) (tag : string) :
  registry_ok w ->
  exists slot id,
    FindTextureSlot tag w = Done (slot, w) /\
    FindTextureID tag w = Done (id, w) /\
    ((slot = -1 /\ id = -1 /\ unregistered w tag) \/
     (exists e, registered w slot e /\ TEXTURE_INFO.tag e = tag /\
                (forall j e', registered w j e' -> TEXTURE_INFO.tag e' = tag -> slot <= j) /\
                id = int_of_GLuint (TEXTURE_INFO.ID e) /\
                (0 <= TEXTURE_INFO.ID e < 2 ^ 31 -> id = TEXTURE_INFO.ID e))) /\
    (handles_fit_int w -> (id = -1 <-> slot = -1)).
Proof.
  intros Hok.
  destruct (find_spec w tag Hok) as (r & id & Hs & Hi & Hcases).
  exists r, id. split; [exact Hs|]. split; [exact Hi|].
  destruct Hcases as [(-> & -> & Hun) | (e & Hreg & Ht & Hid & Hbefore)].
  - split; [left; auto|]. intros _. split; reflexivity.
  - split.
    + right. exists e. split; [exact Hreg|]. split; [exact Ht|]. split; [|split].
      * intros j e' [Hj He'] Ht'.
        destruct (Z_lt_le_dec j r) as [Hlt|Hle]; [|exact Hle].
        exfalso. apply (Hbefore j e'); [lia|exact He'|exact Ht'].
      * exact Hid.
      * intros Hsmall. rewrite Hid. now apply int_of_GLuint_small.
    + intros Hfit. pose proof (Hfit r e Hreg) as Hsmall.
      rewrite Hid, (int_of_GLuint_small _ Hsmall).
      destruct Hreg as [Hr _]. split; intros; lia.
Qed.

Lemma lookups_agree_witness :
  registry_ok shadowed_world /\
  exists slot id,
    FindTextureSlot "a" shadowed_world = Done (slot, shadowed_world) /\
    FindTextureID "a" shadowed_world = Done (id, shadowed_world) /\
    ((slot = -1 /\ id = -1 /\ unregistered shadowed_world "a") \/
     (exists e, registered shadowed_world slot e /\ TEXTURE_INFO.tag e = "a"%string /\
                (forall j e', registered shadowed_world j e' ->
                              TEXTURE_INFO.tag e' = "a"%string -> slot <= j) /\
                id = int_of_GLuint (TEXTURE_INFO.ID e) /\
                (0 <= TEXTURE_INFO.ID e < 2 ^ 31 -> id = TEXTURE_INFO.ID e))) /\
    (handles_fit_int shadowed_world -> (id = -1 <-> slot = -1)).
Proof.
  assert (Hok : registry_ok shadowed_world).
  { unfold registry_ok, MAX_TEXTURES. cbn. lia. }
  split; [exact Hok|].
  exact (lookups_agree shadowed_world "a" Hok).
Defined.

(** C10, the claim as stated fails: a registry whose one entry has the
    handle 4294967295; [FindTextureSlot] finds it at index 0 and
    [FindTextureID] returns [-1]. *)
Lemma max_handle_lookups_disagree :
  registry_ok max_handle_world /\
  registered max_handle_world 0 (TEXTURE_INFO.Build 4294967295 "a") /\
  FindTextureSlot "a" max_handle_world = Done (0, max_handle_world) /\
  FindTextureID "a" max_handle_world = Done (-1, max_handle_world).
Proof.
  split.
  { unfold registry_ok, MAX_TEXTURES. cbn. lia. }
  split.
  { split; [cbn; lia|reflexivity]. }
  split; reflexivity.
Qed.

(** * Further properties of the code *)

(** ** The registered tags and the slot lookup *)

Lemma std_compare_eqb (a b : string) : (std_compare a b =? 0) = String.eqb a b.
Proof.
  destruct (String.eqb a b) eqn:E.
  - apply std_compare_eq. now apply String.eqb_eq.
  - apply std_compare_neq. now apply String.eqb_neq.
Qed.

Lemma index_of_bounds (tag : string) (l : list string) :
  forall i, index_of tag l i = -1 \/ i <= index_of tag l i < i + Z.of_nat (length l).
Proof.
  induction l as [|t l IH]; intros i; cbn [index_of length].
  - now left.
  - destruct (String.eqb t tag); [right; lia|].
    destruct (IH (i + 1)) as [H|H]; [now left|right; lia].
Qed.

Lemma index_of_absent (tag : string) (l : list string) :
  forall i, tag ∉ l -> index_of tag l i = -1.
Proof.
  induction l as [|t l IH]; intros i Hn; cbn [index_of]; [reflexivity|].
  apply not_elem_of_cons in Hn as [Hne Hn].
  replace (String.eqb t tag) with false
    by (symmetry; apply String.eqb_neq; congruence).
  now apply IH.
Qed.

Lemma index_of_present (tag : string) (l : list string) :
  forall i, tag ∈ l -> i <= index_of tag l i < i + Z.of_nat (length l).
Proof.
  induction l as [|t l IH]; intros i Hin; cbn [index_of length].
  - now apply elem_of_nil in Hin.
  - destruct (String.eqb t tag) eqn:E; [lia|].
    apply elem_of_cons in Hin as [->|Hin].
    + now rewrite String.eqb_refl in E.
    + specialize (IH (i + 1) Hin). lia.
Qed.

Lemma index_of_app_present (tag : string) (l l' : list string) :
  forall i, tag ∈ l -> index_of tag (l ++ l') i = index_of tag l i.
Proof.
  induction l as [|t l IH]; intros i Hin; cbn [index_of app].
  - now apply elem_of_nil in Hin.
  - destruct (String.eqb t tag) eqn:E; [reflexivity|].
    apply elem_of_cons in Hin as [->|Hin].
    + now rewrite String.eqb_refl in E.
    + now apply IH.
Qed.

Lemma index_of_app_absent (tag : string) (l l' : list string) :
  forall i, tag ∉ l ->
            index_of tag (l ++ l') i = index_of tag l' (i + Z.of_nat (length l)).
Proof.
  induction l as [|t l IH]; intros i Hn; cbn [index_of app length].
  - f_equal. lia.
  - apply not_elem_of_cons in Hn as [Hne Hn].
    replace (String.eqb t tag) with false
      by (symmetry; apply String.eqb_neq; congruence).
    rewrite IH by assumption. f_equal. lia.
Qed.

(** The loop of [FindTextureSlot] over the slots from [index] on is the
    search of the tag in the list of their tags. *)
Lemma FindTextureSlot_loop_index_of (tag : string) (w : World) (n : nat) :
  forall index : Z,
    0 <= index ->
    index + Z.of_nat n <= Z.of_nat (length (m_textureIDs w)) ->
    FindTextureSlot_loop n tag index w
    = Done (index_of tag
              (map TEXTURE_INFO.tag (take n (drop (Z.to_nat index) (m_textureIDs w))))
              index, w).
Proof.
  induction n as [|n IH]; intros index H0 Hlen.
  - reflexivity.
  - destruct (array_get_in_range (m_textureIDs w) index) as [e He]; [lia|].
    cbn [FindTextureSlot_loop].
    rewrite (bind_Done _ _ _ _ _ (textureIDs_at_run index w e He)).
    assert (Hl : m_textureIDs w !! Z.to_nat index = Some e).
    { unfold array_get in He. destruct (0 <=? index); [exact He|discriminate]. }
    rewrite (drop_S _ _ _ Hl). cbn [take map index_of].
    rewrite std_compare_eqb.
    destruct (String.eqb (TEXTURE_INFO.tag e) tag); [reflexivity|].
    rewrite IH by lia.
    replace (Z.to_nat (index + 1)) with (S (Z.to_nat index)) by lia.
    reflexivity.
Qed.

(** [FindTextureSlot] returns the position of the first registered entry
    that bears the tag, or [-1]. *)
Lemma FindTextureSlot_index_of (w : World) (tag : string) :
  registry_ok w ->
  FindTextureSlot tag w = Done (index_of tag (registered_tags w) 0, w).
Proof.
  intros [Hlen Hcount]. unfold MAX_TEXTURES in *.
  unfold FindTextureSlot. step.
  rewrite FindTextureSlot_loop_index_of by lia. reflexivity.
Qed.

Lemma registered_tags_length (w : World) :
  registry_ok w -> Z.of_nat (length (registered_tags w)) = m_loadedTextures w.
Proof.
  intros [Hlen Hcount]. unfold MAX_TEXTURES in *.
  unfold registered_tags. rewrite length_map, length_take. lia.
Qed.

Lemma unregistered_iff (w : World) (tag : string) :
  0 <= m_loadedTextures w ->
  unregistered w tag <-> tag ∉ registered_tags w.
Proof.
  intros Hcount. unfold unregistered, registered, registered_tags. split.
  - intros Hun Hin.
    apply list_elem_of_fmap in Hin as (e & -> & He).
    apply elem_of_take in He as (i & Hi & Hlt).
    apply (Hun (Z.of_nat i) e); [|reflexivity].
    split; [lia|]. unfold array_get.
    destruct (0 <=? Z.of_nat i) eqn:E; [|lia]. now rewrite Nat2Z.id.
  - intros Hn i e [Hi He] Ht. apply Hn.
    apply list_elem_of_fmap. exists e. split; [now symmetry|].
    apply elem_of_take. exists (Z.to_nat i).
    unfold array_get in He. destruct (0 <=? i); [|discriminate].
    split; [exact He|lia].
Qed.

Lemma index_of_app_other (tag t : string) (l : list string) :
  tag <> t -> forall i, index_of tag (l ++ [t]) i = index_of tag l i.
Proof.
  intros Hne. induction l as [|t0 l IH]; intros i; cbn [index_of app].
  - replace (String.eqb t tag) with false
      by (symmetry; apply String.eqb_neq; congruence).
    reflexivity.
  - destruct (String.eqb t0 tag); [reflexivity|apply IH].
Qed.

(** [FindTextureID] returns the handle, converted to [int], of the entry
    that [FindTextureSlot] points at. *)
Lemma FindTextureID_by_slot (w : World) (tag : string) :
  registry_ok w ->
  FindTextureID tag w
  = Done (match array_get (m_textureIDs w) (index_of tag (registered_tags w) 0) with
          | Some e => int_of_GLuint (TEXTURE_INFO.ID e)
          | None => -1
          end, w).
Proof.
  intros Hok.
  destruct (find_spec w tag Hok) as (r & id & Hs & Hi & Hcases).
  rewrite (FindTextureSlot_index_of w tag Hok) in Hs.
  injection Hs as Hr. rewrite Hr, Hi.
  destruct Hcases as [(-> & -> & _) | (e & [_ He] & _ & -> & _)].
  - reflexivity.
  - now rewrite He.
Qed.

(** The tags after a store into the slot at the count and its increment. *)
Lemma registered_tags_append (w w' : World) (e : TEXTURE_INFO.t) :
  0 <= m_loadedTextures w < Z.of_nat (length (m_textureIDs w)) ->
  m_textureIDs w' = <[Z.to_nat (m_loadedTextures w) := e]> (m_textureIDs w) ->
  m_loadedTextures w' = m_loadedTextures w + 1 ->
  registered_tags w' = registered_tags w ++ [TEXTURE_INFO.tag e].
Proof.
  intros Hn Hids Hcount. unfold registered_tags. rewrite Hids, Hcount.
  replace (Z.to_nat (m_loadedTextures w + 1)) with (S (Z.to_nat (m_loadedTextures w))) by lia.
  rewrite (take_S_r _ _ e) by (apply list_lookup_insert_eq; lia).
  rewrite take_insert_ge by lia.
  now rewrite map_app.
Qed.

(** Two states with the same fields are the same state. *)
Lemma World_ext (w1 w2 : World) :
  m_pShaderManager w1 = m_pShaderManager w2 ->
  m_textureIDs w1 = m_textureIDs w2 ->
  m_loadedTextures w1 = m_loadedTextures w2 ->
  m_objectMaterials w1 = m_objectMaterials w2 ->
  gl_supply w1 = gl_supply w2 ->
  gl_names w1 = gl_names w2 ->
  gl_calls w1 = gl_calls w2 ->
  files w1 = files w2 ->
  cout w1 = cout w2 ->
  w1 = w2.
Proof. destruct w1, w2. cbn. now intros -> -> -> -> -> -> -> -> ->. Qed.

(** The unsupported channel count in full: six OpenGL calls, two lines
    printed, and nothing else touched. *)
Lemma CreateGLTexture_unsupported_run (w : World) (filename tag : string) (img : stbi_image) :
  files w filename = Some img ->
  colorChannels img <> 3 -> colorChannels img <> 4 ->
  CreateGLTexture filename tag w
  = Done (false,
          set_cout (cout w ++ [Successfully_loaded_image filename (width img) (height img)
                                 (colorChannels img);
                               Not_implemented_to_handle_image (colorChannels img)])
            (set_gl_calls
               (gl_calls w ++
                [GenTextures 1 (gl_supply w (length (gl_names w)));
                 BindTexture GL_TEXTURE_2D (gl_supply w (length (gl_names w)));
                 TexParameteri GL_TEXTURE_2D GL_TEXTURE_WRAP_S GL_REPEAT;
                 TexParameteri GL_TEXTURE_2D GL_TEXTURE_WRAP_T GL_REPEAT;
                 TexParameteri GL_TEXTURE_2D GL_TEXTURE_MIN_FILTER GL_LINEAR;
                 TexParameteri GL_TEXTURE_2D GL_TEXTURE_MAG_FILTER GL_LINEAR])
               (set_gl_names (gl_names w ++ [gl_supply w (length (gl_names w))]) w))).
Proof.
  intros H H3 H4.
  unfold CreateGLTexture. step. rewrite H. do 7 step.
  rewrite (bind_Done _ _ _ _ _ (upload_image_unsupported _ _ H3 H4)). cbv beta iota.
  rewrite ret_run. do 2 f_equal.
  apply World_ext; fields; rewrite <- ?app_assoc; reflexivity.
Qed.

(** What a load that returns has done to the registry. *)
Lemma CreateGLTexture_Done_inv (w w' : World) (filename tag : string) (b : bool) :
  registry_ok w ->
  CreateGLTexture filename tag w = Done (b, w') ->
  files w' = files w /\
  m_objectMaterials w' = m_objectMaterials w /\
  m_pShaderManager w' = m_pShaderManager w /\
  ((b = false /\
    m_textureIDs w' = m_textureIDs w /\ m_loadedTextures w' = m_loadedTextures w)
   \/
   (b = true /\
    m_loadedTextures w < MAX_TEXTURES /\
    m_textureIDs w'
    = <[Z.to_nat (m_loadedTextures w) :=
          TEXTURE_INFO.Build (gl_supply w (length (gl_names w))) tag]> (m_textureIDs w) /\
    m_loadedTextures w' = m_loadedTextures w + 1)).
Proof.
  intros [Hlen Hcount] Hrun. unfold MAX_TEXTURES in *.
  destruct (files w filename) as [img|] eqn:Hf.
  - assert (Hcases : supported_channels img \/
                      (colorChannels img <> 3 /\ colorChannels img <> 4))
      by (unfold supported_channels; lia).
    destruct Hcases as [Hs|[H3 H4]].
    + pose proof (CreateGLTexture_supported w filename tag img Hf Hs) as Hok.
      destruct (array_get (m_textureIDs w) (m_loadedTextures w)) as [e|] eqn:Hget.
      * destruct Hok as (w1 & Hr & Hids & Hn & _ & Hfiles & _ & Hsm & Hmats).
        rewrite Hr in Hrun. injection Hrun as <- <-.
        apply array_get_Some_range in Hget.
        repeat split; try assumption. right. repeat split; try assumption. lia.
      * rewrite Hok in Hrun. discriminate.
    + rewrite (CreateGLTexture_unsupported_run w filename tag img Hf H3 H4) in Hrun.
      injection Hrun as <- <-. repeat split. left. repeat split.
  - rewrite (CreateGLTexture_decode_failure w filename tag Hf) in Hrun.
    injection Hrun as <- <-. repeat split. left. repeat split.
Qed.

(** The tags and the well-formedness after a load that returns. *)
Lemma CreateGLTexture_registered_tags (w w' : World) (filename tag : string) (b : bool) :
  registry_ok w ->
  CreateGLTexture filename tag w = Done (b, w') ->
  registry_ok w' /\
  registered_tags w' = (if b then registered_tags w ++ [tag] else registered_tags w) /\
  forall i, 0 <= i < m_loadedTextures w ->
            array_get (m_textureIDs w') i = array_get (m_textureIDs w) i.
Proof.
  intros Hok Hrun.
  pose proof (CreateGLTexture_keeps_entries w w' filename tag b Hrun) as Hkeep.
  destruct (CreateGLTexture_Done_inv w w' filename tag b Hok Hrun)
    as (_ & _ & _ & [(-> & Hids & Hn) | (-> & Hlt & Hids & Hn)]).
  - split; [|split; [|exact Hkeep]].
    + unfold registry_ok. rewrite Hids, Hn. exact Hok.
    + unfold registered_tags. now rewrite Hids, Hn.
  - destruct Hok as [Hlen Hcount]. unfold MAX_TEXTURES in *.
    split; [|split; [|exact Hkeep]].
    + unfold registry_ok, MAX_TEXTURES. rewrite Hids, length_insert, Hn. lia.
    + apply (registered_tags_append w w' _ ltac:(lia) Hids Hn).
Qed.

(** X1: a load under a tag that no registered entry bears, into a registry
    with a free slot, can be looked up at once: [FindTextureSlot] returns
    the slot it took, the old count, and [FindTextureID] the new handle
    converted to [int]. *)
Theorem load_then_lookup (w : World) (filename tag : string) (img : stbi_image) :
  registry_ok w ->
  m_loadedTextures w < MAX_TEXTURES ->
  unregistered w tag ->
  files w filename = Some img ->
  supported_channels img ->
  exists w',
    CreateGLTexture filename tag w = Done (true, w') /\
    FindTextureSlot tag w' = Done (m_loadedTextures w, w') /\
    FindTextureID tag w'
    = Done (int_of_GLuint (gl_supply w (length (gl_names w))), w').
Proof.
  intros Hok Hlt Hun Hf Hs.
  destruct (CreateGLTexture_appends w filename tag img Hok Hlt Hf Hs)
    as (w' & Hrun & Hok' & Hn & Hslot & _).
  destruct (CreateGLTexture_registered_tags w w' filename tag true Hok Hrun)
    as (_ & Htags & _).
  assert (Hidx : index_of tag (registered_tags w') 0 = m_loadedTextures w).
  { rewrite Htags, index_of_app_absent
      by (apply unregistered_iff; [apply Hok|exact Hun]).
    cbn [index_of]. rewrite String.eqb_refl, (registered_tags_length w Hok). lia. }
  exists w'. split; [exact Hrun|]. split.
  - now rewrite (FindTextureSlot_index_of w' tag Hok'), Hidx.
  - now rewrite (FindTextureID_by_slot w' tag Hok'), Hidx, Hslot.
Qed.

Lemma load_then_lookup_witness :
  registry_ok one_texture_world /\
  m_loadedTextures one_texture_world < MAX_TEXTURES /\
  unregistered one_texture_world "b" /\
  files one_texture_world "rgba.png" = Some rgba_image /\
  supported_channels rgba_image /\
  exists w',
    CreateGLTexture "rgba.png" "b" one_texture_world = Done (true, w') /\
    FindTextureSlot "b" w' = Done (m_loadedTextures one_texture_world, w') /\
    FindTextureID "b" w'
    = Done (int_of_GLuint (gl_supply one_texture_world
                             (length (gl_names one_texture_world))), w').
Proof.
  assert (Hok : registry_ok one_texture_world).
  { unfold registry_ok, MAX_TEXTURES. cbn. lia. }
  assert (Hlt : m_loadedTextures one_texture_world < MAX_TEXTURES) by reflexivity.
  assert (Hun : unregistered one_texture_world "b").
  { intros i e [Hi He]. cbn in Hi. assert (i = 0) by lia. subst i.
    cbn in He. injection He as <-. discriminate. }
  assert (Hf : files one_texture_world "rgba.png" = Some rgba_image) by reflexivity.
  assert (Hs : supported_channels rgba_image) by (right; reflexivity).
  repeat (split; [assumption|]).
  exact (load_then_lookup one_texture_world "rgba.png" "b" rgba_image Hok Hlt Hun Hf Hs).
Defined.

(** X2: a load that returns, successful or not, changes no earlier answer:
    for a tag that is already registered, or that differs from the tag of
    the load, [FindTextureSlot] and [FindTextureID] return after the load
    what they returned before it, even when the load registers the same tag
    again. *)
Theorem load_keeps_lookups (w w' : World) (filename tag' tag : string) (b : bool) (slot id : Z) :
  registry_ok w ->
  CreateGLTexture filename tag' w = Done (b, w') ->
  tag ∈ registered_tags w \/ tag <> tag' ->
  FindTextureSlot tag w = Done (slot, w) ->
  FindTextureID tag w = Done (id, w) ->
  FindTextureSlot tag w' = Done (slot, w') /\ FindTextureID tag w' = Done (id, w').
Proof.
  intros Hok Hrun Htag Hslot Hid.
  destruct (CreateGLTexture_registered_tags w w' filename tag' b Hok Hrun)
    as (Hok' & Htags & Hkeep).
  rewrite (FindTextureSlot_index_of w tag Hok) in Hslot. injection Hslot as Hslot.
  rewrite (FindTextureID_by_slot w tag Hok), Hslot in Hid. injection Hid as Hid.
  assert (Hidx : index_of tag (registered_tags w') 0 = slot).
  { rewrite Htags. destruct b; [|exact Hslot].
    destruct Htag as [Hin|Hne].
    - now rewrite index_of_app_present.
    - now rewrite index_of_app_other. }
  split.
  - now rewrite (FindTextureSlot_index_of w' tag Hok'), Hidx.
  - rewrite (FindTextureID_by_slot w' tag Hok'), Hidx.
    destruct (index_of_bounds tag (registered_tags w) 0) as [Hm|Hr].
    + rewrite Hslot in Hm. subst slot id. rewrite !Hm. reflexivity.
    + rewrite Hslot, (registered_tags_length w Hok) in Hr.
      rewrite Hkeep by lia. now rewrite Hid.
Qed.

Lemma load_keeps_lookups_witness :
  registry_ok one_texture_world /\
  (exists w',
      CreateGLTexture "rgb.jpg" "a" one_texture_world = Done (true, w') /\
      FindTextureSlot "a" w' = Done (0, w') /\ FindTextureID "a" w' = Done (1, w')).
Proof.
  assert (Hok : registry_ok one_texture_world).
  { unfold registry_ok, MAX_TEXTURES. cbn. lia. }
  split; [exact Hok|].
  destruct (CreateGLTexture_appends one_texture_world "rgb.jpg" "a" rgb_image Hok)
    as (w' & Hrun & _); [reflexivity|reflexivity|left; reflexivity|].
  exists w'. split; [exact Hrun|].
  refine (load_keeps_lookups one_texture_world w' "rgb.jpg" "a" "a" true 0 1
            Hok Hrun _ _ _).
  - left. cbn. apply list_elem_of_here.
  - reflexivity.
  - reflexivity.
Defined.

(** X3: when the decoded image has a channel count other than 3 and 4, the
    texture name that [glGenTextures] returned is bound to [GL_TEXTURE_2D],
    given its four parameters and then abandoned: no image is uploaded, the
    binding is not undone, the name is in no registry slot, and the call
    prints that the image was loaded before it prints the refusal. *)
Theorem unsupported_channels_leak_texture (w : World) (filename tag : string) (img : stbi_image) :
  files w filename = Some img ->
  colorChannels img <> 3 -> colorChannels img <> 4 ->
  exists w',
    CreateGLTexture filename tag w = Done (false, w') /\
    gl_names w' = gl_names w ++ [gl_supply w (length (gl_names w))] /\
    gl_calls w'
    = gl_calls w ++
      [GenTextures 1 (gl_supply w (length (gl_names w)));
       BindTexture GL_TEXTURE_2D (gl_supply w (length (gl_names w)));
       TexParameteri GL_TEXTURE_2D GL_TEXTURE_WRAP_S GL_REPEAT;
       TexParameteri GL_TEXTURE_2D GL_TEXTURE_WRAP_T GL_REPEAT;
       TexParameteri GL_TEXTURE_2D GL_TEXTURE_MIN_FILTER GL_LINEAR;
       TexParameteri GL_TEXTURE_2D GL_TEXTURE_MAG_FILTER GL_LINEAR] /\
    cout w'
    = cout w ++ [Successfully_loaded_image filename (width img) (height img)
                   (colorChannels img);
                 Not_implemented_to_handle_image (colorChannels img)] /\
    m_textureIDs w' = m_textureIDs w /\
    m_loadedTextures w' = m_loadedTextures w.
Proof.
  intros Hf H3 H4.
  rewrite (CreateGLTexture_unsupported_run w filename tag img Hf H3 H4).
  eexists. split; [reflexivity|]. fields. repeat split.
Qed.

Lemma unsupported_channels_leak_texture_witness :
  files fresh_world "gray.png" = Some gray_image /\
  colorChannels gray_image <> 3 /\ colorChannels gray_image <> 4 /\
  exists w',
    CreateGLTexture "gray.png" "g" fresh_world = Done (false, w') /\
    gl_names w' = gl_names fresh_world ++ [gl_supply fresh_world (length (gl_names fresh_world))] /\
    gl_calls w'
    = gl_calls fresh_world ++
      [GenTextures 1 (gl_supply fresh_world (length (gl_names fresh_world)));
       BindTexture GL_TEXTURE_2D (gl_supply fresh_world (length (gl_names fresh_world)));
       TexParameteri GL_TEXTURE_2D GL_TEXTURE_WRAP_S GL_REPEAT;
       TexParameteri GL_TEXTURE_2D GL_TEXTURE_WRAP_T GL_REPEAT;
       TexParameteri GL_TEXTURE_2D GL_TEXTURE_MIN_FILTER GL_LINEAR;
       TexParameteri GL_TEXTURE_2D GL_TEXTURE_MAG_FILTER GL_LINEAR] /\
    cout w'
    = cout fresh_world ++ [Successfully_loaded_image "gray.png" (width gray_image)
                             (height gray_image) (colorChannels gray_image);
                           Not_implemented_to_handle_image (colorChannels gray_image)] /\
    m_textureIDs w' = m_textureIDs fresh_world /\
    m_loadedTextures w' = m_loadedTextures fresh_world.
Proof.
  assert (Hf : files fresh_world "gray.png" = Some gray_image) by reflexivity.
  assert (H3 : colorChannels gray_image <> 3) by discriminate.
  assert (H4 : colorChannels gray_image <> 4) by discriminate.
  repeat (split; [assumption|]).
  exact (unsupported_channels_leak_texture fresh_world "gray.png" "g" gray_image Hf H3 H4).
Defined.

(** ** The binding of the units *)

Lemma BindGLTextures_loop_calls (n : nat) :
  forall (i : Z) (w : World),
    0 <= i ->
    i + Z.of_nat n <= Z.of_nat (length (m_textureIDs w)) ->
    for_loop n i BindGLTextures_body w
    = Done (tt, set_gl_calls
                  (gl_calls w ++
                   unit_bindings (take n (drop (Z.to_nat i) (m_textureIDs w))) i) w).
Proof.
  induction n as [|n IH]; intros i w Hi Hlen.
  - cbn [for_loop take unit_bindings]. rewrite ret_run. do 2 f_equal.
    apply World_ext; fields; rewrite ?app_nil_r; reflexivity.
  - destruct (array_get_in_range (m_textureIDs w) i) as [e He]; [lia|].
    assert (Hl : m_textureIDs w !! Z.to_nat i = Some e).
    { unfold array_get in He. destruct (0 <=? i); [exact He|discriminate]. }
    cbn [for_loop]. unfold BindGLTextures_body at 1.
    assert (Hbody : (gl_call (ActiveTexture (GL_TEXTURE0_plus i)) ;;
                     e0 <- textureIDs_at i ;;
                     gl_call (BindTexture GL_TEXTURE_2D (TEXTURE_INFO.ID e0))) w
                    = Done (tt, set_gl_calls
                                  ((gl_calls w ++ [ActiveTexture (GL_TEXTURE0_plus i)])
                                   ++ [BindTexture GL_TEXTURE_2D (TEXTURE_INFO.ID e)]) w)).
    { step.
      match goal with
      | |- context [bind (textureIDs_at i) _ ?w1] =>
          rewrite (bind_Done _ _ _ _ _ (textureIDs_at_run i w1 e He))
      end.
      rewrite gl_call_run. reflexivity. }
    rewrite (bind_Done _ _ _ _ _ Hbody).
    rewrite IH by (fields; lia).
    rewrite (drop_S _ _ _ Hl). cbn [take unit_bindings].
    replace (Z.to_nat (i + 1)) with (S (Z.to_nat i)) by lia.
    do 2 f_equal. apply World_ext; fields; try reflexivity.
    rewrite <- !app_assoc. reflexivity.
Qed.

(** X4: [BindGLTextures] binds the texture of slot [i] on unit
    [GL_TEXTURE0 + i], for the registered slots in order, and does nothing
    else: the registry, the catalog and the sink are as before. *)
Theorem BindGLTextures_binds_slot_to_unit (w : World) :
  registry_ok w ->
  BindGLTextures w
  = Done (tt, set_gl_calls
                (gl_calls w ++
                 unit_bindings (take (Z.to_nat (m_loadedTextures w)) (m_textureIDs w)) 0) w).
Proof.
  intros [Hlen Hcount]. unfold MAX_TEXTURES in *.
  unfold BindGLTextures. step.
  rewrite BindGLTextures_loop_calls by lia. reflexivity.
Qed.

Lemma BindGLTextures_binds_slot_to_unit_witness :
  registry_ok shadowed_world /\
  BindGLTextures shadowed_world
  = Done (tt, set_gl_calls
                [ActiveTexture (GL_TEXTURE0_plus 0); BindTexture GL_TEXTURE_2D 1;
                 ActiveTexture (GL_TEXTURE0_plus 1); BindTexture GL_TEXTURE_2D 2;
                 ActiveTexture (GL_TEXTURE0_plus 2); BindTexture GL_TEXTURE_2D 3]
                shadowed_world).
Proof.
  assert (Hok : registry_ok shadowed_world).
  { unfold registry_ok, MAX_TEXTURES. cbn. lia. }
  split; [exact Hok|].
  exact (BindGLTextures_binds_slot_to_unit shadowed_world Hok).
Defined.

(** ** The material catalog as a search *)

Lemma FindMaterial_loop_first (tag : string) (material : OBJECT_MATERIAL.t) (w : World)
    (n : nat) :
  forall index : Z,
    0 <= index ->
    index + Z.of_nat n <= Z.of_nat (length (m_objectMaterials w)) ->
    FindMaterial_loop n tag index material w
    = Done (match first_material tag
                    (take n (drop (Z.to_nat index) (m_objectMaterials w))) with
            | Some e => copy_material e material
            | None => material
            end, w).
Proof.
  induction n as [|n IH]; intros index H0 Hlen.
  - reflexivity.
  - destruct (array_get_in_range (m_objectMaterials w) index) as [e He]; [lia|].
    assert (Hl : m_objectMaterials w !! Z.to_nat index = Some e).
    { unfold array_get in He. destruct (0 <=? index); [exact He|discriminate]. }
    cbn [FindMaterial_loop]. step. rewrite He.
    rewrite (drop_S _ _ _ Hl). cbn [take first_material].
    rewrite std_compare_eqb.
    destruct (String.eqb (OBJECT_MATERIAL.tag e) tag); [reflexivity|].
    rewrite IH by lia.
    replace (Z.to_nat (index + 1)) with (S (Z.to_nat index)) by lia.
    reflexivity.
Qed.

(** [FindMaterial] in one equation: the flag tells whether the catalog has
    entries, the record receives the fields of the first entry that bears
    the tag. *)
Lemma FindMaterial_first (tag : string) (material : OBJECT_MATERIAL.t) (w : World) :
  FindMaterial tag material w
  = Done ((match m_objectMaterials w with [] => false | _ :: _ => true end,
           match first_material tag (m_objectMaterials w) with
           | Some e => copy_material e material
           | None => material
           end), w).
Proof.
  unfold FindMaterial. step.
  destruct (m_objectMaterials w) as [|e l] eqn:E; [reflexivity|].
  replace (Z.of_nat (length (e :: l)) =? 0) with false
    by (symmetry; apply Z.eqb_neq; cbn [length]; lia).
  erewrite bind_Done
    by (apply FindMaterial_loop_first; [lia|rewrite E; lia]).
  rewrite E. cbn [drop Z.to_nat]. rewrite firstn_all. reflexivity.
Qed.

Lemma first_material_app (tag : string) (l l' : list OBJECT_MATERIAL.t) :
  first_material tag (l ++ l')
  = match first_material tag l with
    | Some e => Some e
    | None => first_material tag l'
    end.
Proof.
  induction l as [|e l IH]; cbn [first_material app]; [reflexivity|].
  destruct (String.eqb (OBJECT_MATERIAL.tag e) tag); [reflexivity|exact IH].
Qed.

Lemma first_material_absent (tag : string) (l : list OBJECT_MATERIAL.t) :
  (forall x, x ∈ l -> OBJECT_MATERIAL.tag x <> tag) -> first_material tag l = None.
Proof.
  induction l as [|e l IH]; intros H; cbn [first_material]; [reflexivity|].
  replace (String.eqb (OBJECT_MATERIAL.tag e) tag) with false
    by (symmetry; apply String.eqb_neq; apply H; apply list_elem_of_here).
  apply IH. intros x Hx. apply H. now apply list_elem_of_further.
Qed.

Lemma first_material_split (tag : string) (l1 l2 : list OBJECT_MATERIAL.t)
    (e : OBJECT_MATERIAL.t) :
  (forall x, x ∈ l1 -> OBJECT_MATERIAL.tag x <> tag) ->
  OBJECT_MATERIAL.tag e = tag ->
  first_material tag (l1 ++ e :: l2) = Some e.
Proof.
  intros Hbefore He.
  rewrite first_material_app, (first_material_absent tag l1 Hbefore).
  cbn [first_material]. rewrite He, String.eqb_refl. reflexivity.
Qed.

(** X5: [FindMaterial] copies the first entry that bears the tag: when the
    catalog is [l1 ++ e :: l2], [e] bears the tag and no entry of [l1] does,
    the result is [true], the caller's record has the five fields of [e]
    and its own tag, whatever [l2] holds, and the state is as before. *)
Theorem FindMaterial_first_match (w : World) (tag : string) (material e : OBJECT_MATERIAL.t)
    (l1 l2 : list OBJECT_MATERIAL.t) :
  m_objectMaterials w = l1 ++ e :: l2 ->
  (forall x, x ∈ l1 -> OBJECT_MATERIAL.tag x <> tag) ->
  OBJECT_MATERIAL.tag e = tag ->
  FindMaterial tag material w
  = Done ((true,
           {| OBJECT_MATERIAL.ambientColor := OBJECT_MATERIAL.ambientColor e;
              OBJECT_MATERIAL.ambientStrength := OBJECT_MATERIAL.ambientStrength e;
              OBJECT_MATERIAL.diffuseColor := OBJECT_MATERIAL.diffuseColor e;
              OBJECT_MATERIAL.specularColor := OBJECT_MATERIAL.specularColor e;
              OBJECT_MATERIAL.shininess := OBJECT_MATERIAL.shininess e;
              OBJECT_MATERIAL.tag := OBJECT_MATERIAL.tag material |}), w).
Proof.
  intros Hcat Hbefore He.
  rewrite FindMaterial_first, Hcat, (first_material_split tag l1 l2 e Hbefore He).
  destruct l1; reflexivity.
Qed.

Lemma FindMaterial_first_match_witness :
  m_objectMaterials shadowed_world = [metalMaterial] ++ woodMaterial :: [] /\
  (forall x, x ∈ [metalMaterial] -> OBJECT_MATERIAL.tag x <> "woodMaterial"%string) /\
  OBJECT_MATERIAL.tag woodMaterial = "woodMaterial"%string /\
  FindMaterial "woodMaterial" stale_material shadowed_world
  = Done ((true,
           {| OBJECT_MATERIAL.ambientColor := OBJECT_MATERIAL.ambientColor woodMaterial;
              OBJECT_MATERIAL.ambientStrength := OBJECT_MATERIAL.ambientStrength woodMaterial;
              OBJECT_MATERIAL.diffuseColor := OBJECT_MATERIAL.diffuseColor woodMaterial;
              OBJECT_MATERIAL.specularColor := OBJECT_MATERIAL.specularColor woodMaterial;
              OBJECT_MATERIAL.shininess := OBJECT_MATERIAL.shininess woodMaterial;
              OBJECT_MATERIAL.tag := OBJECT_MATERIAL.tag stale_material |}),
          shadowed_world).
Proof.
  assert (H1 : m_objectMaterials shadowed_world = [metalMaterial] ++ woodMaterial :: [])
    by reflexivity.
  assert (H2 : forall x, x ∈ [metalMaterial] ->
                         OBJECT_MATERIAL.tag x <> "woodMaterial"%string).
  { intros x Hx. apply list_elem_of_singleton in Hx. subst x. discriminate. }
  assert (H3 : OBJECT_MATERIAL.tag woodMaterial = "woodMaterial"%string) by reflexivity.
  repeat (split; [assumption|]).
  exact (FindMaterial_first_match shadowed_world "woodMaterial" stale_material
           woodMaterial [metalMaterial] [] H1 H2 H3).
Defined.

(** X6: [FindMaterial] always returns, never changes the state, and its
    result tells only whether the catalog has entries: it is [false] exactly
    on the empty catalog, whether or not the tag was found. *)
Theorem FindMaterial_result_is_nonempty (w : World) (tag : string)
    (material : OBJECT_MATERIAL.t) :
  exists (found : bool) (material' : OBJECT_MATERIAL.t),
    FindMaterial tag material w = Done ((found, material'), w) /\
    (found = false <-> m_objectMaterials w = []).
Proof.
  rewrite FindMaterial_first.
  destruct (m_objectMaterials w) as [|e l]; eexists; eexists;
    (split; [reflexivity|split; intros; congruence]).
Qed.

(** ** [DefineObjectMaterials] *)

Lemma DefineObjectMaterials_run (w : World) :
  DefineObjectMaterials w
  = Done (tt, set_objectMaterials (m_objectMaterials w ++ defined_materials) w).
Proof.
  unfold DefineObjectMaterials, push_back. do 8 step. rewrite modify_run.
  do 2 f_equal. apply World_ext; fields; try reflexivity.
  cbn [m_objectMaterials set_objectMaterials]. rewrite <- !app_assoc. reflexivity.
Qed.

(** The nine tags are distinct: each material is the first of the nine to
    bear its tag. *)
Lemma defined_materials_first (e : OBJECT_MATERIAL.t) :
  e ∈ defined_materials ->
  first_material (OBJECT_MATERIAL.tag e) defined_materials = Some e.
Proof.
  unfold defined_materials. intros H.
  repeat (apply elem_of_cons in H as [->|H]; [reflexivity|]).
  now apply elem_of_nil in H.
Qed.

(** X7: after [DefineObjectMaterials], each of its nine materials is found
    under its own tag, with its own five fields, provided that no entry
    already in the catalog bears that tag (so on every empty catalog). *)
Theorem defined_materials_are_found (w : World) (e material : OBJECT_MATERIAL.t) :
  e ∈ defined_materials ->
  (forall x, x ∈ m_objectMaterials w -> OBJECT_MATERIAL.tag x <> OBJECT_MATERIAL.tag e) ->
  exists w',
    DefineObjectMaterials w = Done (tt, w') /\
    FindMaterial (OBJECT_MATERIAL.tag e) material w'
    = Done ((true, copy_material e material), w').
Proof.
  intros He Hfree. rewrite DefineObjectMaterials_run. eexists. split; [reflexivity|].
  rewrite FindMaterial_first. cbn [m_objectMaterials set_objectMaterials].
  rewrite first_material_app, (first_material_absent _ _ Hfree),
    (defined_materials_first e He).
  destruct (m_objectMaterials w); reflexivity.
Qed.

Lemma defined_materials_are_found_witness :
  marbleMaterial ∈ defined_materials /\
  (forall x, x ∈ m_objectMaterials fresh_world ->
             OBJECT_MATERIAL.tag x <> OBJECT_MATERIAL.tag marbleMaterial) /\
  exists w',
    DefineObjectMaterials fresh_world = Done (tt, w') /\
    FindMaterial (OBJECT_MATERIAL.tag marbleMaterial) stale_material w'
    = Done ((true, copy_material marbleMaterial stale_material), w').
Proof.
  assert (H1 : marbleMaterial ∈ defined_materials).
  { unfold defined_materials. do 8 apply list_elem_of_further. apply list_elem_of_here. }
  assert (H2 : forall x, x ∈ m_objectMaterials fresh_world ->
                         OBJECT_MATERIAL.tag x <> OBJECT_MATERIAL.tag marbleMaterial).
  { intros x Hx. cbn in Hx. now apply elem_of_nil in Hx. }
  split; [exact H1|]. split; [exact H2|].
  exact (defined_materials_are_found fresh_world marbleMaterial stale_material H1 H2).
Defined.

(** X8: a second [DefineObjectMaterials] doubles the nine entries and
    changes no lookup: for every tag and every record, [FindMaterial]
    returns after the second call what it returned after the first. *)
Theorem DefineObjectMaterials_twice (w : World) :
  exists w1 w2,
    DefineObjectMaterials w = Done (tt, w1) /\
    DefineObjectMaterials w1 = Done (tt, w2) /\
    length (m_objectMaterials w2) = (length (m_objectMaterials w1) + 9)%nat /\
    forall tag material,
      exists r, FindMaterial tag material w1 = Done (r, w1) /\
                FindMaterial tag material w2 = Done (r, w2).
Proof.
  rewrite DefineObjectMaterials_run. eexists. eexists. split; [reflexivity|].
  rewrite DefineObjectMaterials_run. split; [reflexivity|].
  cbn [m_objectMaterials set_objectMaterials]. split.
  - rewrite (length_app (_ ++ _) defined_materials). reflexivity.
  - intros tag material. rewrite !FindMaterial_first.
    cbn [m_objectMaterials set_objectMaterials].
    eexists. split; [reflexivity|].
    rewrite (first_material_app tag (_ ++ _) defined_materials).
    rewrite (first_material_app tag (m_objectMaterials w) defined_materials).
    destruct (m_objectMaterials w) as [|x l];
      cbn [app]; destruct (first_material tag _) eqn:E1; try reflexivity;
      destruct (first_material tag defined_materials); reflexivity.
Qed.

(** ** The shader bridge with a sink *)

Lemma set_pShaderManager_twice (a b : option ShaderManager) (w : World) :
  set_pShaderManager a (set_pShaderManager b w) = set_pShaderManager a w.
Proof. reflexivity. Qed.

(** X9: with a sink, [SetShaderTexture] turns texturing on and passes on
    what [FindTextureSlot] returns, also when that is the [-1] of an
    unregistered tag; the value written is [-1] or a registered slot below
    16, and nothing but the sink changes. *)
Theorem SetShaderTexture_passes_slot (w : World) (sm : ShaderManager) (textureTag : string) :
  registry_ok w ->
  m_pShaderManager w = Some sm ->
  exists slot,
    FindTextureSlot textureTag w = Done (slot, w) /\
    SetShaderTexture textureTag w
    = Done (tt, set_pShaderManager
                  (Some (sm ++ [setIntValue "bUseTexture" 1;
                                setSampler2DValue "objectTexture" slot])) w) /\
    (unregistered w textureTag -> slot = -1) /\
    (slot = -1 \/ 0 <= slot < m_loadedTextures w) /\
    slot < MAX_TEXTURES.
Proof.
  intros Hok Hsm.
  exists (index_of textureTag (registered_tags w) 0).
  split; [apply FindTextureSlot_index_of; exact Hok|].
  split.
  - unfold SetShaderTexture. step. rewrite Hsm.
    rewrite (bind_Done _ _ _ _ _ (sink_write_bound _ _ sm Hsm)).
    match goal with
    | |- context [bind (FindTextureSlot _) _ ?w1] =>
        assert (Hok1 : registry_ok w1) by exact Hok;
        rewrite (bind_Done _ _ _ _ _ (FindTextureSlot_index_of w1 textureTag Hok1));
        rewrite (sink_write_bound _ w1 (sm ++ [setIntValue g_UseTextureName 1]) eq_refl)
    end.
    rewrite set_pShaderManager_twice, <- app_assoc. reflexivity.
  - pose proof (index_of_bounds textureTag (registered_tags w) 0) as Hb.
    rewrite (registered_tags_length w Hok) in Hb.
    destruct Hok as [_ Hcount].
    split; [|split; [|]].
    + intros Hun. apply index_of_absent. apply unregistered_iff; [lia|exact Hun].
    + destruct Hb; [now left|right; lia].
    + destruct Hb as [->|Hb]; unfold MAX_TEXTURES in *; lia.
Qed.

Lemma SetShaderTexture_passes_slot_witness :
  registry_ok one_texture_world /\
  m_pShaderManager one_texture_world = Some [] /\
  exists slot,
    FindTextureSlot "wood" one_texture_world = Done (slot, one_texture_world) /\
    SetShaderTexture "wood" one_texture_world
    = Done (tt, set_pShaderManager
                  (Some ([] ++ [setIntValue "bUseTexture" 1;
                                setSampler2DValue "objectTexture" slot]))
                  one_texture_world) /\
    (unregistered one_texture_world "wood" -> slot = -1) /\
    (slot = -1 \/ 0 <= slot < m_loadedTextures one_texture_world) /\
    slot < MAX_TEXTURES.
Proof.
  assert (Hok : registry_ok one_texture_world).
  { unfold registry_ok, MAX_TEXTURES. cbn. lia. }
  assert (Hsm : m_pShaderManager one_texture_world = Some []) by reflexivity.
  split; [exact Hok|]. split; [exact Hsm|].
  exact (SetShaderTexture_passes_slot one_texture_world [] "wood" Hok Hsm).
Defined.

Lemma SetShaderMaterial_bound (materialTag : string) (material : OBJECT_MATERIAL.t)
    (w : World) (sm : ShaderManager) :
  m_pShaderManager w = Some sm ->
  m_objectMaterials w <> [] ->
  SetShaderMaterial materialTag material w
  = Done (tt, set_pShaderManager
                (Some (sm ++ material_uniforms
                               (match first_material materialTag (m_objectMaterials w) with
                                | Some e => copy_material e material
                                | None => material
                                end))) w).
Proof.
  intros Hsm Hne.
  unfold SetShaderMaterial. step.
  replace (Z.of_nat (length (m_objectMaterials w)) >? 0) with true.
  2:{ symmetry. apply Z.gtb_lt. destruct (m_objectMaterials w); [congruence|cbn [length]; lia]. }
  rewrite (bind_Done _ _ _ _ _ (FindMaterial_first materialTag material w)).
  cbn [fst snd].
  destruct (m_objectMaterials w) as [|x l] eqn:E; [congruence|]. cbv iota.
  set (m := match first_material materialTag (x :: l) with
            | Some e => copy_material e material
            | None => material
            end).
  rewrite (bind_Done _ _ _ _ _ (sink_write_bound _ _ sm Hsm)).
  do 3 (match goal with
        | |- context [bind (sink_write _) _ (set_pShaderManager (Some ?s) ?w1)] =>
            rewrite (bind_Done _ _ _ _ _
                       (sink_write_bound _ (set_pShaderManager (Some s) w1) s eq_refl));
            rewrite set_pShaderManager_twice
        end).
  match goal with
  | |- sink_write _ (set_pShaderManager (Some ?s) ?w1) = _ =>
      rewrite (sink_write_bound _ (set_pShaderManager (Some s) w1) s eq_refl);
      rewrite set_pShaderManager_twice
  end.
  unfold material_uniforms. rewrite <- !app_assoc. reflexivity.
Qed.

(** X10: with a sink and a catalog that has entries, [SetShaderMaterial]
    always makes five uniform writes.  When an entry bears the tag they
    carry the fields of the first such entry; when none does they carry
    whatever the local record held before the lookup, which the method never
    initialises. *)
Theorem SetShaderMaterial_uploads (w : World) (sm : ShaderManager) (materialTag : string)
    (material : OBJECT_MATERIAL.t) :
  m_pShaderManager w = Some sm ->
  m_objectMaterials w <> [] ->
  (forall l1 e l2,
      m_objectMaterials w = l1 ++ e :: l2 ->
      (forall x, x ∈ l1 -> OBJECT_MATERIAL.tag x <> materialTag) ->
      OBJECT_MATERIAL.tag e = materialTag ->
      SetShaderMaterial materialTag material w
      = Done (tt, set_pShaderManager (Some (sm ++ material_uniforms e)) w)) /\
  ((forall x, x ∈ m_objectMaterials w -> OBJECT_MATERIAL.tag x <> materialTag) ->
   SetShaderMaterial materialTag material w
   = Done (tt, set_pShaderManager (Some (sm ++ material_uniforms material)) w)).
Proof.
  intros Hsm Hne. split.
  - intros l1 e l2 Hcat Hbefore He.
    rewrite (SetShaderMaterial_bound materialTag material w sm Hsm Hne), Hcat,
      (first_material_split materialTag l1 l2 e Hbefore He).
    reflexivity.
  - intros Hmiss.
    rewrite (SetShaderMaterial_bound materialTag material w sm Hsm Hne),
      (first_material_absent materialTag _ Hmiss).
    reflexivity.
Qed.

Lemma SetShaderMaterial_uploads_witness :
  m_pShaderManager metal_world = Some [] /\
  m_objectMaterials metal_world <> [] /\
  SetShaderMaterial "woodMaterial" stale_material metal_world
  = Done (tt, set_pShaderManager (Some ([] ++ material_uniforms stale_material)) metal_world).
Proof.
  assert (Hsm : m_pShaderManager metal_world = Some []) by reflexivity.
  assert (Hne : m_objectMaterials metal_world <> []) by discriminate.
  split; [exact Hsm|]. split; [exact Hne|].
  apply (proj2 (SetShaderMaterial_uploads metal_world [] "woodMaterial" stale_material
                  Hsm Hne)).
  intros x Hx. apply list_elem_of_singleton in Hx. subst x. discriminate.
Defined.

(** ** The geometry of the model matrix *)
Section TransformFacts.
Import Glm.
Local Open Scope R_scope.

Lemma sin_cos_one (a : R) : sin a * sin a + cos a * cos a = 1.
Proof. pose proof (sin2_cos2 a) as H. unfold Rsqr in H. exact H. Qed.

Lemma dist2_Translate (t p q : vec3) :
  dist2 (Spec.apply (Spec.Translate t) p) (Spec.apply (Spec.Translate t) q) = dist2 p q.
Proof.
  rewrite !apply_Translate. destruct t, p, q. unfold dist2. cbn [x3 y3 z3]. ring.
Qed.

Lemma dist2_RotateX (a : R) (p q : vec3) :
  dist2 (Spec.apply (Spec.RotateX a) p) (Spec.apply (Spec.RotateX a) q) = dist2 p q.
Proof.
  rewrite !apply_RotateX. destruct p as [x1 y1 z1], q as [x2 y2 z2].
  unfold dist2. cbn [x3 y3 z3].
  transitivity ((x1 - x2) * (x1 - x2)
                + (sin a * sin a + cos a * cos a)
                  * ((y1 - y2) * (y1 - y2) + (z1 - z2) * (z1 - z2))); [ring|].
  rewrite sin_cos_one. ring.
Qed.

Lemma dist2_RotateY (a : R) (p q : vec3) :
  dist2 (Spec.apply (Spec.RotateY a) p) (Spec.apply (Spec.RotateY a) q) = dist2 p q.
Proof.
  rewrite !apply_RotateY. destruct p as [x1 y1 z1], q as [x2 y2 z2].
  unfold dist2. cbn [x3 y3 z3].
  transitivity ((y1 - y2) * (y1 - y2)
                + (sin a * sin a + cos a * cos a)
                  * ((x1 - x2) * (x1 - x2) + (z1 - z2) * (z1 - z2))); [ring|].
  rewrite sin_cos_one. ring.
Qed.

Lemma dist2_RotateZ (a : R) (p q : vec3) :
  dist2 (Spec.apply (Spec.RotateZ a) p) (Spec.apply (Spec.RotateZ a) q) = dist2 p q.
Proof.
  rewrite !apply_RotateZ. destruct p as [x1 y1 z1], q as [x2 y2 z2].
  unfold dist2. cbn [x3 y3 z3].
  transitivity ((z1 - z2) * (z1 - z2)
                + (sin a * sin a + cos a * cos a)
                  * ((x1 - x2) * (x1 - x2) + (y1 - y2) * (y1 - y2))); [ring|].
  rewrite sin_cos_one. ring.
Qed.

Lemma apply_Scale_one (p : vec3) : Spec.apply (Spec.Scale (Vec3 1 1 1)) p = p.
Proof.
  rewrite apply_Scale. destruct p. cbn [x3 y3 z3]. apply Vec3_eq; ring.
Qed.

(** X11: whatever the scale and the three angles, the matrix of
    [SetTransformations] takes the origin of the mesh to [positionXYZ]. *)
Theorem modelView_places_origin (s : vec3) (rx ry rz : R) (position : vec3) :
  Spec.apply (modelView s rx ry rz position) (Vec3 0 0 0) = position.
Proof.
  rewrite modelView_is_Compose, Compose_apply.
  rewrite apply_Scale. cbn [x3 y3 z3].
  rewrite apply_RotateZ. cbn [x3 y3 z3].
  rewrite apply_RotateY. cbn [x3 y3 z3].
  rewrite apply_RotateX. cbn [x3 y3 z3].
  rewrite apply_Translate. cbn [x3 y3 z3].
  destruct position, s. cbn [x3 y3 z3]. apply Vec3_eq; ring.
Qed.

(** X12: with the scale (1,1,1) the matrix of [SetTransformations] is a
    rigid motion: it keeps the distance between any two points, whatever
    the angles and the position. *)
Theorem modelView_unit_scale_is_rigid (rx ry rz : R) (position p q : vec3) :
  dist2 (Spec.apply (modelView (Vec3 1 1 1) rx ry rz position) p)
        (Spec.apply (modelView (Vec3 1 1 1) rx ry rz position) q)
  = dist2 p q.
Proof.
  rewrite modelView_is_Compose, !Compose_apply.
  now rewrite dist2_Translate, dist2_RotateX, dist2_RotateY, dist2_RotateZ,
    !apply_Scale_one.
Qed.

(** X13: the matrix of [SetTransformations] acts on a point as five maps
    in turn: the scale coordinate by coordinate, the rotation about Z, the
    rotation about Y, the rotation about X (angles in degrees), and last
    the translation by [positionXYZ]. *)
Theorem modelView_acts_in_order (s : vec3) (rx ry rz : R) (position p : vec3) :
  let p1 := Vec3 (x3 s * x3 p) (y3 s * y3 p) (z3 s * z3 p) in
  let az := rz * PI / 180 in
  let p2 := Vec3 (cos az * x3 p1 - sin az * y3 p1) (sin az * x3 p1 + cos az * y3 p1) (z3 p1) in
  let ay := ry * PI / 180 in
  let p3 := Vec3 (cos ay * x3 p2 + sin ay * z3 p2) (y3 p2) (cos ay * z3 p2 - sin ay * x3 p2) in
  let ax := rx * PI / 180 in
  let p4 := Vec3 (x3 p3) (cos ax * y3 p3 - sin ax * z3 p3) (sin ax * y3 p3 + cos ax * z3 p3) in
  Spec.apply (modelView s rx ry rz position) p
  = Vec3 (x3 p4 + x3 position) (y3 p4 + y3 position) (z3 p4 + z3 position).
Proof.
  intros p1 az p2 ay p3 ax p4.
  rewrite modelView_is_Compose, Compose_apply.
  rewrite apply_Scale, apply_RotateZ, apply_RotateY, apply_RotateX, apply_Translate.
  reflexivity.
Qed.

End TransformFacts.

(** ** [LoadSceneTextures] *)

Lemma LoadSceneTextures_load_then (w : World) :
  LoadSceneTextures w = load_then scene_textures BindGLTextures w.
Proof. reflexivity. Qed.

(** A load into a registry with a free slot returns, whatever the file
    holds, and registers at most one entry. *)
Lemma CreateGLTexture_below (w : World) (filename tag : string) :
  registry_ok w ->
  m_loadedTextures w < MAX_TEXTURES ->
  exists b w',
    CreateGLTexture filename tag w = Done (b, w') /\
    registry_ok w' /\
    m_loadedTextures w <= m_loadedTextures w' <= m_loadedTextures w + 1 /\
    files w' = files w.
Proof.
  intros Hok Hlt.
  destruct (files w filename) as [img|] eqn:Hf.
  - assert (Hcases : supported_channels img \/
                      (colorChannels img <> 3 /\ colorChannels img <> 4))
      by (unfold supported_channels; lia).
    destruct Hcases as [Hs|[H3 H4]].
    + destruct (CreateGLTexture_appends w filename tag img Hok Hlt Hf Hs)
        as (w' & Hrun & Hok' & Hn & _ & _ & Hfiles).
      exists true, w'. repeat split; try assumption; try apply Hok'; lia.
    + rewrite (CreateGLTexture_unsupported_run w filename tag img Hf H3 H4).
      eexists. eexists. split; [reflexivity|]. fields.
      split; [exact Hok|]. split; [lia|reflexivity].
  - rewrite (CreateGLTexture_decode_failure w filename tag Hf).
    eexists. eexists. split; [reflexivity|]. fields.
    split; [exact Hok|]. split; [lia|reflexivity].
Qed.

(** As many loads as there are free slots never leave the array. *)
Lemma load_then_within {A} (k : M A) (l : list (string * string)) :
  forall w,
    registry_ok w ->
    m_loadedTextures w + Z.of_nat (length l) <= MAX_TEXTURES ->
    exists w1,
      load_then l k w = k w1 /\
      registry_ok w1 /\
      m_loadedTextures w <= m_loadedTextures w1 <= m_loadedTextures w + Z.of_nat (length l) /\
      files w1 = files w.
Proof.
  induction l as [|[f t] l IH]; intros w Hok Hroom; cbn [load_then length] in *.
  - exists w. repeat split; try apply Hok; lia.
  - destruct (CreateGLTexture_below w f t Hok) as (b & w' & Hrun & Hok' & Hn & Hfiles); [lia|].
    rewrite (bind_Done _ _ _ _ _ Hrun).
    destruct (IH w' Hok') as (w1 & Hk & Hok1 & Hn1 & Hfiles1); [lia|].
    exists w1. split; [exact Hk|]. split; [exact Hok1|]. split; [lia|congruence].
Qed.

(** When every file decodes, every load registers its tag. *)
Lemma load_then_all {A} (k : M A) (l : list (string * string)) :
  forall w,
    registry_ok w ->
    m_loadedTextures w + Z.of_nat (length l) <= MAX_TEXTURES ->
    files_decode w l ->
    exists w1,
      load_then l k w = k w1 /\
      registry_ok w1 /\
      m_loadedTextures w1 = m_loadedTextures w + Z.of_nat (length l) /\
      registered_tags w1 = registered_tags w ++ map snd l.
Proof.
  induction l as [|[f t] l IH]; intros w Hok Hroom Hdec; cbn [load_then length map] in *.
  - exists w. rewrite app_nil_r. repeat split; try apply Hok; lia.
  - destruct (Hdec f t) as (img & Hf & Hs); [apply list_elem_of_here|].
    destruct (CreateGLTexture_appends w f t img Hok) as
      (w' & Hrun & Hok' & Hn & _ & _ & Hfiles); [lia|assumption|assumption|].
    destruct (CreateGLTexture_registered_tags w w' f t true Hok Hrun) as (_ & Htags & _).
    rewrite (bind_Done _ _ _ _ _ Hrun).
    destruct (IH w' Hok') as (w1 & Hk & Hok1 & Hn1 & Htags1); [lia| |].
    { intros f0 t0 Hin. rewrite Hfiles. apply (Hdec f0 t0). now apply list_elem_of_further. }
    exists w1. split; [exact Hk|]. split; [exact Hok1|]. split; [lia|].
    rewrite Htags1, Htags, <- app_assoc. reflexivity.
Qed.

(** When every file decodes and the loads outnumber the free slots, the
    run leaves the array. *)
Lemma load_then_overflow {A} (k : M A) (l : list (string * string)) :
  forall w,
    registry_ok w ->
    MAX_TEXTURES < m_loadedTextures w + Z.of_nat (length l) ->
    files_decode w l ->
    load_then l k w = Undefined.
Proof.
  induction l as [|[f t] l IH]; intros w Hok Hroom Hdec; cbn [load_then length] in *.
  - destruct Hok as [_ Hcount]. lia.
  - destruct (Hdec f t) as (img & Hf & Hs); [apply list_elem_of_here|].
    destruct (Z.eq_dec (m_loadedTextures w) MAX_TEXTURES) as [Hfull|Hnot].
    + now rewrite (bind_Undefined _ _ _
                     (CreateGLTexture_beyond_capacity w f t img Hok Hfull Hf Hs)).
    + destruct (CreateGLTexture_appends w f t img Hok) as
        (w' & Hrun & Hok' & Hn & _ & _ & Hfiles);
        [destruct Hok as [_ Hcount]; lia|assumption|assumption|].
      rewrite (bind_Done _ _ _ _ _ Hrun).
      apply IH; [exact Hok'|lia|].
      intros f0 t0 Hin. rewrite Hfiles. apply (Hdec f0 t0). now apply list_elem_of_further.
Qed.

(** X14: from a registry that holds at most 6 entries, [LoadSceneTextures]
    returns whatever the ten files hold: readable or not, supported or not,
    no store leaves the array, the registry stays well formed and gains at
    most ten entries. *)
Theorem LoadSceneTextures_with_room (w : World) :
  registry_ok w ->
  m_loadedTextures w <= 6 ->
  exists w',
    LoadSceneTextures w = Done (tt, w') /\
    registry_ok w' /\
    m_loadedTextures w <= m_loadedTextures w' <= m_loadedTextures w + 10.
Proof.
  intros Hok Hroom. rewrite LoadSceneTextures_load_then.
  destruct (load_then_within BindGLTextures scene_textures w Hok)
    as (w1 & Hk & Hok1 & Hn1 & _); [unfold MAX_TEXTURES; cbn; lia|].
  destruct (BindGLTextures_keeps_registry w1 Hok1) as (w' & Hrun & Hids & Hn).
  exists w'. rewrite Hk. split; [exact Hrun|]. split.
  - unfold registry_ok. rewrite Hids, Hn. exact Hok1.
  - rewrite Hn. cbn in Hn1. lia.
Qed.

Lemma LoadSceneTextures_with_room_witness :
  registry_ok one_texture_world /\
  m_loadedTextures one_texture_world <= 6 /\
  exists w',
    LoadSceneTextures one_texture_world = Done (tt, w') /\
    registry_ok w' /\
    m_loadedTextures one_texture_world <= m_loadedTextures w'
    <= m_loadedTextures one_texture_world + 10.
Proof.
  assert (Hok : registry_ok one_texture_world).
  { unfold registry_ok, MAX_TEXTURES. cbn. lia. }
  assert (Hroom : m_loadedTextures one_texture_world <= 6) by (cbn; lia).
  split; [exact Hok|]. split; [exact Hroom|].
  exact (LoadSceneTextures_with_room one_texture_world Hok Hroom).
Defined.

(** X15: from an empty registry, when each of the ten files decodes to an
    image of 3 or 4 channels, [LoadSceneTextures] registers the ten tags in
    the order of its calls: afterwards the count is 10 and [FindTextureSlot]
    returns for each tag the position of its load. *)
Theorem LoadSceneTextures_slots (w : World) :
  registry_ok w ->
  m_loadedTextures w = 0 ->
  scene_files_decode w ->
  exists w',
    LoadSceneTextures w = Done (tt, w') /\
    m_loadedTextures w' = 10 /\
    forall i f t, scene_textures !! i = Some (f, t) ->
                  FindTextureSlot t w' = Done (Z.of_nat i, w').
Proof.
  intros Hok H0 Hdec. rewrite LoadSceneTextures_load_then.
  destruct (load_then_all BindGLTextures scene_textures w Hok)
    as (w1 & Hk & Hok1 & Hn1 & Htags1); [unfold MAX_TEXTURES; cbn; lia|exact Hdec|].
  destruct (BindGLTextures_keeps_registry w1 Hok1) as (w' & Hrun & Hids & Hn).
  assert (Hok' : registry_ok w').
  { unfold registry_ok. rewrite Hids, Hn. exact Hok1. }
  assert (Htags : registered_tags w' = map snd scene_textures).
  { unfold registered_tags in *. rewrite Hids, Hn, Htags1, H0. reflexivity. }
  exists w'. rewrite Hk. split; [exact Hrun|]. split.
  - rewrite Hn, Hn1, H0. reflexivity.
  - intros i f t Hi.
    rewrite (FindTextureSlot_index_of w' t Hok'), Htags.
    unfold scene_textures in *.
    do 10 (destruct i as [|i]; [injection Hi as <- <-; reflexivity|]).
    discriminate.
Qed.

Lemma LoadSceneTextures_slots_witness :
  registry_ok scene_world /\
  m_loadedTextures scene_world = 0 /\
  scene_files_decode scene_world /\
  exists w',
    LoadSceneTextures scene_world = Done (tt, w') /\
    m_loadedTextures w' = 10 /\
    forall i f t, scene_textures !! i = Some (f, t) ->
                  FindTextureSlot t w' = Done (Z.of_nat i, w').
Proof.
  assert (Hok : registry_ok scene_world).
  { unfold registry_ok, MAX_TEXTURES. cbn. lia. }
  assert (H0 : m_loadedTextures scene_world = 0) by reflexivity.
  assert (Hdec : scene_files_decode scene_world).
  { intros f t _. exists rgb_image. split; [reflexivity|left; reflexivity]. }
  split; [exact Hok|]. split; [exact H0|]. split; [exact Hdec|].
  exact (LoadSceneTextures_slots scene_world Hok H0 Hdec).
Defined.

(** X16: from a registry that already holds more than 6 entries, when each
    of the ten files decodes to an image of 3 or 4 channels,
    [LoadSceneTextures] does not return: one of its loads stores into
    [m_textureIDs[16]], outside the array.  A second [LoadSceneTextures]
    after a first complete one is such a run. *)
Theorem LoadSceneTextures_without_room (w : World) :
  registry_ok w ->
  6 < m_loadedTextures w ->
  scene_files_decode w ->
  LoadSceneTextures w = Undefined.
Proof.
  intros Hok Hmany Hdec. rewrite LoadSceneTextures_load_then.
  apply load_then_overflow; [exact Hok| |exact Hdec].
  unfold MAX_TEXTURES. cbn. lia.
Qed.

Lemma LoadSceneTextures_without_room_witness :
  registry_ok seven_world /\
  6 < m_loadedTextures seven_world /\
  scene_files_decode seven_world /\
  LoadSceneTextures seven_world = Undefined.
Proof.
  assert (Hok : registry_ok seven_world).
  { unfold registry_ok, MAX_TEXTURES. cbn. lia. }
  assert (Hmany : 6 < m_loadedTextures seven_world) by reflexivity.
  assert (Hdec : scene_files_decode seven_world).
  { intros f t _. exists rgb_image. split; [reflexivity|left; reflexivity]. }
  split; [exact Hok|]. split; [exact Hmany|]. split; [exact Hdec|].
  exact (LoadSceneTextures_without_room seven_world Hok Hmany Hdec).
Defined.

(** The same, for the second of two calls in a row. *)
Example LoadSceneTextures_twice :
  (LoadSceneTextures ;; LoadSceneTextures) scene_world = Undefined.
Proof. vm_compute. reflexivity. Qed.

(** ** The registry after [DestroyGLTextures] *)

(** The loop over the slots [i .. i + n - 1]: slot [j] of them receives the
    name handed out at its turn and keeps its tag, every other slot is as
    before. *)
Lemma DestroyGLTextures_loop_slots (n : nat) :
  forall (i : Z) (w : World),
    0 <= i ->
    i + Z.of_nat n <= Z.of_nat (length (m_textureIDs w)) ->
    exists w',
      for_loop n i DestroyGLTextures_body w = Done (tt, w') /\
      m_loadedTextures w' = m_loadedTextures w /\
      length (m_textureIDs w') = length (m_textureIDs w) /\
      forall j e,
        array_get (m_textureIDs w) j = Some e ->
        array_get (m_textureIDs w') j
        = Some (if (i <=? j) && (j <? i + Z.of_nat n)
                then store_ID (gl_supply w (length (gl_names w) + Z.to_nat (j - i))%nat) e
                else e).
Proof.
  induction n as [|n IH]; intros i w Hi Hlen.
  - exists w. repeat split. intros j e He.
    replace ((i <=? j) && (j <? i + Z.of_nat 0)) with false; [exact He|].
    symmetry. apply andb_false_iff. destruct (Z.leb_spec i j); [right|now left].
    apply Z.ltb_ge. lia.
  - destruct (array_get_in_range (m_textureIDs w) i) as [ei Hei]; [lia|].
    cbn [for_loop]. unfold DestroyGLTextures_body at 1.
    set (name := gl_supply w (length (gl_names w))).
    assert (Hbody : (name0 <- glGenTextures1 ;; textureIDs_update i (store_ID name0)) w
                    = Done (tt, set_textureIDs (<[Z.to_nat i := store_ID name ei]> (m_textureIDs w))
                                  (set_gl_calls (gl_calls w ++ [GenTextures 1 name])
                                     (set_gl_names (gl_names w ++ [name]) w)))).
    { step.
      match goal with
      | |- textureIDs_update i _ ?w1 = _ =>
          rewrite (textureIDs_update_run i _ w1 ei Hei)
      end.
      reflexivity. }
    rewrite (bind_Done _ _ _ _ _ Hbody).
    match goal with
    | |- context [for_loop n (i + 1) _ ?w1] =>
        destruct (IH (i + 1) w1) as (w' & Hrun & Hcount & Hl & Hslots);
          [lia|fields; rewrite length_insert; lia|]
    end.
    fields_in Hcount. fields_in Hl. fields_in Hslots.
    exists w'. split; [exact Hrun|]. split; [exact Hcount|].
    split; [now rewrite Hl, length_insert|].
    intros j e He.
    pose proof (array_get_Some_range _ _ _ He) as Hj.
    destruct (Z.eq_dec j i) as [->|Hne].
    + rewrite (Hslots i (store_ID name ei)) by (apply array_get_insert_eq; lia).
      replace ((i + 1 <=? i) && (i <? i + 1 + Z.of_nat n)) with false
        by (symmetry; apply andb_false_iff; left; apply Z.leb_gt; lia).
      replace ((i <=? i) && (i <? i + Z.of_nat (S n))) with true
        by (symmetry; apply andb_true_iff; split; [apply Z.leb_le|apply Z.ltb_lt]; lia).
      rewrite Hei in He. injection He as <-.
      replace (Z.to_nat (i - i)) with 0%nat by lia. rewrite Nat.add_0_r. reflexivity.
    + rewrite (Hslots j e) by (rewrite array_get_insert_ne by lia; exact He).
      rewrite length_app. cbn [length].
      destruct (Z.leb_spec (i + 1) j) as [Hge|Hlt'].
      * replace (i <=? j) with true by (symmetry; apply Z.leb_le; lia).
        replace (j <? i + Z.of_nat (S n)) with (j <? i + 1 + Z.of_nat n)
          by (destruct (Z.ltb_spec j (i + 1 + Z.of_nat n)), (Z.ltb_spec j (i + Z.of_nat (S n)));
              try reflexivity; lia).
        cbn [andb]. destruct (j <? i + 1 + Z.of_nat n); [|reflexivity].
        do 3 f_equal. lia.
      * replace (i <=? j) with false by (symmetry; apply Z.leb_gt; lia).
        reflexivity.
Qed.

(** X17: after [DestroyGLTextures] every tag still resolves:
    [FindTextureSlot] returns what it returned before, and [FindTextureID]
    returns for a registered tag the name that [glGenTextures] handed out
    for its slot during the call, not the handle of the loaded texture. *)
Theorem DestroyGLTextures_keeps_registry_alive (w : World) :
  registry_ok w ->
  exists w',
    DestroyGLTextures w = Done (tt, w') /\
    forall tag slot,
      FindTextureSlot tag w = Done (slot, w) ->
      FindTextureSlot tag w' = Done (slot, w') /\
      (slot <> -1 ->
       FindTextureID tag w'
       = Done (int_of_GLuint
                 (gl_supply w (length (gl_names w) + Z.to_nat slot)%nat), w')).
Proof.
  intros Hok. pose proof Hok as [Hlen Hcount]. unfold MAX_TEXTURES in *.
  unfold DestroyGLTextures. step.
  destruct (DestroyGLTextures_loop_slots (Z.to_nat (m_loadedTextures w)) 0 w)
    as (w' & Hrun & Hn & Hl & Hslots); [lia|lia|].
  assert (Hok' : registry_ok w').
  { unfold registry_ok, MAX_TEXTURES. rewrite Hl, Hn. lia. }
  assert (Htags : registered_tags w' = registered_tags w).
  { unfold registered_tags. rewrite Hn.
    apply list_eq. intros k. rewrite !list_lookup_fmap, !lookup_take.
    destruct (decide (k < Z.to_nat (m_loadedTextures w))%nat) as [Hk|Hk]; [|reflexivity].
    destruct (array_get_in_range (m_textureIDs w) (Z.of_nat k)) as [e He]; [lia|].
    pose proof (Hslots _ _ He) as He'.
    unfold array_get in He, He'. destruct (0 <=? Z.of_nat k); [|discriminate].
    rewrite Nat2Z.id in He, He'. rewrite He, He'. cbn [fmap option_fmap option_map].
    destruct (true && (Z.of_nat k <? 0 + Z.of_nat (Z.to_nat (m_loadedTextures w))));
      reflexivity. }
  exists w'. split; [exact Hrun|].
  intros tag slot Hslot.
  rewrite (FindTextureSlot_index_of w tag Hok) in Hslot. injection Hslot as Hslot.
  split.
  - now rewrite (FindTextureSlot_index_of w' tag Hok'), Htags, Hslot.
  - intros Hfound.
    pose proof (index_of_bounds tag (registered_tags w) 0) as Hb.
    rewrite Hslot, (registered_tags_length w Hok) in Hb.
    destruct Hb as [Hb|Hb]; [contradiction|].
    destruct (array_get_in_range (m_textureIDs w) slot) as [e He]; [lia|].
    rewrite (FindTextureID_by_slot w' tag Hok'), Htags, Hslot, (Hslots _ _ He).
    replace ((0 <=? slot) && (slot <? 0 + Z.of_nat (Z.to_nat (m_loadedTextures w))))
      with true
      by (symmetry; apply andb_true_iff; split; [apply Z.leb_le|apply Z.ltb_lt]; lia).
    cbn [store_ID TEXTURE_INFO.ID]. rewrite Z.sub_0_r. reflexivity.
Qed.

Lemma DestroyGLTextures_keeps_registry_alive_witness :
  registry_ok shadowed_world /\
  exists w',
    DestroyGLTextures shadowed_world = Done (tt, w') /\
    forall tag slot,
      FindTextureSlot tag shadowed_world = Done (slot, shadowed_world) ->
      FindTextureSlot tag w' = Done (slot, w') /\
      (slot <> -1 ->
       FindTextureID tag w'
       = Done (int_of_GLuint
                 (gl_supply shadowed_world
                    (length (gl_names shadowed_world) + Z.to_nat slot)%nat), w')).
Proof.
  assert (Hok : registry_ok shadowed_world).
  { unfold registry_ok, MAX_TEXTURES. cbn. lia. }
  split; [exact Hok|].
  exact (DestroyGLTextures_keeps_registry_alive shadowed_world Hok).
Defined.

(** ** One object of the scene: the calls before a draw, and the draw *)

Lemma SetTransformations_bound (w : World) (sm : ShaderManager) (s : Glm.vec3)
    (rx ry rz : R) (p : Glm.vec3) :
  m_pShaderManager w = Some sm ->
  SetTransformations s rx ry rz p w
  = Done (tt, set_pShaderManager
                (Some (sm ++ [setMat4Value "model" (modelView s rx ry rz p)])) w).
Proof.
  intros Hsm. unfold SetTransformations. step. rewrite Hsm.
  now rewrite (sink_write_bound _ _ sm Hsm).
Qed.

Lemma SetShaderTexture_bound (w : World) (sm : ShaderManager) (tag : string) :
  registry_ok w ->
  m_pShaderManager w = Some sm ->
  SetShaderTexture tag w
  = Done (tt, set_pShaderManager
                (Some (sm ++ [setIntValue "bUseTexture" 1;
                              setSampler2DValue "objectTexture"
                                (index_of tag (registered_tags w) 0)])) w).
Proof.
  intros Hok Hsm. unfold SetShaderTexture. step. rewrite Hsm.
  rewrite (bind_Done _ _ _ _ _ (sink_write_bound _ _ sm Hsm)).
  match goal with
  | |- context [bind (FindTextureSlot _) _ ?w1] =>
      assert (Hok1 : registry_ok w1) by exact Hok;
      rewrite (bind_Done _ _ _ _ _ (FindTextureSlot_index_of w1 tag Hok1));
      rewrite (sink_write_bound _ w1 (sm ++ [setIntValue g_UseTextureName 1]) eq_refl)
  end.
  rewrite set_pShaderManager_twice, <- app_assoc. reflexivity.
Qed.

Lemma SetTextureUVScale_bound (w : World) (sm : ShaderManager) (u v : R) :
  m_pShaderManager w = Some sm ->
  SetTextureUVScale u v w
  = Done (tt, set_pShaderManager
                (Some (sm ++ [setVec2Value "UVscale" (Glm.Vec2 u v)])) w).
Proof.
  intros Hsm. unfold SetTextureUVScale. step. rewrite Hsm.
  now rewrite (sink_write_bound _ _ sm Hsm).
Qed.

Lemma SetShaderMaterial_writes (w : World) (sm : ShaderManager) (tag : string)
    (junk : OBJECT_MATERIAL.t) :
  m_pShaderManager w = Some sm ->
  SetShaderMaterial tag junk w
  = Done (tt, set_pShaderManager
                (Some (sm ++ shader_material_writes tag junk (m_objectMaterials w))) w).
Proof.
  intros Hsm. destruct (m_objectMaterials w) as [|x l] eqn:E.
  - rewrite (SetShaderMaterial_empty tag junk w E). cbn [shader_material_writes].
    do 2 f_equal. apply World_ext; fields; try reflexivity.
    now rewrite app_nil_r.
  - rewrite (SetShaderMaterial_bound tag junk w sm Hsm) by congruence.
    now rewrite E.
Qed.

Lemma DrawMesh_run (k : MeshKind) (meshes : ShapeMeshes) (w : World) :
  DrawMesh k meshes w = Done (meshes ++ [MkDraw k (m_pShaderManager w)], w).
Proof. reflexivity. Qed.

Lemma object_writes_set_sink (a : option ShaderManager) (w : World) s rx ry rz p tex uv mat junk :
  object_writes (set_pShaderManager a w) s rx ry rz p tex uv mat junk
  = object_writes w s rx ry rz p tex uv mat junk.
Proof. reflexivity. Qed.

(** An object that sets its UV scale, followed by the rest [k] of the
    method. *)
Lemma object_with_uv {A} (w : World) (sm : ShaderManager) (s : Glm.vec3) (rx ry rz : R)
    (p : Glm.vec3) (tex : string) (u v : R) (mat : string) (junk : OBJECT_MATERIAL.t)
    (kind : MeshKind) (meshes : ShapeMeshes) (k : ShapeMeshes -> M A) :
  registry_ok w ->
  m_pShaderManager w = Some sm ->
  (SetTransformations s rx ry rz p ;; SetShaderTexture tex ;; SetTextureUVScale u v ;;
   SetShaderMaterial mat junk ;; bind (DrawMesh kind meshes) k) w
  = k (meshes ++ [MkDraw kind
                    (Some (sm ++ object_writes w s rx ry rz p tex (Some (Glm.Vec2 u v))
                                   mat junk))])
      (set_pShaderManager
         (Some (sm ++ object_writes w s rx ry rz p tex (Some (Glm.Vec2 u v)) mat junk)) w).
Proof.
  intros Hok Hsm.
  rewrite (bind_Done _ _ _ _ _ (SetTransformations_bound w sm s rx ry rz p Hsm)).
  erewrite bind_Done by (apply SetShaderTexture_bound; [exact Hok|reflexivity]).
  rewrite set_pShaderManager_twice.
  erewrite bind_Done by (apply SetTextureUVScale_bound; reflexivity).
  rewrite set_pShaderManager_twice.
  erewrite bind_Done by (apply SetShaderMaterial_writes; reflexivity).
  rewrite set_pShaderManager_twice.
  rewrite (bind_Done _ _ _ _ _ (DrawMesh_run _ _ _)).
  unfold object_writes. cbn [m_pShaderManager set_pShaderManager m_objectMaterials].
  rewrite <- !app_assoc. reflexivity.
Qed.

(** An object that leaves the UV scale as it is. *)
Lemma object_without_uv {A} (w : World) (sm : ShaderManager) (s : Glm.vec3) (rx ry rz : R)
    (p : Glm.vec3) (tex : string) (mat : string) (junk : OBJECT_MATERIAL.t)
    (kind : MeshKind) (meshes : ShapeMeshes) (k : ShapeMeshes -> M A) :
  registry_ok w ->
  m_pShaderManager w = Some sm ->
  (SetTransformations s rx ry rz p ;; SetShaderTexture tex ;;
   SetShaderMaterial mat junk ;; bind (DrawMesh kind meshes) k) w
  = k (meshes ++ [MkDraw kind
                    (Some (sm ++ object_writes w s rx ry rz p tex None mat junk))])
      (set_pShaderManager
         (Some (sm ++ object_writes w s rx ry rz p tex None mat junk)) w).
Proof.
  intros Hok Hsm.
  rewrite (bind_Done _ _ _ _ _ (SetTransformations_bound w sm s rx ry rz p Hsm)).
  erewrite bind_Done by (apply SetShaderTexture_bound; [exact Hok|reflexivity]).
  rewrite set_pShaderManager_twice.
  erewrite bind_Done by (apply SetShaderMaterial_writes; reflexivity).
  rewrite set_pShaderManager_twice.
  rewrite (bind_Done _ _ _ _ _ (DrawMesh_run _ _ _)).
  unfold object_writes. cbn [m_pShaderManager set_pShaderManager m_objectMaterials app].
  rewrite <- !app_assoc. reflexivity.
Qed.

(** The monad law that turns the last draw of a method into a draw followed
    by [ret]. *)
Lemma bind_ret_r {A} (c : M A) (w : World) : c w = bind c ret w.
Proof. unfold bind, ret. destruct (c w) as [[a w']|]; reflexivity. Qed.

(** The last object of a method, with and without a UV scale. *)
Lemma last_object_with_uv (w : World) (sm : ShaderManager) (s : Glm.vec3) (rx ry rz : R)
    (p : Glm.vec3) (tex : string) (u v : R) (mat : string) (junk : OBJECT_MATERIAL.t)
    (kind : MeshKind) (meshes : ShapeMeshes) :
  registry_ok w ->
  m_pShaderManager w = Some sm ->
  (SetTransformations s rx ry rz p ;; SetShaderTexture tex ;; SetTextureUVScale u v ;;
   SetShaderMaterial mat junk ;; DrawMesh kind meshes) w
  = Done (meshes ++ [MkDraw kind
                       (Some (sm ++ object_writes w s rx ry rz p tex (Some (Glm.Vec2 u v))
                                      mat junk))],
          set_pShaderManager
            (Some (sm ++ object_writes w s rx ry rz p tex (Some (Glm.Vec2 u v)) mat junk)) w).
Proof.
  intros Hok Hsm.
  rewrite (bind_Done _ _ _ _ _ (SetTransformations_bound w sm s rx ry rz p Hsm)).
  erewrite bind_Done by (apply SetShaderTexture_bound; [exact Hok|reflexivity]).
  rewrite set_pShaderManager_twice.
  erewrite bind_Done by (apply SetTextureUVScale_bound; reflexivity).
  rewrite set_pShaderManager_twice.
  erewrite bind_Done by (apply SetShaderMaterial_writes; reflexivity).
  rewrite set_pShaderManager_twice, DrawMesh_run.
  unfold object_writes. cbn [m_pShaderManager set_pShaderManager m_objectMaterials].
  rewrite <- !app_assoc. reflexivity.
Qed.

Lemma last_object_without_uv (w : World) (sm : ShaderManager) (s : Glm.vec3) (rx ry rz : R)
    (p : Glm.vec3) (tex : string) (mat : string) (junk : OBJECT_MATERIAL.t)
    (kind : MeshKind) (meshes : ShapeMeshes) :
  registry_ok w ->
  m_pShaderManager w = Some sm ->
  (SetTransformations s rx ry rz p ;; SetShaderTexture tex ;;
   SetShaderMaterial mat junk ;; DrawMesh kind meshes) w
  = Done (meshes ++ [MkDraw kind
                       (Some (sm ++ object_writes w s rx ry rz p tex None mat junk))],
          set_pShaderManager
            (Some (sm ++ object_writes w s rx ry rz p tex None mat junk)) w).
Proof.
  intros Hok Hsm.
  rewrite (bind_Done _ _ _ _ _ (SetTransformations_bound w sm s rx ry rz p Hsm)).
  erewrite bind_Done by (apply SetShaderTexture_bound; [exact Hok|reflexivity]).
  rewrite set_pShaderManager_twice.
  erewrite bind_Done by (apply SetShaderMaterial_writes; reflexivity).
  rewrite set_pShaderManager_twice, DrawMesh_run.
  unfold object_writes. cbn [m_pShaderManager set_pShaderManager m_objectMaterials app].
  rewrite <- !app_assoc. reflexivity.
Qed.

(** One object of a method run on a sink, whichever of the four shapes it
    has; the state stays of the form [set_pShaderManager _ w]. *)
Ltac render_object Hok :=
  first
    [ erewrite object_with_uv by (first [exact Hok | reflexivity])
    | erewrite object_without_uv by (first [exact Hok | reflexivity])
    | erewrite last_object_with_uv by (first [exact Hok | reflexivity])
    | erewrite last_object_without_uv by (first [exact Hok | reflexivity]) ];
  rewrite ?set_pShaderManager_twice, ?object_writes_set_sink.

Lemma set_pShaderManager_same (w : World) (sm : ShaderManager) :
  m_pShaderManager w = Some sm -> set_pShaderManager (Some sm) w = w.
Proof. intros H. apply World_ext; fields; congruence. Qed.

(** ** The render methods as tables *)

Lemma RenderPencil_run (w : World) (sm : ShaderManager) (junk : nat -> OBJECT_MATERIAL.t)
    (meshes : ShapeMeshes) :
  registry_ok w ->
  m_pShaderManager w = Some sm ->
  RenderPencil junk meshes w
  = Done (meshes ++ snd (placements_trace w sm junk 0 pencil_placements),
          set_pShaderManager (Some (fst (placements_trace w sm junk 0 pencil_placements))) w).
Proof.
  intros Hok Hsm. unfold RenderPencil.
  rewrite (object_with_uv w sm) by assumption.
  do 5 render_object Hok.
  cbn [placements_trace pencil_placements fst snd placement_writes
       p_scale p_rotX p_rotY p_rotZ p_position p_texture p_uv p_material p_mesh].
  rewrite <- !app_assoc. reflexivity.
Qed.

Lemma RenderCards_run (w : World) (sm : ShaderManager) (junk : nat -> OBJECT_MATERIAL.t)
    (meshes : ShapeMeshes) :
  registry_ok w ->
  m_pShaderManager w = Some sm ->
  RenderCards junk meshes w
  = Done (meshes ++ snd (placements_trace w sm junk 0 cards_placements),
          set_pShaderManager (Some (fst (placements_trace w sm junk 0 cards_placements))) w).
Proof.
  intros Hok Hsm. unfold RenderCards.
  rewrite (object_with_uv w sm) by assumption.
  do 6 render_object Hok.
  cbn [placements_trace cards_placements fst snd placement_writes
       p_scale p_rotX p_rotY p_rotZ p_position p_texture p_uv p_material p_mesh].
  rewrite <- !app_assoc. reflexivity.
Qed.

Lemma RenderDice_run (w : World) (sm : ShaderManager) (junk : nat -> OBJECT_MATERIAL.t)
    (meshes : ShapeMeshes) :
  registry_ok w ->
  m_pShaderManager w = Some sm ->
  RenderDice junk meshes w
  = Done (meshes ++ snd (placements_trace w sm junk 0 dice_placements),
          set_pShaderManager (Some (fst (placements_trace w sm junk 0 dice_placements))) w).
Proof.
  intros Hok Hsm. unfold RenderDice.
  rewrite (object_with_uv w sm) by assumption.
  render_object Hok.
  cbn [placements_trace dice_placements fst snd placement_writes
       p_scale p_rotX p_rotY p_rotZ p_position p_texture p_uv p_material p_mesh].
  rewrite <- !app_assoc. reflexivity.
Qed.

Lemma placements_trace_set_sink (a : option ShaderManager) (w : World) (junk : nat -> OBJECT_MATERIAL.t)
    (pls : list Placement) :
  forall sm k,
    placements_trace (set_pShaderManager a w) sm junk k pls = placements_trace w sm junk k pls.
Proof.
  induction pls as [|pl pls IH]; intros sm k; cbn [placements_trace]; [reflexivity|].
  unfold placement_writes. rewrite object_writes_set_sink, IH. reflexivity.
Qed.

(** [RenderScene] on a sink is the rendering of the three tables in turn. *)
Lemma RenderScene_run (w : World) (sm : ShaderManager) (junk : nat -> nat -> OBJECT_MATERIAL.t)
    (meshes : ShapeMeshes) :
  registry_ok w ->
  m_pShaderManager w = Some sm ->
  RenderScene junk meshes w
  = Done (meshes ++ snd (scene_trace w sm junk),
          set_pShaderManager (Some (fst (scene_trace w sm junk))) w).
Proof.
  intros Hok Hsm. unfold RenderScene.
  rewrite (bind_Done _ _ _ _ _ (RenderPencil_run w sm (junk 0%nat) meshes Hok Hsm)).
  erewrite bind_Done by (apply RenderCards_run; [exact Hok|reflexivity]).
  rewrite set_pShaderManager_twice, placements_trace_set_sink.
  erewrite RenderDice_run by (first [exact Hok|reflexivity]).
  rewrite set_pShaderManager_twice, placements_trace_set_sink.
  unfold scene_trace. cbn [fst snd]. rewrite <- !app_assoc. reflexivity.
Qed.

(** ** What the tables say about a rendering *)

Lemma placements_trace_meshes (w : World) (junk : nat -> OBJECT_MATERIAL.t)
    (pls : list Placement) :
  forall sm k, map mesh (snd (placements_trace w sm junk k pls)) = map p_mesh pls.
Proof.
  induction pls as [|pl pls IH]; intros sm k; cbn [placements_trace snd map mesh];
    [reflexivity|].
  now rewrite IH.
Qed.

Lemma placements_trace_extends (w : World) (junk : nat -> OBJECT_MATERIAL.t)
    (pls : list Placement) :
  forall sm k, exists added, fst (placements_trace w sm junk k pls) = sm ++ added.
Proof.
  induction pls as [|pl pls IH]; intros sm k; cbn [placements_trace fst].
  - exists []. now rewrite app_nil_r.
  - destruct (IH (sm ++ placement_writes w (junk k) pl) (S k)) as [added H].
    exists (placement_writes w (junk k) pl ++ added). now rewrite H, app_assoc.
Qed.

Lemma sampler_writes_app (l l' : list UniformWrite) :
  sampler_writes (l ++ l') = sampler_writes l ++ sampler_writes l'.
Proof.
  induction l as [|u l IH]; cbn [sampler_writes app]; [reflexivity|].
  destruct u; cbn [app]; now rewrite ?IH.
Qed.

Lemma sampler_writes_material (tag : string) (junk : OBJECT_MATERIAL.t)
    (catalog : list OBJECT_MATERIAL.t) :
  sampler_writes (shader_material_writes tag junk catalog) = [].
Proof. destruct catalog; reflexivity. Qed.

Lemma sampler_writes_placement (w : World) (junk : OBJECT_MATERIAL.t) (pl : Placement) :
  sampler_writes (placement_writes w junk pl)
  = [index_of (p_texture pl) (registered_tags w) 0].
Proof.
  unfold placement_writes, object_writes.
  rewrite !sampler_writes_app, sampler_writes_material.
  destruct (p_uv pl); reflexivity.
Qed.

(** The sampler values of a rendering: one per placement, the slot of its
    texture tag. *)
Lemma placements_trace_samplers (w : World) (junk : nat -> OBJECT_MATERIAL.t)
    (pls : list Placement) :
  forall sm k,
    sampler_writes (fst (placements_trace w sm junk k pls))
    = sampler_writes sm
      ++ map (fun pl => index_of (p_texture pl) (registered_tags w) 0) pls.
Proof.
  induction pls as [|pl pls IH]; intros sm k; cbn [placements_trace fst map].
  - now rewrite app_nil_r.
  - rewrite IH, sampler_writes_app, sampler_writes_placement, <- app_assoc. reflexivity.
Qed.

(** When the catalog holds the material of every placement, the rendering
    does not read the uninitialised records. *)
Lemma placements_trace_junk (w : World) (junk junk' : nat -> OBJECT_MATERIAL.t)
    (pls : list Placement) :
  (forall pl, pl ∈ pls -> first_material (p_material pl) (m_objectMaterials w) <> None) ->
  forall sm k k',
    placements_trace w sm junk k pls = placements_trace w sm junk' k' pls.
Proof.
  induction pls as [|pl pls IH]; intros Hfound sm k k'; cbn [placements_trace];
    [reflexivity|].
  assert (Hw : placement_writes w (junk k) pl = placement_writes w (junk' k') pl).
  { unfold placement_writes, object_writes, shader_material_writes.
    specialize (Hfound pl (list_elem_of_here _ _)).
    destruct (m_objectMaterials w); [reflexivity|].
    destruct (first_material (p_material pl) _); [reflexivity|congruence]. }
  rewrite Hw, (IH (fun pl' H => Hfound pl' (list_elem_of_further _ _ _ H)) _ (S k) (S k')).
  reflexivity.
Qed.

Lemma scene_trace_meshes (w : World) (sm : ShaderManager) (junk : nat -> nat -> OBJECT_MATERIAL.t) :
  map mesh (snd (scene_trace w sm junk)) = map p_mesh scene_placements.
Proof.
  unfold scene_trace, scene_placements. cbn [snd].
  now rewrite !map_app, !placements_trace_meshes.
Qed.

Lemma scene_trace_samplers (w : World) (sm : ShaderManager) (junk : nat -> nat -> OBJECT_MATERIAL.t) :
  sampler_writes (fst (scene_trace w sm junk))
  = sampler_writes sm
    ++ map (fun pl => index_of (p_texture pl) (registered_tags w) 0) scene_placements.
Proof.
  unfold scene_trace, scene_placements. cbn [fst].
  now rewrite !placements_trace_samplers, !map_app, <- !app_assoc.
Qed.

Lemma scene_trace_extends (w : World) (sm : ShaderManager) (junk : nat -> nat -> OBJECT_MATERIAL.t) :
  exists added,
    fst (scene_trace w sm junk) = sm ++ added /\
    sampler_writes added
    = map (fun pl => index_of (p_texture pl) (registered_tags w) 0) scene_placements.
Proof.
  pose proof (scene_trace_samplers w sm junk) as Hs.
  unfold scene_trace in *. cbn [fst] in *.
  destruct (placements_trace_extends w (junk 0%nat) pencil_placements sm 0%nat) as [a1 H1].
  rewrite H1 in *.
  destruct (placements_trace_extends w (junk 1%nat) cards_placements (sm ++ a1) 0%nat) as [a2 H2].
  rewrite H2 in *.
  destruct (placements_trace_extends w (junk 2%nat) dice_placements ((sm ++ a1) ++ a2) 0%nat)
    as [a3 H3].
  rewrite H3 in *.
  exists (a1 ++ a2 ++ a3). split; [now rewrite <- !app_assoc|].
  rewrite <- !app_assoc, sampler_writes_app in Hs.
  now apply app_inv_head in Hs.
Qed.

Lemma scene_trace_sinks (w : World) (sm : ShaderManager) (junk : nat -> nat -> OBJECT_MATERIAL.t) :
  Forall (fun d => uniforms_at_draw d <> None) (snd (scene_trace w sm junk)).
Proof.
  assert (H : forall j pls sm0 k,
             Forall (fun d => uniforms_at_draw d <> None)
                    (snd (placements_trace w sm0 j k pls))).
  { intros j pls. induction pls as [|pl pls IH]; intros sm0 k; cbn [placements_trace snd].
    - constructor.
    - constructor; [discriminate|apply IH]. }
  unfold scene_trace. cbn [snd]. rewrite !Forall_app. repeat split; apply H.
Qed.

(** ** Rendering without a sink *)

Lemma SetTransformations_null (w : World) (s : Glm.vec3) (rx ry rz : R) (p : Glm.vec3) :
  m_pShaderManager w = None -> SetTransformations s rx ry rz p w = Done (tt, w).
Proof. intros H. unfold SetTransformations. step. now rewrite H. Qed.

Lemma SetShaderTexture_null (w : World) (tag : string) :
  m_pShaderManager w = None -> SetShaderTexture tag w = Done (tt, w).
Proof. intros H. unfold SetShaderTexture. step. now rewrite H. Qed.

Lemma SetTextureUVScale_null (w : World) (u v : R) :
  m_pShaderManager w = None -> SetTextureUVScale u v w = Done (tt, w).
Proof. intros H. unfold SetTextureUVScale. step. now rewrite H. Qed.

(** Without a sink and without materials the calls before a draw do
    nothing. *)
Lemma null_object_with_uv {A} (w : World) (s : Glm.vec3) (rx ry rz : R)
    (p : Glm.vec3) (tex : string) (u v : R) (mat : string) (junk : OBJECT_MATERIAL.t)
    (kind : MeshKind) (meshes : ShapeMeshes) (k : ShapeMeshes -> M A) :
  m_pShaderManager w = None ->
  m_objectMaterials w = [] ->
  (SetTransformations s rx ry rz p ;; SetShaderTexture tex ;; SetTextureUVScale u v ;;
   SetShaderMaterial mat junk ;; bind (DrawMesh kind meshes) k) w
  = k (meshes ++ [MkDraw kind None]) w.
Proof.
  intros Hnull Hempty.
  rewrite (bind_Done _ _ _ _ _ (SetTransformations_null w s rx ry rz p Hnull)).
  rewrite (bind_Done _ _ _ _ _ (SetShaderTexture_null w tex Hnull)).
  rewrite (bind_Done _ _ _ _ _ (SetTextureUVScale_null w u v Hnull)).
  rewrite (bind_Done _ _ _ _ _ (SetShaderMaterial_empty mat junk w Hempty)).
  rewrite (bind_Done _ _ _ _ _ (DrawMesh_run kind meshes w)).
  now rewrite Hnull.
Qed.

Lemma null_object_without_uv {A} (w : World) (s : Glm.vec3) (rx ry rz : R)
    (p : Glm.vec3) (tex : string) (mat : string) (junk : OBJECT_MATERIAL.t)
    (kind : MeshKind) (meshes : ShapeMeshes) (k : ShapeMeshes -> M A) :
  m_pShaderManager w = None ->
  m_objectMaterials w = [] ->
  (SetTransformations s rx ry rz p ;; SetShaderTexture tex ;;
   SetShaderMaterial mat junk ;; bind (DrawMesh kind meshes) k) w
  = k (meshes ++ [MkDraw kind None]) w.
Proof.
  intros Hnull Hempty.
  rewrite (bind_Done _ _ _ _ _ (SetTransformations_null w s rx ry rz p Hnull)).
  rewrite (bind_Done _ _ _ _ _ (SetShaderTexture_null w tex Hnull)).
  rewrite (bind_Done _ _ _ _ _ (SetShaderMaterial_empty mat junk w Hempty)).
  rewrite (bind_Done _ _ _ _ _ (DrawMesh_run kind meshes w)).
  now rewrite Hnull.
Qed.

Lemma null_last_object_with_uv (w : World) (s : Glm.vec3) (rx ry rz : R)
    (p : Glm.vec3) (tex : string) (u v : R) (mat : string) (junk : OBJECT_MATERIAL.t)
    (kind : MeshKind) (meshes : ShapeMeshes) :
  m_pShaderManager w = None ->
  m_objectMaterials w = [] ->
  (SetTransformations s rx ry rz p ;; SetShaderTexture tex ;; SetTextureUVScale u v ;;
   SetShaderMaterial mat junk ;; DrawMesh kind meshes) w
  = Done (meshes ++ [MkDraw kind None], w).
Proof.
  intros Hnull Hempty.
  rewrite (bind_Done _ _ _ _ _ (SetTransformations_null w s rx ry rz p Hnull)).
  rewrite (bind_Done _ _ _ _ _ (SetShaderTexture_null w tex Hnull)).
  rewrite (bind_Done _ _ _ _ _ (SetTextureUVScale_null w u v Hnull)).
  rewrite (bind_Done _ _ _ _ _ (SetShaderMaterial_empty mat junk w Hempty)).
  now rewrite DrawMesh_run, Hnull.
Qed.

Lemma null_last_object_without_uv (w : World) (s : Glm.vec3) (rx ry rz : R)
    (p : Glm.vec3) (tex : string) (mat : string) (junk : OBJECT_MATERIAL.t)
    (kind : MeshKind) (meshes : ShapeMeshes) :
  m_pShaderManager w = None ->
  m_objectMaterials w = [] ->
  (SetTransformations s rx ry rz p ;; SetShaderTexture tex ;;
   SetShaderMaterial mat junk ;; DrawMesh kind meshes) w
  = Done (meshes ++ [MkDraw kind None], w).
Proof.
  intros Hnull Hempty.
  rewrite (bind_Done _ _ _ _ _ (SetTransformations_null w s rx ry rz p Hnull)).
  rewrite (bind_Done _ _ _ _ _ (SetShaderTexture_null w tex Hnull)).
  rewrite (bind_Done _ _ _ _ _ (SetShaderMaterial_empty mat junk w Hempty)).
  now rewrite DrawMesh_run, Hnull.
Qed.

Ltac null_object Hnull Hempty :=
  first
    [ rewrite (null_object_with_uv _ _ _ _ _ _ _ _ _ _ _ _ _ _ Hnull Hempty)
    | rewrite (null_object_without_uv _ _ _ _ _ _ _ _ _ _ _ _ Hnull Hempty)
    | rewrite (null_last_object_with_uv _ _ _ _ _ _ _ _ _ _ _ _ _ Hnull Hempty)
    | rewrite (null_last_object_without_uv _ _ _ _ _ _ _ _ _ _ _ Hnull Hempty) ].

Lemma RenderPencil_null (w : World) (junk : nat -> OBJECT_MATERIAL.t) (meshes : ShapeMeshes) :
  m_pShaderManager w = None ->
  m_objectMaterials w = [] ->
  RenderPencil junk meshes w
  = Done (meshes ++ map (fun pl => MkDraw (p_mesh pl) None) pencil_placements, w).
Proof.
  intros Hnull Hempty. unfold RenderPencil. do 6 null_object Hnull Hempty.
  cbn [map pencil_placements p_mesh]. rewrite <- !app_assoc. reflexivity.
Qed.

Lemma RenderCards_null (w : World) (junk : nat -> OBJECT_MATERIAL.t) (meshes : ShapeMeshes) :
  m_pShaderManager w = None ->
  m_objectMaterials w = [] ->
  RenderCards junk meshes w
  = Done (meshes ++ map (fun pl => MkDraw (p_mesh pl) None) cards_placements, w).
Proof.
  intros Hnull Hempty. unfold RenderCards. do 7 null_object Hnull Hempty.
  cbn [map cards_placements p_mesh]. rewrite <- !app_assoc. reflexivity.
Qed.

Lemma RenderDice_null (w : World) (junk : nat -> OBJECT_MATERIAL.t) (meshes : ShapeMeshes) :
  m_pShaderManager w = None ->
  m_objectMaterials w = [] ->
  RenderDice junk meshes w
  = Done (meshes ++ map (fun pl => MkDraw (p_mesh pl) None) dice_placements, w).
Proof.
  intros Hnull Hempty. unfold RenderDice. do 2 null_object Hnull Hempty.
  cbn [map dice_placements p_mesh]. rewrite <- !app_assoc. reflexivity.
Qed.

(** Without a sink and with materials, the first [SetShaderMaterial] of a
    method calls through the null pointer. *)
Lemma null_object_undefined {A} (w : World) (s : Glm.vec3) (rx ry rz : R)
    (p : Glm.vec3) (tex : string) (u v : R) (mat : string) (junk : OBJECT_MATERIAL.t)
    (rest : M A) :
  m_pShaderManager w = None ->
  m_objectMaterials w <> [] ->
  (SetTransformations s rx ry rz p ;; SetShaderTexture tex ;; SetTextureUVScale u v ;;
   SetShaderMaterial mat junk ;; rest) w
  = Undefined.
Proof.
  intros Hnull Hne.
  rewrite (bind_Done _ _ _ _ _ (SetTransformations_null w s rx ry rz p Hnull)).
  rewrite (bind_Done _ _ _ _ _ (SetShaderTexture_null w tex Hnull)).
  rewrite (bind_Done _ _ _ _ _ (SetTextureUVScale_null w u v Hnull)).
  now rewrite (bind_Undefined _ _ _ (SetShaderMaterial_unbound mat junk w Hnull Hne)).
Qed.

(** ** Materials and UV scales along a rendering *)

Lemma scene_trace_junk (w : World) (sm : ShaderManager) (junk junk' : nat -> nat -> OBJECT_MATERIAL.t) :
  (forall pl, pl ∈ scene_placements ->
              first_material (p_material pl) (m_objectMaterials w) <> None) ->
  scene_trace w sm junk = scene_trace w sm junk'.
Proof.
  intros Hfound. unfold scene_trace, scene_placements in *.
  rewrite (placements_trace_junk w (junk 0%nat) (junk' 0%nat) pencil_placements)
    with (k' := 0%nat)
    by (intros pl H; apply Hfound; rewrite elem_of_app; now left).
  rewrite (placements_trace_junk w (junk 1%nat) (junk' 1%nat) cards_placements)
    with (k' := 0%nat)
    by (intros pl H; apply Hfound; rewrite !elem_of_app; right; now left).
  rewrite (placements_trace_junk w (junk 2%nat) (junk' 2%nat) dice_placements)
    with (k' := 0%nat)
    by (intros pl H; apply Hfound; rewrite !elem_of_app; right; now right).
  reflexivity.
Qed.

(** Each material tag of the scene is one of the nine of
    [DefineObjectMaterials]. *)
Lemma scene_materials_defined (pl : Placement) :
  pl ∈ scene_placements ->
  first_material (p_material pl) defined_materials <> None.
Proof.
  unfold scene_placements, pencil_placements, cards_placements, dice_placements.
  cbn [app]. intros H.
  repeat (apply elem_of_cons in H as [->|H]; [discriminate|]).
  now apply elem_of_nil in H.
Qed.

Lemma UVscale_of_app (l l' : list UniformWrite) :
  forall current, UVscale_of (l ++ l') current = UVscale_of l' (UVscale_of l current).
Proof.
  induction l as [|u l IH]; intros current; cbn [app UVscale_of]; [reflexivity|].
  destruct u; apply IH.
Qed.

Lemma UVscale_of_material (tag : string) (junk : OBJECT_MATERIAL.t)
    (catalog : list OBJECT_MATERIAL.t) (current : option Glm.vec2) :
  UVscale_of (shader_material_writes tag junk catalog) current = current.
Proof. destruct catalog; reflexivity. Qed.

(** A placement leaves the UV scale as it found it unless it sets one. *)
Lemma UVscale_of_placement (w : World) (junk : OBJECT_MATERIAL.t) (pl : Placement)
    (current : option Glm.vec2) :
  UVscale_of (placement_writes w junk pl) current
  = match p_uv pl with Some v => Some v | None => current end.
Proof.
  unfold placement_writes, object_writes.
  rewrite !UVscale_of_app, UVscale_of_material.
  destruct (p_uv pl); reflexivity.
Qed.

(** X18: with a sink and a well-formed registry, [RenderScene] returns
    whatever textures and materials are registered: it makes fifteen draw
    calls, of these meshes in this order, each with the sink in place; it
    only adds writes to the sink, and changes nothing else of the state. *)
Theorem RenderScene_draws (w : World) (sm : ShaderManager)
    (junk : nat -> nat -> OBJECT_MATERIAL.t) (meshes : ShapeMeshes) :
  registry_ok w ->
  m_pShaderManager w = Some sm ->
  exists draws added,
    RenderScene junk meshes w
    = Done (meshes ++ draws, set_pShaderManager (Some (sm ++ added)) w) /\
    map mesh draws
    = [PlaneMesh; CylinderMesh; CylinderMesh; CylinderMesh; TaperedCylinderMesh; ConeMesh;
       BoxMesh; BoxMesh; PlaneMesh; PlaneMesh; PlaneMesh; PlaneMesh; PlaneMesh;
       Pyramid3Mesh; BoxMesh] /\
    Forall (fun d => uniforms_at_draw d <> None) draws.
Proof.
  intros Hok Hsm.
  destruct (scene_trace_extends w sm junk) as (added & Hadded & _).
  exists (snd (scene_trace w sm junk)), added.
  rewrite (RenderScene_run w sm junk meshes Hok Hsm), Hadded.
  split; [reflexivity|]. split; [|apply scene_trace_sinks].
  now rewrite scene_trace_meshes.
Qed.

Lemma RenderScene_draws_witness :
  registry_ok one_texture_world /\
  m_pShaderManager one_texture_world = Some [] /\
  exists draws added,
    RenderScene (fun _ _ => stale_material) [] one_texture_world
    = Done ([] ++ draws, set_pShaderManager (Some ([] ++ added)) one_texture_world) /\
    map mesh draws
    = [PlaneMesh; CylinderMesh; CylinderMesh; CylinderMesh; TaperedCylinderMesh; ConeMesh;
       BoxMesh; BoxMesh; PlaneMesh; PlaneMesh; PlaneMesh; PlaneMesh; PlaneMesh;
       Pyramid3Mesh; BoxMesh] /\
    Forall (fun d => uniforms_at_draw d <> None) draws.
Proof.
  assert (Hok : registry_ok one_texture_world).
  { unfold registry_ok, MAX_TEXTURES. cbn. lia. }
  split; [exact Hok|]. split; [reflexivity|].
  exact (RenderScene_draws one_texture_world [] (fun _ _ => stale_material) [] Hok eq_refl).
Defined.

(** X19: without a sink, [RenderScene] depends on the catalog.  With no
    material defined every call before a draw does nothing: the fifteen
    draws are made with no uniform set and the state is unchanged.  With a
    material defined it does not return: the first [SetShaderMaterial], of
    the play mat, calls through the null pointer, before any draw. *)
Theorem RenderScene_without_sink (w : World) (junk : nat -> nat -> OBJECT_MATERIAL.t)
    (meshes : ShapeMeshes) :
  m_pShaderManager w = None ->
  RenderScene junk meshes w
  = match m_objectMaterials w with
    | [] => Done (meshes ++ map (fun k => MkDraw k None)
                              [PlaneMesh; CylinderMesh; CylinderMesh; CylinderMesh;
                               TaperedCylinderMesh; ConeMesh;
                               BoxMesh; BoxMesh; PlaneMesh; PlaneMesh; PlaneMesh;
                               PlaneMesh; PlaneMesh;
                               Pyramid3Mesh; BoxMesh], w)
    | _ :: _ => Undefined
    end.
Proof.
  intros Hnull. unfold RenderScene.
  destruct (m_objectMaterials w) as [|e l] eqn:E.
  - rewrite (bind_Done _ _ _ _ _ (RenderPencil_null w (junk 0%nat) meshes Hnull E)).
    rewrite (bind_Done _ _ _ _ _ (RenderCards_null w (junk 1%nat) _ Hnull E)).
    rewrite (RenderDice_null w (junk 2%nat) _ Hnull E).
    rewrite <- !app_assoc. reflexivity.
  - apply bind_Undefined. unfold RenderPencil.
    apply null_object_undefined; [exact Hnull|congruence].
Qed.

Lemma RenderScene_without_sink_witness :
  m_pShaderManager unbound_world = None /\
  RenderScene (fun _ _ => stale_material) [] unbound_world = Undefined.
Proof.
  split; [reflexivity|].
  exact (RenderScene_without_sink unbound_world (fun _ _ => stale_material) [] eq_refl).
Defined.

(** X20: the value that [RenderScene] writes to the sampler for each of its
    fifteen objects is what [FindTextureSlot] answers for the tag of the
    object in the state before the call, [-1] included: the registry is
    not changed on the way. *)
Theorem RenderScene_samplers (w : World) (sm : ShaderManager)
    (junk : nat -> nat -> OBJECT_MATERIAL.t) (meshes : ShapeMeshes) :
  registry_ok w ->
  m_pShaderManager w = Some sm ->
  exists draws added,
    RenderScene junk meshes w
    = Done (meshes ++ draws, set_pShaderManager (Some (sm ++ added)) w) /\
    Forall2 (fun tag slot => FindTextureSlot tag w = Done (slot, w))
      ["playmat"; "pencilCylinder"; "metal"; "rubber"; "wood"; "lead";
       "deck"; "plastic"; "plains"; "plastic"; "plastic"; "plastic"; "plastic";
       "marble"; "marble"]%string
      (sampler_writes added).
Proof.
  intros Hok Hsm.
  destruct (scene_trace_extends w sm junk) as (added & Hadded & Hsamplers).
  exists (snd (scene_trace w sm junk)), added.
  rewrite (RenderScene_run w sm junk meshes Hok Hsm), Hadded.
  split; [reflexivity|]. rewrite Hsamplers.
  unfold scene_placements, pencil_placements, cards_placements, dice_placements.
  cbn [app map p_texture].
  repeat (constructor; [apply (FindTextureSlot_index_of w _ Hok)|]).
  constructor.
Qed.

Lemma RenderScene_samplers_witness :
  registry_ok prepared_world /\
  m_pShaderManager prepared_world = Some [] /\
  exists draws added,
    RenderScene (fun _ _ => stale_material) [] prepared_world
    = Done ([] ++ draws, set_pShaderManager (Some ([] ++ added)) prepared_world) /\
    Forall2 (fun tag slot => FindTextureSlot tag prepared_world = Done (slot, prepared_world))
      ["playmat"; "pencilCylinder"; "metal"; "rubber"; "wood"; "lead";
       "deck"; "plastic"; "plains"; "plastic"; "plastic"; "plastic"; "plastic";
       "marble"; "marble"]%string
      (sampler_writes added).
Proof.
  assert (Hok : registry_ok prepared_world).
  { unfold registry_ok, MAX_TEXTURES. cbn. lia. }
  split; [exact Hok|]. split; [reflexivity|].
  exact (RenderScene_samplers prepared_world [] (fun _ _ => stale_material) [] Hok eq_refl).
Defined.

(** X21: on a prepared scene (the ten textures of [LoadSceneTextures] and
    the nine materials of [DefineObjectMaterials]) every tag that
    [RenderScene] uses resolves: the slots written to the sampler are
    0, 2, 3, 8, 1, 6, 7, 5, 4, 5, 5, 5, 5, 9, 9, none of them [-1], and the
    result does not depend on the first contents of the uninitialised
    material records. *)
Theorem RenderScene_prepared (w : World) (sm : ShaderManager) (meshes : ShapeMeshes) :
  scene_prepared w ->
  m_pShaderManager w = Some sm ->
  exists draws added,
    (forall junk,
        RenderScene junk meshes w
        = Done (meshes ++ draws, set_pShaderManager (Some (sm ++ added)) w)) /\
    sampler_writes added = [0; 2; 3; 8; 1; 6; 7; 5; 4; 5; 5; 5; 5; 9; 9].
Proof.
  intros (Hok & Htags & Hcatalog) Hsm.
  pose (junk0 := fun _ _ : nat => metalMaterial).
  destruct (scene_trace_extends w sm junk0) as (added & Hadded & Hsamplers).
  exists (snd (scene_trace w sm junk0)), added. split.
  - intros junk. rewrite (RenderScene_run w sm junk meshes Hok Hsm).
    rewrite (scene_trace_junk w sm junk junk0), Hadded; [reflexivity|].
    rewrite Hcatalog. apply scene_materials_defined.
  - rewrite Hsamplers, Htags. reflexivity.
Qed.

Lemma RenderScene_prepared_witness :
  scene_prepared prepared_world /\
  m_pShaderManager prepared_world = Some [] /\
  exists draws added,
    (forall junk,
        RenderScene junk [] prepared_world
        = Done ([] ++ draws, set_pShaderManager (Some ([] ++ added)) prepared_world)) /\
    sampler_writes added = [0; 2; 3; 8; 1; 6; 7; 5; 4; 5; 5; 5; 5; 9; 9].
Proof.
  assert (Hprep : scene_prepared prepared_world).
  { split; [|split; reflexivity]. unfold registry_ok, MAX_TEXTURES. cbn. lia. }
  split; [exact Hprep|]. split; [reflexivity|].
  exact (RenderScene_prepared prepared_world [] [] Hprep eq_refl).
Defined.

(** X22: [RenderPencil] calls [SetTextureUVScale] for four of its six
    objects only.  The eraser (fourth draw) is therefore rendered with the
    UV scale (0.7, 0.7) that the metal ferrule set before it, and the lead
    (sixth draw) with the (1, 1) of the wooden tip, whatever the sink held
    before. *)
Theorem RenderPencil_carries_UVscale (w : World) (sm : ShaderManager)
    (junk : nat -> OBJECT_MATERIAL.t) (meshes : ShapeMeshes) :
  registry_ok w ->
  m_pShaderManager w = Some sm ->
  exists draws w',
    RenderPencil junk meshes w = Done (meshes ++ draws, w') /\
    map UVscale_at draws
    = [Some (Glm.Vec2 1 1); Some (Glm.Vec2 1 1);
       Some (Glm.Vec2 (7 / 10) (7 / 10)); Some (Glm.Vec2 (7 / 10) (7 / 10));
       Some (Glm.Vec2 1 1); Some (Glm.Vec2 1 1)]%R.
Proof.
  intros Hok Hsm. rewrite (RenderPencil_run w sm junk meshes Hok Hsm).
  eexists. eexists. split; [reflexivity|].
  unfold pencil_placements.
  cbn [placements_trace snd map UVscale_at uniforms_at_draw].
  rewrite !UVscale_of_app, !UVscale_of_placement.
  reflexivity.
Qed.

Lemma RenderPencil_carries_UVscale_witness :
  registry_ok prepared_world /\
  m_pShaderManager prepared_world = Some [] /\
  exists draws w',
    RenderPencil (fun _ => stale_material) [] prepared_world = Done ([] ++ draws, w') /\
    map UVscale_at draws
    = [Some (Glm.Vec2 1 1); Some (Glm.Vec2 1 1);
       Some (Glm.Vec2 (7 / 10) (7 / 10)); Some (Glm.Vec2 (7 / 10) (7 / 10));
       Some (Glm.Vec2 1 1); Some (Glm.Vec2 1 1)]%R.
Proof.
  assert (Hok : registry_ok prepared_world).
  { unfold registry_ok, MAX_TEXTURES. cbn. lia. }
  split; [exact Hok|]. split; [reflexivity|].
  exact (RenderPencil_carries_UVscale prepared_world [] (fun _ => stale_material) [] Hok eq_refl).
Defined.

(** ** Loads that fail on the way *)

Lemma loadable_files (w w' : World) (filename : string) :
  files w' = files w -> loadable w' filename = loadable w filename.
Proof. intros H. unfold loadable. now rewrite H. Qed.

(** With a free slot, a load returns [true] exactly for a loadable file;
    it keeps the files, the catalog and the sink. *)
Lemma CreateGLTexture_loadable (w : World) (filename tag : string) :
  registry_ok w ->
  m_loadedTextures w < MAX_TEXTURES ->
  exists w',
    CreateGLTexture filename tag w = Done (loadable w filename, w') /\
    registry_ok w' /\
    registered_tags w'
    = (if loadable w filename then registered_tags w ++ [tag] else registered_tags w) /\
    m_loadedTextures w <= m_loadedTextures w' <= m_loadedTextures w + 1 /\
    files w' = files w /\
    m_objectMaterials w' = m_objectMaterials w /\
    m_pShaderManager w' = m_pShaderManager w.
Proof.
  intros Hok Hlt.
  assert (Hrun : exists w', CreateGLTexture filename tag w = Done (loadable w filename, w')).
  { unfold loadable. destruct (files w filename) as [img|] eqn:Hf.
    - destruct (Z.eq_dec (colorChannels img) 3) as [H3|H3];
        [|destruct (Z.eq_dec (colorChannels img) 4) as [H4|H4]].
      + destruct (CreateGLTexture_appends w filename tag img Hok Hlt Hf (or_introl H3))
          as (w' & Hrun & _).
        exists w'. rewrite Hrun, H3. reflexivity.
      + destruct (CreateGLTexture_appends w filename tag img Hok Hlt Hf (or_intror H4))
          as (w' & Hrun & _).
        exists w'. rewrite Hrun, H4. reflexivity.
      + rewrite (CreateGLTexture_unsupported_run w filename tag img Hf H3 H4).
        apply Z.eqb_neq in H3, H4. rewrite H3, H4. eexists. reflexivity.
    - rewrite (CreateGLTexture_decode_failure w filename tag Hf). eexists. reflexivity. }
  destruct Hrun as [w' Hrun]. exists w'. split; [exact Hrun|].
  destruct (CreateGLTexture_registered_tags w w' filename tag _ Hok Hrun) as (Hok' & Htags & _).
  destruct (CreateGLTexture_Done_inv w w' filename tag _ Hok Hrun)
    as (Hfiles & Hcat & Hsink & Hn).
  split; [exact Hok'|]. split; [exact Htags|].
  split; [destruct Hn as [(_ & _ & Hn)|(_ & _ & _ & Hn)]; lia|].
  split; [exact Hfiles|]. split; [exact Hcat|exact Hsink].
Qed.

(** As many loads as there are free slots register the tags of the
    loadable files, in order. *)
Lemma load_then_loadable {A} (k : M A) (l : list (string * string)) :
  forall w,
    registry_ok w ->
    m_loadedTextures w + Z.of_nat (length l) <= MAX_TEXTURES ->
    exists w1,
      load_then l k w = k w1 /\
      registry_ok w1 /\
      registered_tags w1
      = registered_tags w ++ map snd (List.filter (fun ft => loadable w (fst ft)) l) /\
      files w1 = files w /\
      m_objectMaterials w1 = m_objectMaterials w /\
      m_pShaderManager w1 = m_pShaderManager w.
Proof.
  induction l as [|[f t] l IH]; intros w Hok Hroom; cbn [load_then length] in *.
  - exists w. cbn [List.filter map]. rewrite app_nil_r. repeat split; apply Hok.
  - destruct (CreateGLTexture_loadable w f t Hok)
      as (w' & Hrun & Hok' & Htags & Hn & Hfiles & Hcat & Hsink); [lia|].
    rewrite (bind_Done _ _ _ _ _ Hrun).
    destruct (IH w' Hok') as (w1 & Hk & Hok1 & Htags1 & Hfiles1 & Hcat1 & Hsink1); [lia|].
    exists w1. split; [exact Hk|]. split; [exact Hok1|].
    split; [|split; [congruence|split; congruence]].
    rewrite Htags1, Htags.
    rewrite (List.filter_ext (fun ft => loadable w' (fst ft)) (fun ft => loadable w (fst ft)))
      by (intros ft; now apply loadable_files).
    cbn [List.filter fst]. destruct (loadable w f); cbn [map snd].
    + now rewrite <- app_assoc.
    + reflexivity.
Qed.

Lemma BindGLTextures_calls_only (w : World) :
  registry_ok w ->
  BindGLTextures w
  = Done (tt, set_gl_calls
                (gl_calls w ++
                 unit_bindings (take (Z.to_nat (m_loadedTextures w)) (m_textureIDs w)) 0) w).
Proof.
  intros [Hlen Hcount]. unfold MAX_TEXTURES in *.
  unfold BindGLTextures. step.
  rewrite BindGLTextures_loop_calls by lia. reflexivity.
Qed.

(** [LoadSceneTextures] with room for its ten loads. *)
Lemma LoadSceneTextures_loadable (w : World) :
  registry_ok w ->
  m_loadedTextures w <= 6 ->
  exists w',
    LoadSceneTextures w = Done (tt, w') /\
    registry_ok w' /\
    registered_tags w'
    = registered_tags w
      ++ map snd (List.filter (fun ft => loadable w (fst ft)) scene_textures) /\
    m_objectMaterials w' = m_objectMaterials w /\
    m_pShaderManager w' = m_pShaderManager w.
Proof.
  intros Hok Hroom. rewrite LoadSceneTextures_load_then.
  destruct (load_then_loadable BindGLTextures scene_textures w Hok)
    as (w1 & Hk & Hok1 & Htags1 & _ & Hcat1 & Hsink1); [unfold MAX_TEXTURES; cbn; lia|].
  rewrite Hk, (BindGLTextures_calls_only w1 Hok1).
  eexists. split; [reflexivity|].
  split; [exact Hok1|]. split; [exact Htags1|]. split; [exact Hcat1|exact Hsink1].
Qed.

Lemma filter_all {A} (f : A -> bool) (l : list A) :
  (forall x, x ∈ l -> f x = true) -> List.filter f l = l.
Proof.
  induction l as [|x l IH]; intros H; cbn [List.filter]; [reflexivity|].
  rewrite (H x (list_elem_of_here _ _)), IH; [reflexivity|].
  intros y Hy. apply H. now apply list_elem_of_further.
Qed.

(** X23: [LoadSceneTextures] never looks at what its loads return.  From a
    registry with room for the ten, it registers the tags of those files
    that decode to 3 or 4 channels, in the order of the calls and without
    gaps: each failed load moves every later tag one slot down. *)
Theorem LoadSceneTextures_skips_failed_loads (w : World) :
  registry_ok w ->
  m_loadedTextures w <= 6 ->
  exists w',
    LoadSceneTextures w = Done (tt, w') /\
    registered_tags w'
    = registered_tags w
      ++ map snd (List.filter (fun ft => loadable w (fst ft)) scene_textures) /\
    forall tag,
      FindTextureSlot tag w'
      = Done (index_of tag
                (registered_tags w
                 ++ map snd (List.filter (fun ft => loadable w (fst ft)) scene_textures)) 0,
              w').
Proof.
  intros Hok Hroom.
  destruct (LoadSceneTextures_loadable w Hok Hroom) as (w' & Hrun & Hok' & Htags & _).
  exists w'. split; [exact Hrun|]. split; [exact Htags|].
  intros tag. rewrite <- Htags. apply (FindTextureSlot_index_of w' tag Hok').
Qed.

Lemma LoadSceneTextures_skips_failed_loads_witness :
  registry_ok no_wood_world /\
  m_loadedTextures no_wood_world <= 6 /\
  exists w',
    LoadSceneTextures no_wood_world = Done (tt, w') /\
    registered_tags w'
    = ["playmat"; "pencilCylinder"; "metal"; "plains"; "plastic"; "lead"; "deck";
       "rubber"; "marble"]%string /\
    FindTextureSlot "wood" w' = Done (-1, w') /\
    FindTextureSlot "pencilCylinder" w' = Done (1, w').
Proof.
  assert (Hok : registry_ok no_wood_world).
  { unfold registry_ok, MAX_TEXTURES. cbn. lia. }
  assert (Hroom : m_loadedTextures no_wood_world <= 6) by (cbn; lia).
  split; [exact Hok|]. split; [exact Hroom|].
  destruct (LoadSceneTextures_skips_failed_loads no_wood_world Hok Hroom)
    as (w' & Hrun & Htags & Hfind).
  exists w'. split; [exact Hrun|]. split; [exact Htags|].
  split; [exact (Hfind "wood"%string)|exact (Hfind "pencilCylinder"%string)].
Defined.

(** X24: the first two calls of [PrepareScene] prepare the scene.  From an
    empty registry and an empty catalog, when the ten files decode to 3 or
    4 channels, [LoadSceneTextures] followed by [DefineObjectMaterials]
    returns with the ten tags registered in the order of the loads and the
    nine materials in the catalog, the sink as it was. *)
Theorem textures_then_materials_prepare_scene (w : World) :
  registry_ok w ->
  m_loadedTextures w = 0 ->
  m_objectMaterials w = [] ->
  scene_files_decode w ->
  exists w',
    (LoadSceneTextures ;; DefineObjectMaterials) w = Done (tt, w') /\
    scene_prepared w' /\
    m_pShaderManager w' = m_pShaderManager w.
Proof.
  intros Hok H0 Hempty Hdec.
  destruct (LoadSceneTextures_loadable w Hok) as (w1 & Hrun & Hok1 & Htags & Hcat & Hsink);
    [lia|].
  rewrite (bind_Done _ _ _ _ _ Hrun), DefineObjectMaterials_run.
  eexists. split; [reflexivity|]. split; [|exact Hsink].
  split; [exact Hok1|]. split.
  - change (registered_tags w1 = map snd scene_textures). rewrite Htags.
    rewrite filter_all.
    + unfold registered_tags. now rewrite H0.
    + intros [f t] Hin. destruct (Hdec f t Hin) as (img & Hf & [H3|H4]);
        unfold loadable; cbn [fst]; rewrite Hf.
      * now rewrite H3.
      * rewrite H4. apply orb_true_r.
  - cbn [m_objectMaterials set_objectMaterials]. now rewrite Hcat, Hempty.
Qed.

Lemma textures_then_materials_prepare_scene_witness :
  registry_ok scene_world /\
  m_loadedTextures scene_world = 0 /\
  m_objectMaterials scene_world = [] /\
  scene_files_decode scene_world /\
  exists w',
    (LoadSceneTextures ;; DefineObjectMaterials) scene_world = Done (tt, w') /\
    scene_prepared w' /\
    m_pShaderManager w' = m_pShaderManager scene_world.
Proof.
  assert (Hok : registry_ok scene_world).
  { unfold registry_ok, MAX_TEXTURES. cbn. lia. }
  assert (Hdec : scene_files_decode scene_world).
  { intros f t _. exists rgb_image. split; [reflexivity|left; reflexivity]. }
  split; [exact Hok|]. split; [reflexivity|]. split; [reflexivity|]. split; [exact Hdec|].
  exact (textures_then_materials_prepare_scene scene_world Hok eq_refl eq_refl Hdec).
Defined.

(** ** The lights and the sink *)

Lemma SetupSceneLights_unbound (setBoolValue : string -> bool -> UniformWrite) (w : World) :
  m_pShaderManager w = None -> SetupSceneLights setBoolValue w = Undefined.
Proof.
  intros Hnull. unfold SetupSceneLights.
  apply bind_Undefined. now apply sink_write_unbound.
Qed.

(** Loads keep the sink, whether or not they stay within the array. *)
Lemma load_then_sink {A} (k : M A) (l : list (string * string)) :
  forall w,
    registry_ok w ->
    load_then l k w = Undefined \/
    exists w1,
      load_then l k w = k w1 /\
      registry_ok w1 /\
      m_pShaderManager w1 = m_pShaderManager w.
Proof.
  induction l as [|[f t] l IH]; intros w Hok; cbn [load_then].
  - right. exists w. repeat split; apply Hok.
  - destruct (CreateGLTexture f t w) as [[b w']|] eqn:Hrun.
    + rewrite (bind_Done _ _ _ _ _ Hrun).
      destruct (CreateGLTexture_registered_tags w w' f t b Hok Hrun) as (Hok' & _).
      destruct (CreateGLTexture_Done_inv w w' f t b Hok Hrun) as (_ & _ & Hsink & _).
      destruct (IH w' Hok') as [Hundef|(w1 & Hk & Hok1 & Hsink1)]; [now left|].
      right. exists w1. split; [exact Hk|]. split; [exact Hok1|congruence].
    + left. now apply bind_Undefined.
Qed.

(** X25: [SetupSceneLights] has no test of [m_pShaderManager], unlike
    [SetTransformations], [SetShaderColor], [SetShaderTexture] and
    [SetTextureUVScale]: without a sink it does not return, its first
    write calls through the null pointer; with a sink it returns after
    thirteen writes, the lighting flag first, and changes nothing but the
    sink. *)
Theorem SetupSceneLights_unguarded (setBoolValue : string -> bool -> UniformWrite) (w : World) :
  match m_pShaderManager w with
  | None => SetupSceneLights setBoolValue w = Undefined
  | Some sm =>
      exists added,
        SetupSceneLights setBoolValue w
        = Done (tt, set_pShaderManager
                      (Some (sm ++ setBoolValue "bUseLighting"%string true :: added)) w) /\
        length added = 12%nat
  end.
Proof.
  destruct (m_pShaderManager w) as [sm|] eqn:Hsm.
  - unfold SetupSceneLights.
    rewrite (bind_Done _ _ _ _ _ (sink_write_bound _ _ sm Hsm)).
    do 11 (erewrite bind_Done by (apply sink_write_bound; reflexivity);
           rewrite set_pShaderManager_twice).
    erewrite sink_write_bound by reflexivity.
    rewrite set_pShaderManager_twice, <- !app_assoc. cbn [app].
    eexists. split; reflexivity.
  - now apply SetupSceneLights_unbound.
Qed.

(** X26: a scene manager without a sink cannot be prepared: whatever the
    registry holds and the files decode to, the first three calls of
    [PrepareScene] do not return.  Either a load stores outside the array,
    or the loads and [DefineObjectMaterials] leave the sink null and
    [SetupSceneLights] calls through it. *)
Theorem PrepareScene_needs_sink (setBoolValue : string -> bool -> UniformWrite) (w : World) :
  registry_ok w ->
  m_pShaderManager w = None ->
  (LoadSceneTextures ;; DefineObjectMaterials ;; SetupSceneLights setBoolValue) w = Undefined.
Proof.
  intros Hok Hnull.
  destruct (load_then_sink BindGLTextures scene_textures w Hok)
    as [Hundef|(w1 & Hk & Hok1 & Hsink1)].
  - apply bind_Undefined. now rewrite LoadSceneTextures_load_then.
  - assert (Hrun : LoadSceneTextures w
                   = Done (tt, set_gl_calls
                                 (gl_calls w1 ++
                                  unit_bindings
                                    (take (Z.to_nat (m_loadedTextures w1)) (m_textureIDs w1)) 0)
                                 w1)).
    { rewrite LoadSceneTextures_load_then, Hk. apply (BindGLTextures_calls_only w1 Hok1). }
    rewrite (bind_Done _ _ _ _ _ Hrun).
    rewrite (bind_Done _ _ _ _ _ (DefineObjectMaterials_run _)).
    apply SetupSceneLights_unbound. unfold set_objectMaterials. fields. congruence.
Qed.

Lemma PrepareScene_needs_sink_witness :
  registry_ok unbound_world /\
  m_pShaderManager unbound_world = None /\
  (LoadSceneTextures ;; DefineObjectMaterials ;;
   SetupSceneLights (fun name b => setIntValue name (if b then 1 else 0))) unbound_world
  = Undefined.
Proof.
  assert (Hok : registry_ok unbound_world).
  { unfold registry_ok, MAX_TEXTURES. cbn. lia. }
  split; [exact Hok|]. split; [reflexivity|].
  exact (PrepareScene_needs_sink _ unbound_world Hok eq_refl).
Defined.
